(** * Verification of the mail extraction and classification pipeline

    Shallow embedding of [email_classifier.py] (class [EmailClassifier]),
    [pst_extractor.py] (class [PSTExtractor]) and the entry point
    [extract_pst.py], followed by the properties of the specification stated
    over that embedding. *)

From Stdlib Require Import ZArith NArith Lia Bool.
From Stdlib Require Import Strings.String Strings.Ascii.
From stdpp Require Import gmap strings list pretty.

Local Open Scope Z_scope.

(* ===================================================================== *)
(** ** Python text: sequences of Unicode code points *)
(* ===================================================================== *)

Module PyStr.

(** A Python [str] is a sequence of code points.  The tables below are
    exact on U+0000..U+00FF, the alphabet in which every pattern of the
    classifier is written; a code point above that range is carried through
    unchanged and belongs to none of the classes [\w], [\s], [\d]. *)
Definition pystr := list N.

(** An ASCII literal of the source, as a [pystr]. *)
Definition py (s : string) : pystr :=
  List.map N_of_ascii (list_ascii_of_string s).

Definition in_range (lo hi c : N) : bool := ((lo <=? c) && (c <=? hi))%N.

Definition is_ascii_lower (c : N) : bool := in_range 97 122 c.
Definition is_ascii_upper (c : N) : bool := in_range 65 90 c.

(** [str.upper()], one code point at a time.  U+00DF expands to "SS",
    U+00B5 and U+00FF leave Latin-1. *)
Definition upper_char (c : N) : list N :=
  if is_ascii_lower c then [c - 32]%N
  else if (c =? 181)%N then [924%N]
  else if (c =? 223)%N then [83%N; 83%N]
  else if in_range 224 246 c || in_range 248 254 c then [c - 32]%N
  else if (c =? 255)%N then [376%N]
  else [c].

Definition upper (s : pystr) : pystr := List.concat (List.map upper_char s).

(** Simple lower-casing of one code point, the folding that
    [re.IGNORECASE] applies to both pattern and text. *)
Definition lower_char (c : N) : N :=
  if is_ascii_upper c then (c + 32)%N
  else if in_range 192 214 c || in_range 216 222 c then (c + 32)%N
  else c.

Definition is_digit (c : N) : bool := in_range 48 57 c.

(** [\s] of a [str] pattern. *)
Definition is_space (c : N) : bool :=
  in_range 9 13 c || in_range 28 32 c || (c =? 133)%N || (c =? 160)%N.

(** [\w] of a [str] pattern: [str.isalnum()] or the underscore. *)
Definition is_word (c : N) : bool :=
  is_digit c || is_ascii_upper c || is_ascii_lower c || (c =? 95)%N
  || (c =? 170)%N || in_range 178 179 c || (c =? 181)%N
  || in_range 185 186 c || in_range 188 190 c
  || in_range 192 214 c || in_range 216 246 c || in_range 248 255 c.

Fixpoint eqb (a b : pystr) : bool :=
  match a, b with
  | [], [] => true
  | x :: a', y :: b' => (x =? y)%N && eqb a' b'
  | _, _ => false
  end.

Fixpoint startswith (s p : pystr) : bool :=
  match p, s with
  | [], _ => true
  | c :: p', x :: s' => (c =? x)%N && startswith s' p'
  | _ :: _, [] => false
  end.

(** [p in s] *)
Fixpoint contains (p s : pystr) : bool :=
  startswith s p ||
  match s with
  | [] => false
  | _ :: s' => contains p s'
  end.

(** [s.endswith(p)] *)
Definition endswith (s p : pystr) : bool :=
  startswith (List.rev s) (List.rev p).

(** [any(word in s for word in words)] *)
Definition any_in (words : list pystr) (s : pystr) : bool :=
  List.existsb (fun w => contains w s) words.

(** Truthiness of a string. *)
Definition truthy (s : pystr) : bool :=
  match s with [] => false | _ :: _ => true end.

(** [a or b] on strings. *)
Definition or_else (a b : pystr) : pystr := if truthy a then a else b.

End PyStr.

(* ===================================================================== *)
(** ** The fragment of [re] used by the pattern tables *)
(* ===================================================================== *)

Module Re.
Import PyStr.

(** One-character items. *)
Inductive cset :=
| Chr (c : N)            (* a literal character *)
| OneOf (cs : list N)    (* [..] *)
| Digit                  (* \d *)
| Space                  (* \s *)
| Word                   (* \w *)
| Dot.                   (* .  (no DOTALL: excludes the newline) *)

Inductive regex :=
| Eps
| One (c : cset)
| Bnd                    (* \b *)
| NotAhead (c : cset)    (* (?!c) *)
| Seq (r1 r2 : regex)
| Or (r1 r2 : regex)
| Star (c : cset)        (* c*  greedy *)
| Plus (c : cset)        (* c+  greedy *)
| UpTo (n : nat) (c : cset)  (* c{0,n} greedy *)
| Group (r : regex).     (* ( r ), capturing *)

(** Membership of a text character in an item, under [re.IGNORECASE]. *)
Definition cmatch (c : cset) (x : N) : bool :=
  match c with
  | Chr a => (lower_char a =? lower_char x)%N
  | OneOf cs => List.existsb (fun a => (lower_char a =? lower_char x)%N) cs
  | Digit => is_digit x
  | Space => is_space x
  | Word => is_word x
  | Dot => negb (x =? 10)%N
  end.

Definition word_at (o : option N) : bool :=
  match o with Some x => is_word x | None => false end.

(** A continuation receives the character before the current position, the
    remaining text and the text of the last group closed so far. *)
Definition cont := option N -> pystr -> pystr -> option pystr.

Fixpoint star_loop (c : cset) (k : cont) (prev : option N) (s g : pystr)
  : option pystr :=
  match s with
  | x :: s' =>
      if cmatch c x then
        match star_loop c k (Some x) s' g with
        | Some r => Some r
        | None => k prev s g
        end
      else k prev s g
  | [] => k prev s g
  end.

Fixpoint upto_loop (n : nat) (c : cset) (k : cont) (prev : option N)
  (s g : pystr) : option pystr :=
  match n, s with
  | S n', x :: s' =>
      if cmatch c x then
        match upto_loop n' c k (Some x) s' g with
        | Some r => Some r
        | None => k prev s g
        end
      else k prev s g
  | _, _ => k prev s g
  end.

(** Backtracking match of [r] at the current position; alternatives are
    tried in the order of [re]: left branch first, longest repetition
    first. *)
Fixpoint run (r : regex) (k : cont) (prev : option N) (s g : pystr)
  : option pystr :=
  match r with
  | Eps => k prev s g
  | One c =>
      match s with
      | x :: s' => if cmatch c x then k (Some x) s' g else None
      | [] => None
      end
  | Bnd =>
      if xorb (word_at prev) (word_at (List.hd_error s)) then k prev s g
      else None
  | NotAhead c =>
      match s with
      | x :: _ => if cmatch c x then None else k prev s g
      | [] => k prev s g
      end
  | Seq r1 r2 => run r1 (fun p s' g' => run r2 k p s' g') prev s g
  | Or r1 r2 =>
      match run r1 k prev s g with
      | Some x => Some x
      | None => run r2 k prev s g
      end
  | Star c => star_loop c k prev s g
  | Plus c =>
      match s with
      | x :: s' => if cmatch c x then star_loop c k (Some x) s' g else None
      | [] => None
      end
  | UpTo n c => upto_loop n c k prev s g
  | Group r1 =>
      run r1 (fun p s' _ =>
                k p s' (List.firstn (length s - length s') s)) prev s g
  end.

(** [re.search(r, s, re.IGNORECASE)]: the leftmost match; the result is
    the text of group 1 (empty when the pattern has no group). *)
Fixpoint search_from (r : regex) (prev : option N) (s : pystr)
  : option pystr :=
  match run r (fun _ _ g => Some g) prev s [] with
  | Some g => Some g
  | None =>
      match s with
      | [] => None
      | x :: s' => search_from r (Some x) s'
      end
  end.

Definition search (r : regex) (s : pystr) : option pystr :=
  search_from r None s.

(** Truthiness of the match object. *)
Definition matches (r : regex) (s : pystr) : bool :=
  match search r s with Some _ => true | None => false end.

(** A literal run of characters. *)
Definition lit (s : string) : regex :=
  List.fold_right (fun c r => Seq (One (Chr c)) r) Eps (py s).

Fixpoint cat (rs : list regex) : regex :=
  match rs with
  | [] => Eps
  | [r] => r
  | r :: rs' => Seq r (cat rs')
  end.

End Re.

(* ===================================================================== *)
(** ** Exceptions and dictionary fields *)
(* ===================================================================== *)

Module Py.

(** The exceptions that reach a handler of the program.  [AttributeError]
    and [OtherException] derive from [Exception]; [KeyboardInterrupt]
    derives from [BaseException] only, so [except Exception] lets it
    through while a bare [except:] stops it. *)
Inductive exn := AttributeError | OtherException | KeyboardInterrupt.

Definition is_Exception (e : exn) : bool :=
  match e with KeyboardInterrupt => false | _ => true end.

Inductive res (A : Type) :=
| Ret (a : A)
| Raise (e : exn).
Arguments Ret {A} a.
Arguments Raise {A} e.

Definition bind {A B} (m : res A) (f : A -> res B) : res B :=
  match m with Ret a => f a | Raise e => Raise e end.

(** The value stored under a key of a JSON object. *)
Inductive jval (A : Type) :=
| JAbsent            (* the key is not in the object *)
| JNull              (* null, read back as None *)
| JVal (a : A).
Arguments JAbsent {A}.
Arguments JNull {A}.
Arguments JVal {A} a.

End Py.

Notation "'let*' x ':=' m 'in' k" := (Py.bind m (fun x => k))
  (at level 10, x name, m at level 200, k at level 200).

(* ===================================================================== *)
(** ** The metadata record shared by extractor and classifier *)
(* ===================================================================== *)

Module Meta.
Import PyStr Py.

(** One entry of the [attachments] list of a metadata record. *)
Record att_entry := {
  ae_filename : pystr;
  ae_size : Z;
  ae_path : string * pystr          (* attachments/<id>/<filename> *)
}.

(** output/metadata/<id>.json *)
Record metadata := {
  md_id : string;
  md_folder : pystr;
  md_extraction_date : N;
  md_subject : jval pystr;
  md_sender_name : jval pystr;
  md_sender_email : jval pystr;
  md_delivery_time : jval N;
  md_creation_time : jval N;
  md_modification_time : jval N;
  md_size : option Z;
  md_attachment_count : option Z;
  md_eml_file : option string;      (* None is the JSON null *)
  md_attachments : list att_entry;
  md_plain_text_length : Z;
  md_html_content_length : Z
}.

End Meta.

(* ===================================================================== *)
(** ** email_classifier.py *)
(* ===================================================================== *)

Module Classifier.
Import PyStr Re Py Meta.

(** *** setup_patterns *)

(** [OÓ], [óo], [áa], [ÚU] *)
Definition c_O : regex := One (OneOf [79; 211]%N).
Definition c_o : regex := One (OneOf [243; 111]%N).
Definition c_a : regex := One (OneOf [225; 97]%N).
Definition c_U : regex := One (OneOf [218; 85]%N).

Definition cotizacion_asunto_patterns : list regex :=
  [ cat [Bnd; lit "COTIZACI"; c_O; lit "N"; Bnd];
    cat [Bnd; lit "COT."; Bnd];
    cat [Bnd; lit "COT"; Bnd; NotAhead Word];
    cat [Bnd; lit "COT RESIDENCIAL"; Bnd];
    cat [Bnd; lit "APOYO COTIZACION"; Bnd];
    cat [Bnd; lit "AGENTE"; Plus Space; Plus Digit];
    cat [Bnd; lit "AG"; Plus Space; Plus Digit] ].

Definition cotizacion_cuerpo_patterns : list regex :=
  [ lit "solicito su apoyo cotizando";
    lit "apoyo para cotizar";
    cat [lit "solicitud de cotizaci"; c_o; lit "n"];
    cat [Bnd; lit "AGENTE"; Plus Space; Plus Digit] ].

Definition renovacion_asunto_patterns : list regex :=
  [ cat [Bnd; lit "RENOVACI"; c_O; lit "N"; Bnd];
    cat [Bnd; lit "RENOVAR"; Bnd];
    cat [Bnd; lit "RENOVACIONES"; Bnd];
    cat [Bnd; lit "REHABILITACI"; c_O; lit "N"; Bnd];
    cat [Bnd; lit "PR"; c_O; lit "RROGA"; Bnd];
    cat [Bnd; lit "RV"; Bnd];
    cat [Bnd; lit "RENOV"; Bnd];
    cat [Bnd; lit "COTI RENOVACI"; c_O; lit "N"; Bnd] ].

Definition renovacion_cuerpo_patterns : list regex :=
  [ cat [lit "vigencia pr"; c_o; lit "xima a vencer"];
    cat [lit "solicito renovaci"; c_o; lit "n"];
    cat [lit "renovar p"; c_o; lit "liza"];
    cat [lit "dar continuidad a la p"; c_o; lit "liza"];
    cat [lit "pr"; c_o; lit "rroga de la vigencia"];
    cat [lit "rehabilitaci"; c_o; lit "n de p"; c_o; lit "liza"];
    cat [lit "continuidad de p"; c_o; lit "liza"];
    cat [lit "renovar p"; c_o; lit "liza "; Plus Digit] ].

Definition endoso_asunto_patterns : list regex :=
  [ cat [Bnd; lit "ENDOSO"; Bnd];
    cat [Bnd; lit "ENDOSOS"; Bnd];
    cat [Bnd; lit "ENDOSAR"; Bnd];
    cat [Bnd; lit "ENDORSEMENT"; Bnd];
    cat [Bnd; lit "ENDOSO "; One (OneOf [65; 66]%N); Bnd];
    cat [Bnd; lit "ENDOSO DE BP"; Bnd];
    cat [Bnd; lit "ENDOSO ESPECIAL"; Bnd];
    cat [Bnd; lit "ENDOSO"; Star Dot; lit "MODIFICACI"; c_O; lit "N"; Bnd];
    cat [Bnd; lit "MODIFICACI"; c_O; lit "N"; Star Dot; lit "ENDOSO"; Bnd];
    cat [Bnd; lit "INCISO "; Plus Digit; Bnd];
    cat [lit "CORRECCI"; c_O; lit "N DE DATO"];
    lit "CAMBIO DE COBERTURA";
    lit "INCREMENTO DE SUMA ASEGURADA";
    cat [Bnd; lit "OT-"; Plus Digit];
    cat [lit "DOCUMENTO "; Plus Digit];
    cat [lit "MODIFICACI"; c_O; lit "N"; Star Dot; lit "NO"; Plus Space;
         lit "OT"];
    cat [lit "ENDOSO"; Star Dot; lit "("; Star Dot;
         Group (Or (cat [lit "MODIFICACI"; c_O; lit "N"])
                   (Or (lit "CAMBIO")
                       (cat [lit "CORRECCI"; c_O; lit "N"])));
         Star Dot; lit ")"] ].

Definition endoso_cuerpo_patterns : list regex :=
  [ cat [lit "correcci"; c_o; lit "n de dato"];
    lit "modificar inciso";
    cat [lit "incluir"; UpTo 20 Dot; lit "beneficiario"];
    cat [lit "excluir"; UpTo 20 Dot; lit "beneficiario"];
    lit "cambiar suma asegurada";
    cat [lit "actualizaci"; c_o; lit "n de cobertura"];
    cat [lit "actualizaci"; c_o; lit "n de beneficios"];
    cat [lit "incorporaci"; c_o; lit "n de cl"; c_a; lit "usulas"] ].

(** [for pattern in patterns: if re.search(...): ...; break] runs its body
    once exactly when some pattern of the list matches. *)
Definition any_match (patterns : list regex) (text : pystr) : bool :=
  List.existsb (fun p => matches p text) patterns.

(** The ordered list of an extractor: group 1 of the first pattern that
    matches, the empty string when none does. *)
Fixpoint first_group (patterns : list regex) (text : pystr) : pystr :=
  match patterns with
  | [] => []
  | p :: rest =>
      match search p text with
      | Some g => g
      | None => first_group rest text
      end
  end.

Definition extract_agente_code (text : pystr) : pystr :=
  first_group
    [ cat [Bnd; lit "AGENTE"; Plus Space; Group (Plus Digit)];
      cat [Bnd; lit "AG"; Plus Space; Group (Plus Digit)] ] text.

Definition extract_poliza_number (text : pystr) : pystr :=
  first_group
    [ cat [Bnd; lit "p"; c_o; lit "liza"; Plus Space; Group (Plus Digit)];
      cat [Bnd; lit "P"; c_O; lit "LIZA"; Plus Space; Group (Plus Digit)];
      cat [Bnd; lit "OT"; Plus Space; Group (Plus Digit)];
      cat [Bnd; lit "N"; c_U; lit "MERO"; Plus Space; Group (Plus Digit)] ]
    text.

(** *** extract_email_content *)

Record email_content := {
  plain_text : pystr;
  html_content : pystr;
  combined_text : pystr
}.

Definition empty_content : email_content :=
  {| plain_text := []; html_content := []; combined_text := [] |}.

(** *** analyze_attachments *)

Record attachment_info := {
  has_slip : bool;
  slip_complete : bool;
  slip_files : list pystr;
  pdf_cotizacion : list pystr;
  pdf_poliza : list pystr;
  pdf_renovacion : list pystr;
  pdf_endoso : list pystr;
  excel_files : list pystr;
  total_attachments : Z
}.

Definition empty_info : attachment_info :=
  {| has_slip := false; slip_complete := false; slip_files := [];
     pdf_cotizacion := []; pdf_poliza := []; pdf_renovacion := [];
     pdf_endoso := []; excel_files := []; total_attachments := 0 |}.

(** An entry of output/attachments/<id>/ as [iterdir] yields it.
    [de_filled_cells] is what the workbook scan computes for the file:
    the number of non-empty cells of the active sheet, or [None] when
    [openpyxl] raises on it. *)
Record dir_entry := {
  de_is_file : bool;
  de_name : pystr;
  de_filled_cells : option Z
}.

Definition is_excel (filename : pystr) : bool :=
  endswith filename (py ".XLSX") || endswith filename (py ".XLS").

Definition is_pdf (filename : pystr) : bool := endswith filename (py ".PDF").

(** The body of the [for file_path in attachment_dir.iterdir()] loop. *)
Definition analyze_entry (info : attachment_info) (e : dir_entry)
  : attachment_info :=
  if de_is_file e then
    let total := total_attachments info + 1 in
    let filename := upper (de_name e) in
    if is_excel filename && contains (py "SLIP") filename then
      {| has_slip := true;
         slip_complete :=
           match de_filled_cells e with
           | Some filled_cells => 5 <? filled_cells
           | None => slip_complete info
           end;
         slip_files := slip_files info ++ [de_name e];
         pdf_cotizacion := pdf_cotizacion info;
         pdf_poliza := pdf_poliza info;
         pdf_renovacion := pdf_renovacion info;
         pdf_endoso := pdf_endoso info;
         excel_files := excel_files info;
         total_attachments := total |}
    else if is_excel filename then
      {| has_slip := has_slip info;
         slip_complete := slip_complete info;
         slip_files := slip_files info;
         pdf_cotizacion := pdf_cotizacion info;
         pdf_poliza := pdf_poliza info;
         pdf_renovacion := pdf_renovacion info;
         pdf_endoso := pdf_endoso info;
         excel_files := excel_files info ++ [de_name e];
         total_attachments := total |}
    else if is_pdf filename
            && any_in [py "COTIZACION"; py "COT"; py "PROPUESTA";
                       py "SEGURO MULTIPLE EMPRESARIAL"] filename then
      {| has_slip := has_slip info;
         slip_complete := slip_complete info;
         slip_files := slip_files info;
         pdf_cotizacion := pdf_cotizacion info ++ [de_name e];
         pdf_poliza := pdf_poliza info;
         pdf_renovacion := pdf_renovacion info;
         pdf_endoso := pdf_endoso info;
         excel_files := excel_files info;
         total_attachments := total |}
    else if is_pdf filename
            && any_in [py "POLIZA"; py "PBE"; py "RECIBO"] filename then
      {| has_slip := has_slip info;
         slip_complete := slip_complete info;
         slip_files := slip_files info;
         pdf_cotizacion := pdf_cotizacion info;
         pdf_poliza := pdf_poliza info ++ [de_name e];
         pdf_renovacion := pdf_renovacion info;
         pdf_endoso := pdf_endoso info;
         excel_files := excel_files info;
         total_attachments := total |}
    else if is_pdf filename
            && any_in [py "RENOVACION"; py "RENOVAR";
                       py "CONDICIONES DE RENOVACION"; py "PRORROGA";
                       py "REHABILITACION"] filename then
      {| has_slip := has_slip info;
         slip_complete := slip_complete info;
         slip_files := slip_files info;
         pdf_cotizacion := pdf_cotizacion info;
         pdf_poliza := pdf_poliza info;
         pdf_renovacion := pdf_renovacion info ++ [de_name e];
         pdf_endoso := pdf_endoso info;
         excel_files := excel_files info;
         total_attachments := total |}
    else if is_pdf filename
            && any_in [py "ENDOSO"; py "BENEFICIOS"; py "INCISO";
                       py "CORRECCION"; py "MODIFICACION"] filename then
      {| has_slip := has_slip info;
         slip_complete := slip_complete info;
         slip_files := slip_files info;
         pdf_cotizacion := pdf_cotizacion info;
         pdf_poliza := pdf_poliza info;
         pdf_renovacion := pdf_renovacion info;
         pdf_endoso := pdf_endoso info ++ [de_name e];
         excel_files := excel_files info;
         total_attachments := total |}
    else
      {| has_slip := has_slip info;
         slip_complete := slip_complete info;
         slip_files := slip_files info;
         pdf_cotizacion := pdf_cotizacion info;
         pdf_poliza := pdf_poliza info;
         pdf_renovacion := pdf_renovacion info;
         pdf_endoso := pdf_endoso info;
         excel_files := excel_files info;
         total_attachments := total |}
  else info.

(** [analyze_attachments] on the listing of the message's directory;
    [None] when the directory does not exist. *)
Definition analyze_attachments (dir : option (list dir_entry))
  : attachment_info :=
  match dir with
  | None => empty_info
  | Some entries => List.fold_left analyze_entry entries empty_info
  end.

(** *** The three evaluators *)

(** The dictionary an evaluator returns.  [is_met] is the key
    ['is_cotizacion'], ['is_renovacion'] or ['is_endoso']; a key that an
    evaluator's dictionary does not have reads as the empty string here.
    [details] holds the two file lists and [total_attachments]. *)
Record classification := {
  is_met : bool;
  confidence : Z;
  criteria_met : list string;
  agente_code : pystr;
  poliza_number : pystr;
  endoso_type : string;
  client_name : string;
  status : string;
  details : list pystr * list pystr * Z
}.

(** [metadata.get('subject', '').upper()] *)
Definition subject_upper (md : metadata) : res pystr :=
  match md_subject md with
  | JAbsent => Ret (upper [])
  | JNull => Raise AttributeError
  | JVal s => Ret (upper s)
  end.

(** [email_content.get('combined_text', '').upper()] *)
Definition body_upper (ec : email_content) : pystr := upper (combined_text ec).

Definition nonempty {A} (l : list A) : bool :=
  match l with [] => false | _ :: _ => true end.

Definition str_truthy (s : string) : bool :=
  match s with EmptyString => false | String _ _ => true end.

(** The raw score of [classify_cotizacion] just before the clamp. *)
Definition cotizacion_score (asunto cuerpo : pystr) (ai : attachment_info)
  : Z :=
  let score := 0 in
  let score :=
    if any_match cotizacion_asunto_patterns asunto then score + 30
    else score in
  let agente := or_else (extract_agente_code asunto)
                        (extract_agente_code cuerpo) in
  let score := if truthy agente then score + 20 else score in
  let score :=
    if any_match cotizacion_cuerpo_patterns cuerpo then score + 15
    else score in
  let score :=
    if has_slip ai then
      (if slip_complete ai then score + 25 + 15 else score + 25)
    else score in
  let score := if nonempty (pdf_cotizacion ai) then score + 20 else score in
  let score := if nonempty (pdf_poliza ai) then score - 15 else score in
  score.

(** The list ['criteria_met'] of [classify_cotizacion]. *)
Definition cotizacion_criteria (asunto cuerpo : pystr) (ai : attachment_info)
  : list string :=
  ((if any_match cotizacion_asunto_patterns asunto
    then ["CA1: Palabra clave en asunto"] else [])
   ++ (if truthy (or_else (extract_agente_code asunto)
                          (extract_agente_code cuerpo))
       then ["CA2: Código de agente detectado"] else [])
   ++ (if any_match cotizacion_cuerpo_patterns cuerpo
       then ["CA3: Palabra clave en cuerpo del email"] else [])
   ++ (if has_slip ai then
         "CA4: Archivo SLIP detectado"
         :: (if slip_complete ai then ["CA5: SLIP completo"]
             else ["CA5: SLIP vacío o incompleto"])
       else [])
   ++ (if nonempty (pdf_cotizacion ai)
       then ["CA6: PDF de cotización presente"] else [])
   ++ (if nonempty (pdf_poliza ai)
       then ["CA7/CA10: Contiene documentos de póliza vigente"] else [])).

(** The ['status'] of [classify_cotizacion]. *)
Definition cotizacion_status (is_cotizacion : bool) (ai : attachment_info)
  : string :=
  (let status :=
     if has_slip ai then
       (if slip_complete ai then "Cotización con información completa"
        else "Cotización pendiente")
     else "" in
   if negb (str_truthy status) && is_cotizacion then "Cotización detectada"
   else status)%string.

Definition classify_cotizacion (md : metadata) (ai : attachment_info)
  (ec : email_content) : res classification :=
  let* asunto := subject_upper md in
  let cuerpo := body_upper ec in
  let score := cotizacion_score asunto cuerpo ai in
  Ret {| is_met := 40 <=? score;
         confidence := Z.min 100 score;
         criteria_met := cotizacion_criteria asunto cuerpo ai;
         agente_code := or_else (extract_agente_code asunto)
                                (extract_agente_code cuerpo);
         poliza_number := [];
         endoso_type := "";
         client_name := "";
         status := cotizacion_status (40 <=? score) ai;
         details := (slip_files ai, pdf_cotizacion ai,
                     total_attachments ai) |}.

(** The raw score of [classify_renovacion] just before the clamp. *)
Definition renovacion_score (asunto cuerpo : pystr) (ai : attachment_info)
  : Z :=
  let score := 0 in
  let score :=
    if any_match renovacion_asunto_patterns asunto then score + 35
    else score in
  let poliza := or_else (extract_poliza_number asunto)
                        (extract_poliza_number cuerpo) in
  let score := if truthy poliza then score + 20 else score in
  let score :=
    if any_match renovacion_cuerpo_patterns cuerpo then score + 15
    else score in
  let score := if nonempty (pdf_renovacion ai) then score + 25 else score in
  let score :=
    if nonempty (pdf_poliza ai)
       && any_in [py "RENOVACION"; py "RENOVAR"] asunto
    then score + 20 else score in
  let score :=
    if nonempty (pdf_cotizacion ai)
       && negb (contains (py "RENOVACION") asunto)
    then score - 20 else score in
  score.

(** The list ['criteria_met'] of [classify_renovacion]. *)
Definition renovacion_criteria (asunto cuerpo : pystr) (ai : attachment_info)
  : list string :=
  ((if any_match renovacion_asunto_patterns asunto
    then ["CA1: Palabra clave de renovación en asunto"] else [])
   ++ (if truthy (or_else (extract_poliza_number asunto)
                          (extract_poliza_number cuerpo))
       then ["CA2: Número de póliza detectado"] else [])
   ++ (if any_match renovacion_cuerpo_patterns cuerpo
       then ["CA4-6: Palabra clave de renovación en cuerpo"] else [])
   ++ (if nonempty (pdf_renovacion ai)
       then ["CA-Adj1: PDF de renovación presente"] else [])
   ++ (if nonempty (pdf_poliza ai)
          && any_in [py "RENOVACION"; py "RENOVAR"] asunto
       then ["CA-Adj2: Documentos de póliza + renovación"] else [])
   ++ (if nonempty (pdf_cotizacion ai)
          && negb (contains (py "RENOVACION") asunto)
       then ["CA-Adj5: Prevención falso positivo cotización"] else [])).

Definition classify_renovacion (md : metadata) (ai : attachment_info)
  (ec : email_content) : res classification :=
  let* asunto := subject_upper md in
  let cuerpo := body_upper ec in
  let poliza := or_else (extract_poliza_number asunto)
                        (extract_poliza_number cuerpo) in
  let score := renovacion_score asunto cuerpo ai in
  let is_renovacion := 40 <=? score in
  Ret {| is_met := is_renovacion;
         confidence := Z.min 100 score;
         criteria_met := renovacion_criteria asunto cuerpo ai;
         agente_code := [];
         poliza_number := poliza;
         endoso_type := "";
         client_name := "";
         status :=
           if is_renovacion then
             (if (0 <? total_attachments ai)%Z && truthy poliza
              then "Renovación con información completa"
              else "Renovación pendiente")
           else "";
         details := (pdf_renovacion ai, pdf_poliza ai,
                     total_attachments ai) |}.

(** The raw score of [classify_endoso] just before the clamp. *)
Definition endoso_score (asunto cuerpo : pystr) (ai : attachment_info) : Z :=
  let score := 0 in
  let score :=
    if any_match endoso_asunto_patterns asunto then score + 35 else score in
  let score :=
    if any_match endoso_cuerpo_patterns cuerpo then score + 15 else score in
  let poliza := or_else (extract_poliza_number asunto)
                        (extract_poliza_number cuerpo) in
  let score := if truthy poliza then score + 25 else score in
  let score := if nonempty (pdf_endoso ai) then score + 20 else score in
  let score :=
    if nonempty (pdf_poliza ai)
       && any_in [py "ENDOSO"; py "MODIFICACION"; py "CORRECCION"] asunto
    then score + 15 else score in
  score.

(** The subtype chain inside the subject loop of [classify_endoso]. *)
Definition detect_endoso_type (asunto : pystr) : string :=
  (if contains (py "ENDOSO A") asunto then "A"
   else if contains (py "ENDOSO B") asunto then "B"
   else if contains (py "ENDOSO DE BP") asunto then "BP"
   else if contains (py "ENDOSO ESPECIAL") asunto then "ESPECIAL"
   else "")%string.

(** The list ['criteria_met'] of [classify_endoso]. *)
Definition endoso_criteria (asunto cuerpo : pystr) (ai : attachment_info)
  : list string :=
  ((if any_match endoso_asunto_patterns asunto
    then ["CA1-2: Palabra clave de endoso en asunto"] else [])
   ++ (if any_match endoso_cuerpo_patterns cuerpo
       then ["CA3-4: Palabra clave de endoso en cuerpo"] else [])
   ++ (if truthy (or_else (extract_poliza_number asunto)
                          (extract_poliza_number cuerpo))
       then ["CA5: Referencia a póliza vigente"] else [])
   ++ (if nonempty (pdf_endoso ai)
       then ["CA7: PDF de endoso presente"] else [])
   ++ (if nonempty (pdf_poliza ai)
          && any_in [py "ENDOSO"; py "MODIFICACION"; py "CORRECCION"] asunto
       then ["CA8: Documentos de respaldo de endoso"] else [])).

(** The ['status'] of [classify_endoso]. *)
Definition endoso_status (is_endoso : bool) (poliza : pystr)
  (ai : attachment_info) : string :=
  (if is_endoso then
     (if truthy poliza
         && (nonempty (pdf_endoso ai) || nonempty (pdf_poliza ai))
      then "Endoso completo" else "Endoso incompleto")
   else "")%string.

Definition classify_endoso (md : metadata) (ai : attachment_info)
  (ec : email_content) : res classification :=
  let* asunto := subject_upper md in
  let cuerpo := body_upper ec in
  let poliza := or_else (extract_poliza_number asunto)
                        (extract_poliza_number cuerpo) in
  let score := endoso_score asunto cuerpo ai in
  Ret {| is_met := 30 <=? score;
         confidence := Z.min 100 score;
         criteria_met := endoso_criteria asunto cuerpo ai;
         agente_code := [];
         poliza_number := poliza;
         endoso_type :=
           if any_match endoso_asunto_patterns asunto
           then detect_endoso_type asunto else "";
         client_name := "";
         status := endoso_status (30 <=? score) poliza ai;
         details := (pdf_endoso ai, excel_files ai,
                     total_attachments ai) |}.

(** *** classify_email *)

Inductive label := cotizacion | renovacion | endoso | sin_clasificar.

Record primary := {
  pc_type : label;
  pc_confidence : Z;
  pc_status : string;
  pc_details : classification
}.

Record result := {
  email_id : string;
  r_metadata : metadata;
  attachment_analysis : attachment_info;
  cl_cotizacion : classification;
  cl_renovacion : classification;
  cl_endoso : classification;
  primary_classification : primary
}.

(** What [classify_email] returns: the dictionary with the single key
    ['error'], or a full result. *)
Inductive outcome :=
| ErrorResult (msg : string)
| Classified (r : result).

(** The part of the Store the classifier reads.  [metadata_glob] is
    [None] when output/metadata does not exist, and otherwise the stems of
    the files that [glob('*.json')] yields, in the order it yields them;
    the three maps give the parsed metadata/<id>.json, the texts that
    [extract_email_content] obtains from emails/<id>.eml, and the listing
    of attachments/<id>/.  Every metadata file of the Store parses: a
    file that [json.load] cannot read has no place in it. *)
Record store := {
  metadata_glob : option (list string);
  metadata_files : gmap string metadata;
  eml_files : gmap string email_content;
  attachment_dirs : gmap string (list dir_entry)
}.

Definition extract_email_content (st : store) (id : string) : email_content :=
  match eml_files st !! id with
  | None => empty_content
  | Some c => c
  end.

(** [list.sort(key=..., reverse=True)]: descending and stable, entries
    with equal keys keep their order. *)
Fixpoint insert_desc {A} (key : A -> Z) (x : A) (l : list A) : list A :=
  match l with
  | [] => [x]
  | y :: l' => if key x <? key y then y :: insert_desc key x l' else x :: l
  end.

Definition sort_desc {A} (key : A -> Z) (l : list A) : list A :=
  List.fold_right (insert_desc key) [] l.

Definition classify_email (st : store) (id : string) : res outcome :=
  match metadata_files st !! id with
  | None => Ret (ErrorResult ("Metadatos no encontrados para " ++ id)%string)
  | Some md =>
      let ec := extract_email_content st id in
      let ai := analyze_attachments (attachment_dirs st !! id) in
      let* cot := classify_cotizacion md ai ec in
      let* ren := classify_renovacion md ai ec in
      let* en := classify_endoso md ai ec in
      let classifications :=
        sort_desc (fun x => confidence (snd x))
                  [(cotizacion, cot); (renovacion, ren); (endoso, en)] in
      match classifications with
      | [] => Raise OtherException
      | primary_class :: _ =>
          Ret (Classified
            {| email_id := id;
               r_metadata := md;
               attachment_analysis := ai;
               cl_cotizacion := cot;
               cl_renovacion := ren;
               cl_endoso := en;
               primary_classification :=
                 {| pc_type :=
                      if 30 <=? confidence (snd primary_class)
                      then fst primary_class else sin_clasificar;
                    pc_confidence := confidence (snd primary_class);
                    pc_status := status (snd primary_class);
                    pc_details := snd primary_class |} |})
      end
  end.

(** *** classify_all_emails *)

Record results := {
  total_emails : Z;
  n_cotizacion : Z;
  n_renovacion : Z;
  n_endoso : Z;
  n_sin_clasificar : Z;
  emails : list result
}.

Definition empty_results : results :=
  {| total_emails := 0; n_cotizacion := 0; n_renovacion := 0;
     n_endoso := 0; n_sin_clasificar := 0; emails := [] |}.

(** [results[primary_type] += 1]; the four labels are all keys of the
    dictionary, so the guard [primary_type in results] always holds. *)
Definition bump (t : label) (r : results) : results :=
  {| total_emails := total_emails r;
     n_cotizacion :=
       match t with cotizacion => n_cotizacion r + 1 | _ => n_cotizacion r end;
     n_renovacion :=
       match t with renovacion => n_renovacion r + 1 | _ => n_renovacion r end;
     n_endoso := match t with endoso => n_endoso r + 1 | _ => n_endoso r end;
     n_sin_clasificar :=
       match t with
       | sin_clasificar => n_sin_clasificar r + 1
       | _ => n_sin_clasificar r
       end;
     emails := emails r |}.

(** The branch taken when ['error' not in classification]. *)
Definition record_result (c : result) (r : results) : results :=
  bump (pc_type (primary_classification c))
    {| total_emails := total_emails r + 1;
       n_cotizacion := n_cotizacion r;
       n_renovacion := n_renovacion r;
       n_endoso := n_endoso r;
       n_sin_clasificar := n_sin_clasificar r;
       emails := emails r ++ [c] |}.

(** The [for metadata_file in ...glob('*.json')] loop; an exception of
    [classify_email] leaves the loop and the function. *)
Fixpoint classify_loop (st : store) (stems : list string) (r : results)
  : res results :=
  match stems with
  | [] => Ret r
  | stem :: rest =>
      if String.eqb stem "progress" then classify_loop st rest r
      else
        let* c := classify_email st stem in
        match c with
        | ErrorResult _ => classify_loop st rest r
        | Classified c' => classify_loop st rest (record_result c' r)
        end
  end.

(** What [classify_all_emails] returns; a [BatchResults] is also what it
    has dumped to classification/classification_results.json. *)
Inductive batch :=
| BatchError (msg : string)
| BatchResults (r : results).

Definition classify_all_emails (st : store) : res batch :=
  match metadata_glob st with
  | None => Ret (BatchError "Directorio de metadatos no encontrado")
  | Some stems =>
      let* r := classify_loop st stems empty_results in
      Ret (BatchResults r)
  end.

End Classifier.

(* ===================================================================== *)
(** ** pst_extractor.py and extract_pst.py *)
(* ===================================================================== *)

Module Extractor.
Import PyStr Py Meta.

(** *** The archive reader, as the extractor probes it *)

(** A method or property looked up with [hasattr] and then used. *)
Inductive accessor (A : Type) :=
| NoAttr                 (* hasattr(...) is False *)
| Attr (r : res A).      (* present; using it returns or raises *)
Arguments NoAttr {A}.
Arguments Attr {A} r.

Record attachment := {
  att_name : option pystr;            (* None: absent or falsy *)
  att_long_filename : option pystr;
  att_get_size : res Z;
  att_read_buffer : res (list Byte.byte);
  att_write : res unit                (* open(path, 'wb') and f.write *)
}.

Record message := {
  msg_subject : jval pystr;
  msg_sender_name : jval pystr;
  msg_sender_email_address : jval pystr;
  msg_delivery_time : jval N;
  msg_creation_time : jval N;
  msg_modification_time : jval N;
  msg_get_size : res Z;
  msg_plain_text_body : res pystr;    (* decoded; empty when falsy *)
  msg_html_body : res pystr;
  msg_get_number_of_attachments : accessor nat;
  msg_number_of_attachments : accessor nat;
  (** [get_attachment(i)]; an index past the list raises *)
  msg_attachments : list (res (option attachment));
  msg_eml_write : res unit;           (* building and writing the .eml *)
  msg_metadata_write : res unit       (* open and json.dump of the record *)
}.

#[local] Set Warnings "-register-all".
Inductive folder :=
| Folder (name : option pystr)
         (get_number_of_sub_messages : accessor nat)
         (number_of_sub_messages : accessor nat)
         (sub_messages : list (option message))
         (get_number_of_sub_folders : accessor nat)
         (number_of_sub_folders : accessor nat)
         (sub_folders : list (option folder)).

(** *** The Store and the extractor object *)

Record eml := {
  eml_subject : option pystr;
  eml_from : option pystr;
  eml_date : option N;
  eml_plain : option pystr;
  eml_html : option pystr
}.

(** output/progress.json and [self.progress_data]; the file is read as
    [save_progress] writes it, with its four keys. *)
Record progress := {
  processed_emails : list string;
  total_processed : Z;
  start_time : option N;
  last_update : option N
}.

(** What is on disk under output/.  A write either stores the whole
    file or, when it fails, leaves the maps as they were: what a failed
    write leaves of a file is not kept. *)
Record fs := {
  emails_dir : gmap string eml;                          (* emails/<id>.eml *)
  attachments_dir : gmap (string * pystr) (list Byte.byte);
  metadata_dir : gmap string metadata;
  progress_file : option progress
}.

Record extractor := {
  processed_count : Z;
  progress_data : progress;
  disk : fs;
  clock : N                  (* what datetime.now() reads *)
}.

Definition set_disk (d : fs) (x : extractor) : extractor :=
  {| processed_count := processed_count x; progress_data := progress_data x;
     disk := d; clock := clock x |}.

Definition set_progress (p : progress) (x : extractor) : extractor :=
  {| processed_count := processed_count x; progress_data := p;
     disk := disk x; clock := clock x |}.

Definition load_progress (d : fs) : progress :=
  match progress_file d with
  | Some p => p
  | None => {| processed_emails := []; total_processed := 0;
               start_time := None; last_update := None |}
  end.

(** [PSTExtractor(pst_file)] on the current disk. *)
Definition init (d : fs) (now : N) : extractor :=
  {| processed_count := 0; progress_data := load_progress d;
     disk := d; clock := now |}.

Definition save_progress (x : extractor) : extractor :=
  let p := {| processed_emails := processed_emails (progress_data x);
              total_processed := processed_count x;
              start_time := start_time (progress_data x);
              last_update := Some (clock x) |} in
  {| processed_count := processed_count x;
     progress_data := p;
     disk := {| emails_dir := emails_dir (disk x);
                attachments_dir := attachments_dir (disk x);
                metadata_dir := metadata_dir (disk x);
                progress_file := Some p |};
     clock := clock x |}.

(** *** extract_email_content *)

Definition extract_email_content (m : message) : pystr * pystr :=
  match msg_plain_text_body m with
  | Raise _ => ([], [])
  | Ret plain_text =>
      match msg_html_body m with
      | Raise _ => (plain_text, [])
      | Ret html_content => (plain_text, html_content)
      end
  end.

(** *** extract_attachments *)

(** ["attachment_{}".format(attachment_index)] *)
Definition default_name (i : nat) : pystr :=
  py ("attachment_" ++ pretty (N.of_nat i))%string.

Definition choose_filename (a : attachment) (i : nat) : pystr :=
  match att_name a with
  | Some n => n
  | None =>
      match att_long_filename a with
      | Some n => n
      | None => default_name i
      end
  end.

(** [open(attachment_path, 'wb')] and [f.write]: the file
    attachments/<id>/<filename>.  The key stands for that path when
    [filename] is one path component; the code joins the name as the
    archive gives it, without looking at it. *)
Definition write_attachment (id : string) (filename : pystr)
  (data : list Byte.byte) (d : fs) : fs :=
  {| emails_dir := emails_dir d;
     attachments_dir := <[(id, filename) := data]> (attachments_dir d);
     metadata_dir := metadata_dir d;
     progress_file := progress_file d |}.

(** The inner [try] of the loop body: size, data, write, append.  The
    result is the list [attachments], the disk, and the exception that
    leaves the body, if any; an [Exception] is handled here and only
    skips the attachment. *)
Definition extract_one (id : string) (a : attachment) (i : nat)
  (acc : list att_entry) (d : fs) : list att_entry * fs * option exn :=
  let filename := choose_filename a i in
  let skip (e : exn) := (acc, d, if is_Exception e then None else Some e) in
  match att_get_size a with
  | Raise e => skip e
  | Ret attachment_size =>
      match att_read_buffer a with
      | Raise e => skip e
      | Ret attachment_data =>
          match att_write a with
          | Raise e => skip e
          | Ret _ =>
              (acc ++ [{| ae_filename := filename;
                          ae_size := attachment_size;
                          ae_path := (id, filename) |}],
               write_attachment id filename attachment_data d, None)
          end
      end
  end.

(** [for attachment_index in range(num_attachments)], from index [i] on;
    [slots] is what [get_attachment] holds from that index. *)
Fixpoint attachments_loop (id : string) (n i : nat)
  (slots : list (res (option attachment)))
  (acc : list att_entry) (d : fs) : list att_entry * fs * option exn :=
  match n with
  | O => (acc, d, None)
  | S n' =>
      match slots with
      | [] => (acc, d, Some OtherException)      (* index out of range *)
      | Raise e :: _ => (acc, d, Some e)
      | Ret None :: rest => attachments_loop id n' (S i) rest acc d
      | Ret (Some a) :: rest =>
          match extract_one id a i acc d with
          | (acc', d', None) => attachments_loop id n' (S i) rest acc' d'
          | stop => stop
          end
      end
  end.

(** The count probe: method first, then property, else zero. *)
Definition probe_count (method property : accessor nat) : res nat :=
  match method with
  | Attr r => r
  | NoAttr =>
      match property with
      | Attr r => r
      | NoAttr => Ret O
      end
  end.

Definition extract_attachments (m : message) (id : string) (d : fs)
  : res (list att_entry) * fs :=
  match probe_count (msg_get_number_of_attachments m)
                    (msg_number_of_attachments m) with
  | Raise e => if is_Exception e then (Ret [], d) else (Raise e, d)
  | Ret num_attachments =>
      match attachments_loop id num_attachments 0 (msg_attachments m) [] d
      with
      | (attachments, d', None) => (Ret attachments, d')
      | (attachments, d', Some e) =>
          if is_Exception e then (Ret attachments, d') else (Raise e, d')
      end
  end.

(** *** create_eml_file *)

Definition truthy_field (v : jval pystr) : option pystr :=
  match v with
  | JVal s => if truthy s then Some s else None
  | _ => None
  end.

Definition build_eml (m : message) (plain_text html_content : pystr) : eml :=
  {| eml_subject := truthy_field (msg_subject m);
     eml_from :=
       match truthy_field (msg_sender_name m) with
       | Some name =>
           match truthy_field (msg_sender_email_address m) with
           | Some addr => Some (name ++ py " <" ++ addr ++ py ">")
           | None => Some name
           end
       | None => None
       end;
     eml_date :=
       match msg_delivery_time m with JVal t => Some t | _ => None end;
     eml_plain := if truthy plain_text then Some plain_text else None;
     eml_html := if truthy html_content then Some html_content else None |}.

Definition eml_path (id : string) : string := ("emails/" ++ id ++ ".eml")%string.

(** Returns the relative path, or [None] after an [Exception]. *)
Definition create_eml_file (m : message) (id : string)
  (plain_text html_content : pystr) (d : fs) : res (option string) * fs :=
  match msg_eml_write m with
  | Ret _ =>
      (Ret (Some (eml_path id)),
       {| emails_dir :=
            <[id := build_eml m plain_text html_content]> (emails_dir d);
          attachments_dir := attachments_dir d;
          metadata_dir := metadata_dir d;
          progress_file := progress_file d |})
  | Raise e => if is_Exception e then (Ret None, d) else (Raise e, d)
  end.

(** *** extract_metadata, completed by process_message *)

Definition len (s : pystr) : Z := Z.of_nat (length s).

Definition build_metadata (m : message) (id : string) (folder_name : pystr)
  (now : N) (eml_file : option string) (attachments : list att_entry)
  (plain_text html_content : pystr) : metadata :=
  {| md_id := id;
     md_folder := folder_name;
     md_extraction_date := now;
     md_subject := msg_subject m;
     md_sender_name := msg_sender_name m;
     md_sender_email := msg_sender_email_address m;
     md_delivery_time := msg_delivery_time m;
     md_creation_time := msg_creation_time m;
     md_modification_time := msg_modification_time m;
     md_size := match msg_get_size m with Ret n => Some n | Raise _ => None end;
     md_attachment_count :=
       match msg_get_number_of_attachments m with
       | Attr (Ret n) => Some (Z.of_nat n)
       | _ => None
       end;
     md_eml_file := eml_file;
     md_attachments := attachments;
     md_plain_text_length := len plain_text;
     md_html_content_length := len html_content |}.

Definition write_metadata (id : string) (md : metadata) (d : fs) : fs :=
  {| emails_dir := emails_dir d;
     attachments_dir := attachments_dir d;
     metadata_dir := <[id := md]> (metadata_dir d);
     progress_file := progress_file d |}.

(** *** process_message *)

(** [f"email_{n:06d}"] *)
Definition pad6 (digits : string) : string :=
  (String.concat "" (List.repeat "0" (6 - String.length digits)) ++ digits)%string.

Definition format_id (n : Z) : string :=
  ("email_" ++ pad6 (pretty (Z.to_N n)))%string.

Definition mem (id : string) (l : list string) : bool :=
  List.existsb (String.eqb id) l.

Definition append_processed (id : string) (p : progress) : progress :=
  {| processed_emails := processed_emails p ++ [id];
     total_processed := total_processed p;
     start_time := start_time p;
     last_update := last_update p |}.

(** The body of the [try] of [process_message]. *)
Definition process_body (m : message) (folder_name : pystr) (id : string)
  (x : extractor) : res unit * extractor :=
  let '(plain_text, html_content) := extract_email_content m in
  match extract_attachments m id (disk x) with
  | (Raise e, d1) => (Raise e, set_disk d1 x)
  | (Ret attachments, d1) =>
      match create_eml_file m id plain_text html_content d1 with
      | (Raise e, d2) => (Raise e, set_disk d2 x)
      | (Ret eml_file, d2) =>
          let md := build_metadata m id folder_name (clock x) eml_file
                      attachments plain_text html_content in
          match msg_metadata_write m with
          | Raise e => (Raise e, set_disk d2 x)
          | Ret _ =>
              let x3 := set_disk (write_metadata id md d2) x in
              let x4 := set_progress
                          (append_processed id (progress_data x3)) x3 in
              if processed_count x4 mod 10 =? 0
              then (Ret tt, save_progress x4)
              else (Ret tt, x4)
          end
      end
  end.

Definition process_message (m : message) (folder_name : pystr)
  (x : extractor) : res unit * extractor :=
  let x1 := {| processed_count := processed_count x + 1;
               progress_data := progress_data x;
               disk := disk x; clock := clock x |} in
  let email_id := format_id (processed_count x1) in
  if mem email_id (processed_emails (progress_data x1)) then (Ret tt, x1)
  else
    match process_body m folder_name email_id x1 with
    | (Raise e, x2) =>
        if is_Exception e then (Ret tt, x2) else (Raise e, x2)
    | ok => ok
    end.

(** *** process_folder *)

(** [for message_index in range(num_messages)] *)
Fixpoint messages_loop (n : nat) (msgs : list (option message))
  (folder_name : pystr) (x : extractor) : res unit * extractor :=
  match n with
  | O => (Ret tt, x)
  | S n' =>
      match msgs with
      | [] => (Raise OtherException, x)          (* index out of range *)
      | None :: rest => messages_loop n' rest folder_name x
      | Some m :: rest =>
          match process_message m folder_name x with
          | (Ret _, x') => messages_loop n' rest folder_name x'
          | stop => stop
          end
      end
  end.

(** The [while True] of the fallback, under its bare [except]: it ends at
    the first falsy message, at the end of the folder, or at any
    exception. *)
Fixpoint direct_iteration (msgs : list (option message))
  (folder_name : pystr) (x : extractor) : extractor :=
  match msgs with
  | Some m :: rest =>
      match process_message m folder_name x with
      | (Ret _, x') => direct_iteration rest folder_name x'
      | (Raise _, x') => x'
      end
  | _ => x
  end.

(** The first [try] of [process_folder]. *)
Definition process_messages (method property : accessor nat)
  (msgs : list (option message)) (folder_name : pystr) (x : extractor)
  : res unit * extractor :=
  let attempt :=
    match probe_count method property with
    | Raise e => (Raise e, x)
    | Ret num_messages => messages_loop num_messages msgs folder_name x
    end in
  match attempt with
  | (Raise e, x') =>
      if is_Exception e then (Ret tt, direct_iteration msgs folder_name x')
      else (Raise e, x')
  | ok => ok
  end.

Definition join_path (folder_path : pystr) (name : option pystr) : pystr :=
  match name with
  | Some n =>
      if truthy n then
        (if truthy folder_path then folder_path ++ py "/" ++ n else n)
      else folder_path
  | None => folder_path
  end.

Fixpoint process_folder (f : folder) (folder_path : pystr) (x : extractor)
  : res unit * extractor :=
  match f with
  | Folder name gm pm msgs gs ps subs =>
      let folder_name := join_path folder_path name in
      match process_messages gm pm msgs folder_name x with
      | (Raise e, x1) => (Raise e, x1)
      | (Ret _, x1) =>
          match probe_count gs ps with
          | Raise e => if is_Exception e then (Ret tt, x1) else (Raise e, x1)
          | Ret num_subfolders =>
              (fix subfolders_loop (n : nat) (l : list (option folder))
                   (x : extractor) {struct l} : res unit * extractor :=
                 match n with
                 | O => (Ret tt, x)
                 | S n' =>
                     match l with
                     | [] => (Ret tt, x)     (* raises; handled, loop ends *)
                     | None :: rest => subfolders_loop n' rest x
                     | Some sub :: rest =>
                         match process_folder sub folder_name x with
                         | (Ret _, x') => subfolders_loop n' rest x'
                         | (Raise e, x') =>
                             if is_Exception e then (Ret tt, x')
                             else (Raise e, x')
                         end
                     end
                 end) num_subfolders subs x1
          end
      end
  end.

(** *** extract *)

Definition set_start_time (x : extractor) : extractor :=
  match start_time (progress_data x) with
  | Some _ => x
  | None =>
      set_progress {| processed_emails := processed_emails (progress_data x);
                      total_processed := total_processed (progress_data x);
                      start_time := Some (clock x);
                      last_update := last_update (progress_data x) |} x
  end.

(** [archive] is what opening the file and asking for its root folder
    gives; a root folder that cannot be obtained from an open file is
    not told apart from a file that cannot be opened. *)
Definition extract (archive : res folder) (x : extractor)
  : res unit * extractor :=
  let attempt :=
    match archive with
    | Raise e => (Raise e, x)
    | Ret root_folder =>
        match process_folder root_folder [] (set_start_time x) with
        | (Ret _, x') => (Ret tt, save_progress x')
        | stop => stop
        end
    end in
  match attempt with
  | (Raise e, x') =>
      if is_Exception e then (Raise e, save_progress x') else (Raise e, x')
  | ok => ok
  end.

(** *** extract_pst.main, from the construction of the extractor on *)

Definition msg_interrupted : list string :=
  [ "Extracción interrumpida por el usuario";
    "El progreso se ha guardado en progress.json";
    "Puede reanudar la extracción ejecutando el mismo comando" ]%string.

Definition msg_failed : list string :=
  [ "Error durante la extracción";
    "Revise el archivo PST y vuelva a intentar" ]%string.

Definition msg_completed : list string := [ "EXTRACCIÓN COMPLETADA" ]%string.

(** The lines [main] prints after the run, and the disk it leaves. *)
Definition main (archive : res folder) (d : fs) (now : N)
  : list string * fs :=
  match extract archive (init d now) with
  | (Ret _, x) => (msg_completed, disk x)
  | (Raise KeyboardInterrupt, x) => (msg_interrupted, disk x)
  | (Raise _, x) => (msg_failed, disk x)
  end.

End Extractor.

(* ===================================================================== *)
(** ** Notions used to state the properties, and concrete Stores *)
(* ===================================================================== *)

Module Props.
Import PyStr Re Py Meta Classifier.

(** The category with the highest of three confidences; among equal ones
    the first in the order quote, renewal, endorsement. *)
Definition winner (c1 c2 c3 : Z) : label :=
  if (c2 <=? c1) && (c3 <=? c1) then cotizacion
  else if c3 <=? c2 then renovacion
  else endoso.

Definition highest (c1 c2 c3 : Z) : Z := Z.max (Z.max c1 c2) c3.

(** The confidence that belongs to a category. *)
Definition confidence_of (t : label) (c1 c2 c3 : Z) : Z :=
  match t with
  | cotizacion => c1
  | renovacion => c2
  | endoso => c3
  | sin_clasificar => 0
  end.

(** The global floor of [classify_email]. *)
Definition floor : Z := 30.

(** The evaluator result that goes with the winning category. *)
Definition best_of (cot ren en : classification) : classification :=
  match winner (confidence cot) (confidence ren) (confidence en) with
  | cotizacion => cot
  | renovacion => ren
  | _ => en
  end.

(** An entry that [analyze_attachments] files under ['pdf_poliza']. *)
Definition is_policy_pdf (e : dir_entry) : Prop :=
  pdf_poliza (analyze_entry empty_info e) = [de_name e].

(** What the Quote evaluator reads of the attachment analysis, the policy
    documents apart. *)
Definition quote_view (ai : attachment_info) : bool * bool * bool :=
  (has_slip ai, slip_complete ai, nonempty (pdf_cotizacion ai)).

(** The number of quote subject patterns that match. *)
Definition quote_subject_hits (asunto : pystr) : nat :=
  length (List.filter (fun p => matches p asunto) cotizacion_asunto_patterns).

Definition CA1 : string := "CA1: Palabra clave en asunto".

(** The attachment analysis shows policy documents and nothing else that
    an evaluator looks at. *)
Definition only_policy_pdf (ai : attachment_info) : Prop :=
  nonempty (pdf_poliza ai) = true
  /\ has_slip ai = false
  /\ pdf_cotizacion ai = []
  /\ pdf_renovacion ai = []
  /\ pdf_endoso ai = [].

(** The body satisfies no criterion of any evaluator. *)
Definition silent_body (cuerpo : pystr) : Prop :=
  any_match cotizacion_cuerpo_patterns cuerpo = false
  /\ any_match renovacion_cuerpo_patterns cuerpo = false
  /\ any_match endoso_cuerpo_patterns cuerpo = false
  /\ extract_agente_code cuerpo = []
  /\ extract_poliza_number cuerpo = [].

(** The invariant of the aggregation loop. *)
Definition counts_consistent (r : results) : Prop :=
  total_emails r = Z.of_nat (length (emails r))
  /\ total_emails r
     = n_cotizacion r + n_renovacion r + n_endoso r + n_sin_clasificar r.

(** The same Store with another listing of the metadata directory. *)
Definition with_glob (st : store) (listing : list string) : store :=
  {| metadata_glob := Some listing;
     metadata_files := metadata_files st;
     eml_files := eml_files st;
     attachment_dirs := attachment_dirs st |}.

(** Type, confidence and status of the primary classification. *)
Definition summary (o : res outcome) : option (label * Z * string) :=
  match o with
  | Ret (Classified r) =>
      Some (pc_type (primary_classification r),
            pc_confidence (primary_classification r),
            pc_status (primary_classification r))
  | _ => None
  end.

(** *** Concrete Stores *)

Definition meta_of (id : string) (subject : jval pystr) : metadata :=
  {| md_id := id; md_folder := py "Inbox"; md_extraction_date := 0%N;
     md_subject := subject;
     md_sender_name := JNull; md_sender_email := JNull;
     md_delivery_time := JNull; md_creation_time := JNull;
     md_modification_time := JNull;
     md_size := None; md_attachment_count := None;
     md_eml_file := None; md_attachments := [];
     md_plain_text_length := 0; md_html_content_length := 0 |}.

Definition file (name : string) : dir_entry :=
  {| de_is_file := true; de_name := py name; de_filled_cells := None |}.

Definition workbook (name : string) (filled : Z) : dir_entry :=
  {| de_is_file := true; de_name := py name; de_filled_cells := Some filled |}.

Definition body (text : string) : email_content :=
  {| plain_text := []; html_content := py text; combined_text := py text |}.

Definition id1 : string := "email_000001".
Definition id2 : string := "email_000002".
Definition id3 : string := "email_000003".

(** A Store holding one message. *)
Definition one_message (subject : string) (text : string)
  (entries : list dir_entry) : store :=
  {| metadata_glob := Some [id1];
     metadata_files := {[ id1 := meta_of id1 (JVal (py subject)) ]};
     eml_files := {[ id1 := body text ]};
     attachment_dirs := {[ id1 := entries ]} |}.

(** Only a quote keyword in the subject. *)
Definition st_quote_keyword : store := one_message "COTIZACION" "" [].

(** Subject "ENDOSO A" and a policy document. *)
Definition st_endoso_a : store := one_message "ENDOSO A" "" [file "poliza.pdf"].

(** The subject of the threshold example of the specification. *)
Definition st_favor_cotizar : store := one_message "RE: Favor cotizar" "" [].

(** A quote with a filled slip, and a renewal with its document. *)
Definition st_quote_slip : store :=
  one_message "COTIZACION AGENTE 123" "" [workbook "slip.xlsx" 6].
Definition st_renewal : store :=
  one_message "RENOVACION POLIZA 456" "" [file "renovacion.pdf"].

(** Every quote criterion at once. *)
Definition md_full_quote : metadata :=
  meta_of id1 (JVal (py "COTIZACION AGENTE 123")).
Definition body_full_quote : email_content :=
  body "solicito su apoyo cotizando".
Definition atts_full_quote : list dir_entry :=
  [workbook "slip.xlsx" 6; file "cotizacion.pdf"].

(** Three metadata files listed, the second one gone when it is read. *)
Definition st_gap (listing : list string) : store :=
  {| metadata_glob := Some listing;
     metadata_files :=
       {[ id1 := meta_of id1 (JVal (py "COTIZACION AGENTE 123"));
          id3 := meta_of id3 (JVal (py "ENDOSO A")) ]};
     eml_files := ∅;
     attachment_dirs := {[ id3 := [file "poliza.pdf"] ]} |}.

End Props.

Module ExtractorProps.
Import PyStr Py Meta Extractor.

(** An attachment whose size, data and file write all succeed. *)
Definition extractable (a : attachment) : bool :=
  match att_get_size a, att_read_buffer a, att_write a with
  | Ret _, Ret _, Ret _ => true
  | _, _, _ => false
  end.

Definition att_data (a : attachment) : list Byte.byte :=
  match att_read_buffer a with Ret data => data | Raise _ => [] end.

Definition att_size (a : attachment) : Z :=
  match att_get_size a with Ret n => n | Raise _ => 0 end.

(** The entries listed for the attachments read from index [i] on. *)
Fixpoint entries_from (id : string) (i : nat) (atts : list attachment)
  : list att_entry :=
  match atts with
  | [] => []
  | a :: rest =>
      {| ae_filename := choose_filename a i;
         ae_size := att_size a;
         ae_path := (id, choose_filename a i) |}
      :: entries_from id (S i) rest
  end.

(** Writing named data one after the other into the directory of [id]. *)
Definition write_all (id : string) (named : list (pystr * list Byte.byte))
  (d : fs) : fs :=
  List.fold_left (fun d nd => write_attachment id (fst nd) (snd nd) d) named d.

(** Every listed entry has its file. *)
Definition all_written (entries : list att_entry) (d : fs) : Prop :=
  forall a, In a entries -> is_Some (attachments_dir d !! ae_path a).

(** The file names chosen for the attachments read from index [i] on,
    each with its data, in read order. *)
Fixpoint named_from (i : nat) (atts : list attachment)
  : list (pystr * list Byte.byte) :=
  match atts with
  | [] => []
  | a :: rest => (choose_filename a i, att_data a) :: named_from (S i) rest
  end.

(** The data of the last pair carrying the name [f]. *)
Fixpoint last_written (f : pystr) (l : list (pystr * list Byte.byte))
  : option (list Byte.byte) :=
  match l with
  | [] => None
  | (n, data) :: rest =>
      match last_written f rest with
      | Some later => Some later
      | None => if decide (n = f) then Some data else None
      end
  end.

(** A file name that is one path component of its own: not empty, not
    "." or "..", without a separator and without NUL.  Joined to the
    directory of a message such a name denotes a file of that directory
    and nothing else; the code joins whatever name the archive gives,
    and the entries of [attachments_dir] stand for files only as far as
    the names are of this kind. *)
Definition plain (filename : pystr) : bool :=
  truthy filename
  && negb (PyStr.eqb filename (py "."))
  && negb (PyStr.eqb filename (py ".."))
  && List.forallb (fun c => negb ((c =? 47) || (c =? 92) || (c =? 0))%N)
       filename.

(** The names chosen for the attachments of a message, from index [i]
    on, are all plain. *)
Fixpoint plain_slots (i : nat) (slots : list (res (option attachment)))
  : bool :=
  match slots with
  | [] => true
  | Ret (Some a) :: rest =>
      plain (choose_filename a i) && plain_slots (S i) rest
  | _ :: rest => plain_slots (S i) rest
  end.

Definition plain_names (m : message) : bool :=
  plain_slots 0 (msg_attachments m).

(** The message [id] is on disk as far as its metadata record says: the
    record is there, every attachment it lists has its file, and the
    .eml it names, if any, is there. *)
Definition persisted (id : string) (d : fs) : Prop :=
  exists md,
    metadata_dir d !! id = Some md
    /\ (forall a, In a (md_attachments md) ->
                  is_Some (attachments_dir d !! ae_path a))
    /\ (md_eml_file md = None \/ is_Some (emails_dir d !! id)).

(** *** Concrete archives *)

Definition att (name : string) (data : list Byte.byte)
  (read : res (list Byte.byte)) (write : res unit) : attachment :=
  {| att_name := Some (py name); att_long_filename := None;
     att_get_size := Ret (Z.of_nat (length data));
     att_read_buffer := read; att_write := write |}.

Definition msg (atts : list attachment) (eml_write metadata_write : res unit)
  : message :=
  {| msg_subject := JVal (py "COTIZACION AGENTE 123");
     msg_sender_name := JVal (py "Ana");
     msg_sender_email_address := JVal (py "ana@example.com");
     msg_delivery_time := JNull; msg_creation_time := JNull;
     msg_modification_time := JNull;
     msg_get_size := Ret 10;
     msg_plain_text_body := Ret (py "texto"); msg_html_body := Ret [];
     msg_get_number_of_attachments := Attr (Ret (length atts));
     msg_number_of_attachments := NoAttr;
     msg_attachments := List.map (fun a => Ret (Some a)) atts;
     msg_eml_write := eml_write; msg_metadata_write := metadata_write |}.

Definition empty_fs : fs :=
  {| emails_dir := ∅; attachments_dir := ∅; metadata_dir := ∅;
     progress_file := None |}.

Definition root (ms : list message) : folder :=
  Folder (Some (py "Root")) (Attr (Ret (length ms))) NoAttr
         (List.map Some ms) (Attr (Ret O)) NoAttr [].

(** The ids of the first and second message of a fresh run. *)
Definition id1 : string := format_id 1.
Definition id2 : string := format_id 2.

Definition data1 : list Byte.byte := [Byte.x01].
Definition data2 : list Byte.byte := [Byte.x02].

(** Two attachments under one file name. *)
Definition twins : list attachment :=
  [att "a.pdf" data1 (Ret data1) (Ret tt);
   att "a.pdf" data2 (Ret data2) (Ret tt)].
Definition msg_twins : message := msg twins (Ret tt) (Ret tt).

(** The .eml cannot be written and the only attachment cannot be read. *)
Definition msg_partial : message :=
  msg [att "b.pdf" data1 (Raise OtherException) (Ret tt)]
      (Raise OtherException) (Ret tt).

(** The user interrupts while the attachment is being read. *)
Definition msg_interrupt : message :=
  msg [att "c.pdf" data1 (Raise KeyboardInterrupt) (Ret tt)] (Ret tt) (Ret tt).

Definition msg_plain : message := msg [] (Ret tt) (Ret tt).

End ExtractorProps.

(* ===================================================================== *)
(** ** Further notions for the extraction pipeline *)
(* ===================================================================== *)

Module ExtractorNotions.
Import PyStr Py Meta Extractor ExtractorProps.

(** Reading a decimal id back: the value of a run of digits. *)
Definition digit_value (c : ascii) : N := (N_of_ascii c - 48)%N.

Fixpoint value_acc (acc : N) (s : string) : N :=
  match s with
  | EmptyString => acc
  | String c rest => value_acc (acc * 10 + digit_value c)%N rest
  end.

Fixpoint drop_chars (n : nat) (s : string) : string :=
  match n, s with
  | S n', String _ rest => drop_chars n' rest
  | _, _ => s
  end.

(** The counter an id was formatted from: the digits after "email_". *)
Definition decode_id (id : string) : Z := Z.of_N (value_acc 0 (drop_chars 6 id)).

(** Nothing in the outcome is a [KeyboardInterrupt]. *)
Definition res_quiet {A} (r : res A) : bool :=
  match r with Raise KeyboardInterrupt => false | _ => true end.

Definition accessor_quiet {A} (a : accessor A) : bool :=
  match a with Attr r => res_quiet r | NoAttr => true end.

Definition att_quiet (a : attachment) : bool :=
  res_quiet (att_get_size a) && res_quiet (att_read_buffer a)
  && res_quiet (att_write a).

Definition slot_quiet (s : res (option attachment)) : bool :=
  match s with
  | Ret (Some a) => att_quiet a
  | r => res_quiet r
  end.

(** A message during whose extraction the user does not interrupt. *)
Definition quiet (m : message) : bool :=
  accessor_quiet (msg_get_number_of_attachments m)
  && accessor_quiet (msg_number_of_attachments m)
  && forallb slot_quiet (msg_attachments m)
  && res_quiet (msg_eml_write m)
  && res_quiet (msg_metadata_write m).

(** The first exception met when size, data and file write of an
    attachment are tried in turn. *)
Definition att_failure (a : attachment) : option exn :=
  match att_get_size a with
  | Raise e => Some e
  | Ret _ =>
      match att_read_buffer a with
      | Raise e => Some e
      | Ret _ =>
          match att_write a with
          | Raise e => Some e
          | Ret _ => None
          end
      end
  end.

(** What the loop over the attachments does, told without the disk: the
    entries it lists, the named data it writes, in order, and the
    exception that ends it, if any. *)
Fixpoint attachments_trace (id : string) (n i : nat)
  (slots : list (res (option attachment)))
  : list att_entry * list (pystr * list Byte.byte) * option exn :=
  match n with
  | O => ([], [], None)
  | S n' =>
      match slots with
      | [] => ([], [], Some OtherException)
      | Raise e :: _ => ([], [], Some e)
      | Ret None :: rest => attachments_trace id n' (S i) rest
      | Ret (Some a) :: rest =>
          match att_failure a with
          | None =>
              let '(entries, writes, stop) :=
                attachments_trace id n' (S i) rest in
              ({| ae_filename := choose_filename a i;
                  ae_size := att_size a;
                  ae_path := (id, choose_filename a i) |} :: entries,
               (choose_filename a i, att_data a) :: writes, stop)
          | Some e =>
              if is_Exception e then attachments_trace id n' (S i) rest
              else ([], [], Some e)
          end
      end
  end.

(** The same for [extract_attachments] as a whole. *)
Definition extraction_trace (m : message) (id : string)
  : list att_entry * list (pystr * list Byte.byte) * option exn :=
  match probe_count (msg_get_number_of_attachments m)
                    (msg_number_of_attachments m) with
  | Raise e => ([], [], Some e)
  | Ret n => attachments_trace id n 0 (msg_attachments m)
  end.

(** The files of the message [id] are the same on two disks. *)
Definition same_files_of (id : string) (d d' : fs) : Prop :=
  emails_dir d' !! id = emails_dir d !! id
  /\ metadata_dir d' !! id = metadata_dir d !! id
  /\ forall f, attachments_dir d' !! (id, f) = attachments_dir d !! (id, f).

(** Every message the run has met so far is in the progress list: the
    ids of all counters from 1 to [processed_count]. *)
Definition all_recorded (x : extractor) : bool :=
  List.forallb
    (fun k => mem (format_id (Z.of_nat k))
                (processed_emails (progress_data x)))
    (List.seq 1 (Z.to_nat (processed_count x))).

(** A run that has recorded nine messages and not yet written its
    progress file. *)
Definition at_nine : extractor :=
  {| processed_count := 9;
     progress_data :=
       {| processed_emails :=
            List.map (fun k => format_id (Z.of_nat k)) (List.seq 1 9);
          total_processed := 0; start_time := Some 0%N;
          last_update := None |};
     disk := empty_fs; clock := 5%N |}.

(** The id the next call of [process_message] works on. *)
Definition next_id (x : extractor) : string := format_id (processed_count x + 1).

(** The loop of [process_folder] over the subfolders, with the walk of
    a subfolder as a parameter. *)
Fixpoint subfolders_loop
  (walk : folder -> pystr -> extractor -> res unit * extractor)
  (folder_name : pystr) (n : nat) (l : list (option folder))
  (x : extractor) {struct l} : res unit * extractor :=
  match n with
  | O => (Ret tt, x)
  | S n' =>
      match l with
      | [] => (Ret tt, x)
      | None :: rest => subfolders_loop walk folder_name n' rest x
      | Some sub :: rest =>
          match walk sub folder_name x with
          | (Ret _, x') => subfolders_loop walk folder_name n' rest x'
          | (Raise e, x') =>
              if is_Exception e then (Ret tt, x') else (Raise e, x')
          end
      end
  end.

(** The progress list is only ever extended, and stays free of
    duplicates. *)
Definition extends_progress (x x' : extractor) : Prop :=
  (exists added,
     processed_emails (progress_data x')
     = processed_emails (progress_data x) ++ added)
  /\ (NoDup (processed_emails (progress_data x)) ->
      NoDup (processed_emails (progress_data x'))).

(** A folder whose reader offers no way to count. *)
Definition blind_folder (msgs : list (option message))
  (subs : list (option folder)) : folder :=
  Folder (Some (py "Inbox")) NoAttr NoAttr msgs NoAttr NoAttr subs.

(** Two states with the same progress list and the same emails,
    attachments and metadata on disk. *)
Definition same_store (x y : extractor) : Prop :=
  processed_emails (progress_data y) = processed_emails (progress_data x)
  /\ emails_dir (disk y) = emails_dir (disk x)
  /\ attachments_dir (disk y) = attachments_dir (disk x)
  /\ metadata_dir (disk y) = metadata_dir (disk x).

(** The state [x'] comes later in a run than [x]: whatever concerns the
    ids of the counters up to that of [x] is as it was at [x]. *)
Definition later (x x' : extractor) : Prop :=
  0 <= processed_count x ->
  processed_count x <= processed_count x'
  /\ forall c, 0 <= c <= processed_count x ->
       (In (format_id c) (processed_emails (progress_data x'))
        <-> In (format_id c) (processed_emails (progress_data x)))
       /\ same_files_of (format_id c) (disk x) (disk x').

(** The state in which [process_message] runs its body. *)
Definition counted (x : extractor) : extractor :=
  {| processed_count := processed_count x + 1;
     progress_data := progress_data x;
     disk := disk x; clock := clock x |}.

(** [except Exception] around a result. *)
Definition swallow (r : res unit) : res unit :=
  match r with
  | Raise e => if is_Exception e then Ret tt else Raise e
  | ok => ok
  end.

(** A part [P] of the walk can be run again: from a state [y] that has
    the progress list and the files some later state [F] of the first run
    has, it ends as it did the first time and leaves list and files as
    they are in [F]. *)
Definition replays (P : extractor -> res unit * extractor) : Prop :=
  forall x y F,
    0 <= processed_count x ->
    processed_count y = processed_count x ->
    later (snd (P x)) F ->
    same_store F y ->
    fst (P y) = fst (P x)
    /\ same_store F (snd (P y))
    /\ processed_count (snd (P y)) = processed_count (snd (P x)).

(** A disk on which a previous run has recorded the first message. *)
Definition fs_resumed : fs :=
  {| emails_dir := ∅; attachments_dir := ∅; metadata_dir := ∅;
     progress_file :=
       Some {| processed_emails := [id1]; total_processed := 1;
               start_time := Some 5%N; last_update := Some 6%N |} |}.

End ExtractorNotions.

(* ===================================================================== *)
(** ** Further notions for the classification engine *)
(* ===================================================================== *)

Module ClassifierNotions.
Import PyStr Re Py Meta Classifier Props.

(** The names of the regular files of a listing, in listing order. *)
Definition file_names (entries : list dir_entry) : list pystr :=
  List.map de_name (List.filter de_is_file entries).

(** Every name the analysis has filed under some category. *)
Definition categorized (ai : attachment_info) : list pystr :=
  slip_files ai ++ excel_files ai ++ pdf_cotizacion ai ++ pdf_poliza ai
  ++ pdf_renovacion ai ++ pdf_endoso ai.

(** The word lists of [analyze_attachments], in the order of its chain. *)
Definition quote_words : list pystr :=
  [py "COTIZACION"; py "COT"; py "PROPUESTA";
   py "SEGURO MULTIPLE EMPRESARIAL"].

Definition policy_words : list pystr := [py "POLIZA"; py "PBE"; py "RECIBO"].

Definition renewal_words : list pystr :=
  [py "RENOVACION"; py "RENOVAR"; py "CONDICIONES DE RENOVACION";
   py "PRORROGA"; py "REHABILITACION"].

Definition endorsement_words : list pystr :=
  [py "ENDOSO"; py "BENEFICIOS"; py "INCISO"; py "CORRECCION";
   py "MODIFICACION"].

(** What the name of a file says when it stands in a list of the
    analysis. *)
Definition well_filed (ai : attachment_info) : Prop :=
  forall name : pystr,
    let filename := upper name in
    (In name (slip_files ai) ->
       is_excel filename = true /\ contains (py "SLIP") filename = true)
    /\ (In name (excel_files ai) ->
        is_excel filename = true /\ contains (py "SLIP") filename = false)
    /\ (In name (pdf_cotizacion ai) ->
        is_excel filename = false /\ is_pdf filename = true
        /\ any_in quote_words filename = true)
    /\ (In name (pdf_poliza ai) ->
        is_excel filename = false /\ is_pdf filename = true
        /\ any_in quote_words filename = false
        /\ any_in policy_words filename = true)
    /\ (In name (pdf_renovacion ai) ->
        is_excel filename = false /\ is_pdf filename = true
        /\ any_in quote_words filename = false
        /\ any_in policy_words filename = false
        /\ any_in renewal_words filename = true)
    /\ (In name (pdf_endoso ai) ->
        is_excel filename = false /\ is_pdf filename = true
        /\ any_in quote_words filename = false
        /\ any_in policy_words filename = false
        /\ any_in renewal_words filename = false
        /\ any_in endorsement_words filename = true).

(** A PDF whose name mentions a policy and, in passing, a quote. *)
Definition mixed_pdf : dir_entry := file "poliza cotizada.pdf".

(** A filled slip beside a policy document, and nothing in the subject. *)
Definition md_plain : metadata := meta_of id1 (JVal (py "Documentos")).
Definition atts_slip_and_policy : attachment_info :=
  analyze_attachments (Some [workbook "slip.xlsx" 12; file "poliza.pdf"]).

(** The longest prefix of characters of a class, and what follows it. *)
Fixpoint leading (c : cset) (s : pystr) : pystr :=
  match s with
  | x :: s' => if cmatch c x then x :: leading c s' else []
  | [] => []
  end.

Fixpoint after (c : cset) (s : pystr) : pystr :=
  match s with
  | x :: s' => if cmatch c x then after c s' else s
  | [] => []
  end.

(** The continuation of [re.search]: the match is complete. *)
Definition matched : cont := fun _ _ g => Some g.

(** [code] stands in [text] as a whole run of decimal digits, right after
    white space. *)
Definition digit_run_in (text code : pystr) : Prop :=
  exists before blank rest,
    text = before ++ blank ++ code ++ rest
    /\ blank <> [] /\ Forall (fun x => is_space x = true) blank
    /\ code <> [] /\ Forall (fun x => is_digit x = true) code
    /\ match rest with
       | [] => True
       | x :: _ => is_digit x = false
       end.

(** Every code point of the text lies in U+0000..U+00FF. *)
Definition latin1 (text : pystr) : Prop :=
  Forall (fun x => (x <= 255)%N) text.

(** *** The parts of a stored message

    The body of the [try] of [extract_email_content], on the parts that
    [msg.walk()] yields.  A part is read through its content type and
    through the text of its payload: [None] when [get_payload] gives
    [None] or no bytes, and the decoded bytes otherwise. *)
Inductive content_type := text_plain | text_html | other_type.

Record part := {
  part_type : content_type;
  part_text : option pystr
}.

Section Eml.

(** [BeautifulSoup(html, 'html.parser').get_text(separator=' ',
    strip=True)]; [None] when it raises. *)
Variable get_text : pystr -> option pystr.

(** One turn of [for part in msg.walk()]. *)
Definition read_part (content : email_content) (p : part) : email_content :=
  match part_type p, part_text p with
  | text_plain, Some payload =>
      {| plain_text := payload;
         html_content := html_content content;
         combined_text := combined_text content |}
  | text_html, Some payload =>
      {| plain_text := plain_text content;
         html_content := payload;
         combined_text :=
           match get_text payload with
           | Some text => text
           | None => plain_text content
           end |}
  | _, _ => content
  end.

(** The texts of a stored message; [None] stands for a file that is
    missing or cannot be read as a message. *)
Definition content_of_eml (eml : option (list part)) : email_content :=
  match eml with
  | None => empty_content
  | Some parts =>
      let content := fold_left read_part parts empty_content in
      if negb (truthy (plain_text content)) && truthy (combined_text content)
      then {| plain_text := combined_text content;
              html_content := html_content content;
              combined_text := combined_text content |}
      else content
  end.

End Eml.

(** A message with a single plain-text part that asks for a quote. *)
Definition plain_request : list part :=
  [ {| part_type := text_plain;
       part_text := Some (py "Solicito cotizacion, agente 123") |} ].

(** The same request as an HTML part. *)
Definition html_request : list part :=
  [ {| part_type := text_html;
       part_text := Some (py "Solicito cotizacion, agente 123") |} ].

(** The stems the loop of [classify_all_emails] does not pass over. *)
Definition is_progress (stem : string) : bool := String.eqb stem "progress".

(** The full result of a stem, where [classify_email] gives one. *)
Definition classified (st : store) (stem : string) : option result :=
  if is_progress stem then None
  else match classify_email st stem with
       | Ret (Classified c) => Some c
       | _ => None
       end.

(** The stem has a metadata file. *)
Definition has_metadata (st : store) (stem : string) : bool :=
  match metadata_files st !! stem with Some _ => true | None => false end.

(** The stem is read by the loop and its metadata has a null subject. *)
Definition null_subject (st : store) (stem : string) : bool :=
  negb (is_progress stem)
  && match metadata_files st !! stem with
     | Some md => match md_subject md with JNull => true | _ => false end
     | None => false
     end.

Definition label_eqb (a b : label) : bool :=
  match a, b with
  | cotizacion, cotizacion | renovacion, renovacion
  | endoso, endoso | sin_clasificar, sin_clasificar => true
  | _, _ => false
  end.

(** The number of results of a primary type. *)
Definition count_type (t : label) (l : list result) : Z :=
  Z.of_nat (length (List.filter
    (fun c => label_eqb (pc_type (primary_classification c)) t) l)).

(** The four counters of a result set. *)
Definition counters (r : results) : Z * Z * Z * Z :=
  (n_cotizacion r, n_renovacion r, n_endoso r, n_sin_clasificar r).


(** A quote and an endorsement, and the file of the extractor. *)
Definition st_two : store :=
  {| metadata_glob := Some [id1; "progress"%string; id2];
     metadata_files :=
       {[ id1 := meta_of id1 (JVal (py "COTIZACION AGENTE 123"));
          id2 := meta_of id2 (JVal (py "ENDOSO A")) ]};
     eml_files := ∅; attachment_dirs := ∅ |}.

(** *** generate_report

    The report is kept as the numbers and lines it is written from.  The
    percentage beside a count is the count divided by [total_emails]:
    the report holds both numbers, and the division is what fails on an
    empty result set. *)
Inductive report_exn :=
| ZeroDivisionError
| TypeError
| FromBatch (e : exn).

(** The lines of one category: id and subject of the first five
    messages, and how many more there are when there are more. *)
Record detail := {
  shown : list (string * pystr);
  more : option Z
}.

Record report := {
  rp_total : Z;
  rp_cotizacion : Z;
  rp_renovacion : Z;
  rp_endoso : Z;
  rp_sin_clasificar : Z;
  rp_cotizaciones : detail;
  rp_renovaciones : detail;
  rp_endosos : detail
}.

Inductive report_outcome :=
| ReportError (msg : string)
| Report (rp : report)
| ReportRaise (e : report_exn).

(** [email['metadata'].get('subject', 'Sin asunto')[:60]], with the id;
    [None] is the [TypeError] of slicing a null subject. *)
Definition subject_line (c : result) : option (string * pystr) :=
  match md_subject (r_metadata c) with
  | JAbsent => Some (email_id c, firstn 60 (py "Sin asunto"))
  | JNull => None
  | JVal s => Some (email_id c, firstn 60 s)
  end.

Fixpoint subject_lines (l : list result) : option (list (string * pystr)) :=
  match l with
  | [] => Some []
  | c :: rest =>
      match subject_line c with
      | None => None
      | Some line =>
          match subject_lines rest with
          | None => None
          | Some lines => Some (line :: lines)
          end
      end
  end.

(** The results of a primary type, as the list comprehensions of the
    report select them. *)
Definition of_type (t : label) (l : list result) : list result :=
  List.filter (fun c => label_eqb (pc_type (primary_classification c)) t) l.

Definition detail_of (t : label) (l : list result) : option detail :=
  let selected := of_type t l in
  match subject_lines (firstn 5 selected) with
  | None => None
  | Some lines =>
      Some {| shown := lines;
              more := if (5 <? length selected)%nat
                      then Some (Z.of_nat (length selected) - 5)
                      else None |}
  end.

Definition generate_report (st : store) : report_outcome :=
  match classify_all_emails st with
  | Raise e => ReportRaise (FromBatch e)
  | Ret (BatchError msg) => ReportError ("Error: " ++ msg)
  | Ret (BatchResults results) =>
      if total_emails results =? 0 then ReportRaise ZeroDivisionError
      else
        match detail_of cotizacion (emails results) with
        | None => ReportRaise TypeError
        | Some cotizaciones =>
            match detail_of renovacion (emails results) with
            | None => ReportRaise TypeError
            | Some renovaciones =>
                match detail_of endoso (emails results) with
                | None => ReportRaise TypeError
                | Some endosos =>
                    Report {| rp_total := total_emails results;
                              rp_cotizacion := n_cotizacion results;
                              rp_renovacion := n_renovacion results;
                              rp_endoso := n_endoso results;
                              rp_sin_clasificar := n_sin_clasificar results;
                              rp_cotizaciones := cotizaciones;
                              rp_renovaciones := renovaciones;
                              rp_endosos := endosos |}
                end
            end
        end
  end.

(** The number of messages a detail stands for. *)
Definition detail_size (d : detail) : Z :=
  Z.of_nat (length (shown d))
  + match more d with Some n => n | None => 0 end.

(** The metadata directory holds nothing but the file of the extractor. *)
Definition st_no_messages : store :=
  {| metadata_glob := Some ["progress"%string];
     metadata_files := ∅; eml_files := ∅; attachment_dirs := ∅ |}.

(** *** reclassify_emails.py

    [reclassify_all_emails] on the entries of an existing result file;
    an entry is a result as [classify_all_emails] writes it. *)

(** The four counts of [stats_before] and [stats_after]. *)
Definition tally_one (stats : Z * Z * Z * Z) (email_info : result)
  : Z * Z * Z * Z :=
  let '(n_cot, n_ren, n_end, n_sin) := stats in
  match pc_type (primary_classification email_info) with
  | cotizacion => (n_cot + 1, n_ren, n_end, n_sin)
  | renovacion => (n_cot, n_ren + 1, n_end, n_sin)
  | endoso => (n_cot, n_ren, n_end + 1, n_sin)
  | sin_clasificar => (n_cot, n_ren, n_end, n_sin + 1)
  end.

Definition tally (l : list result) : Z * Z * Z * Z :=
  fold_left tally_one l (0, 0, 0, 0).

(** [old_type == 'sin_clasificar' and new_type != 'sin_clasificar'] *)
Definition improved (old new : result) : bool :=
  label_eqb (pc_type (primary_classification old)) sin_clasificar
  && negb (label_eqb (pc_type (primary_classification new)) sin_clasificar).

(** The loop over the existing entries: the list of re-classified
    entries and [improved_count]. *)
Fixpoint reclassify_loop (st : store) (existing : list result)
  (reclassified_emails : list result) (improved_count : Z)
  : res (list result * Z) :=
  match existing with
  | [] => Ret (reclassified_emails, improved_count)
  | email_info :: rest =>
      let* new_classification := classify_email st (email_id email_info) in
      match new_classification with
      | Classified new =>
          reclassify_loop st rest (reclassified_emails ++ [new])
            (if improved email_info new then improved_count + 1
             else improved_count)
      | ErrorResult _ =>
          reclassify_loop st rest (reclassified_emails ++ [email_info])
            improved_count
      end
  end.

(** What the script writes: the summary and the entries of the new
    result file, and the backup of the old entries. *)
Record new_results := {
  nr_total_emails : Z;
  nr_counts : Z * Z * Z * Z;
  nr_improved : Z;
  nr_emails : list result;
  nr_backup : list result
}.

(** [existing] is [None] when there is no result file; the script then
    returns without writing anything. *)
Definition reclassify_all_emails (st : store)
  (existing : option (list result)) : res (option new_results) :=
  match existing with
  | None => Ret None
  | Some existing_emails =>
      let* r := reclassify_loop st existing_emails [] 0 in
      let '(reclassified_emails, improved_count) := r in
      Ret (Some {| nr_total_emails := Z.of_nat (length reclassified_emails);
                   nr_counts := tally reclassified_emails;
                   nr_improved := improved_count;
                   nr_emails := reclassified_emails;
                   nr_backup := existing_emails |})
  end.

(** The entry that replaces an existing one. *)
Definition renew (st : store) (old : result) : result :=
  match classify_email st (email_id old) with
  | Ret (Classified new) => new
  | _ => old
  end.

(** The entries of the batch over [st_two], and the same Store after the
    metadata of the second message has been removed. *)
Definition entries_two : list result :=
  match classify_all_emails st_two with
  | Ret (BatchResults r) => emails r
  | _ => []
  end.

Definition st_two_less : store :=
  {| metadata_glob := Some [id1];
     metadata_files :=
       {[ id1 := meta_of id1 (JVal (py "COTIZACION AGENTE 123")) ]};
     eml_files := ∅; attachment_dirs := ∅ |}.

End ClassifierNotions.

(* ===================================================================== *)
(** ** From the extraction to the classification *)
(* ===================================================================== *)

Module PipelineNotions.
Import PyStr Py Meta.

(** The Store the classifier works on when it is started on a disk of
    the extractor: the metadata records are those the extractor wrote.
    [listing] is what the directory lists, [contents] and [dirs] what the
    classifier reads of the .eml files and of the attachment
    directories. *)
Definition store_of (d : Extractor.fs) (listing : list string)
  (contents : gmap string Classifier.email_content)
  (dirs : gmap string (list Classifier.dir_entry)) : Classifier.store :=
  {| Classifier.metadata_glob := Some listing;
     Classifier.metadata_files := Extractor.metadata_dir d;
     Classifier.eml_files := contents;
     Classifier.attachment_dirs := dirs |}.

(** A message of the archive that has no subject: the reader gives
    [None]. *)
Definition msg_no_subject : Extractor.message :=
  {| Extractor.msg_subject := JNull;
     Extractor.msg_sender_name := JVal (py "Ana");
     Extractor.msg_sender_email_address := JVal (py "ana@example.com");
     Extractor.msg_delivery_time := JNull;
     Extractor.msg_creation_time := JNull;
     Extractor.msg_modification_time := JNull;
     Extractor.msg_get_size := Ret 10;
     Extractor.msg_plain_text_body := Ret (py "texto");
     Extractor.msg_html_body := Ret [];
     Extractor.msg_get_number_of_attachments := Extractor.Attr (Ret O);
     Extractor.msg_number_of_attachments := Extractor.NoAttr;
     Extractor.msg_attachments := [];
     Extractor.msg_eml_write := Ret tt;
     Extractor.msg_metadata_write := Ret tt |}.

End PipelineNotions.

(* ===================================================================== *)
(** ** Properties of the classification engine *)
(* ===================================================================== *)

Module ClassifierFacts.
Import PyStr Re Py Meta Classifier Props.

(** Splits on every condition of a score. *)
Ltac split_ifs :=
  repeat match goal with
         | |- context [if ?b then _ else _] => destruct b
         end.

Lemma cotizacion_score_range asunto cuerpo ai :
  -15 <= cotizacion_score asunto cuerpo ai <= 125.
Proof. unfold cotizacion_score; cbv zeta; split_ifs; lia. Qed.

Lemma renovacion_score_range asunto cuerpo ai :
  -20 <= renovacion_score asunto cuerpo ai <= 115.
Proof. unfold renovacion_score; cbv zeta; split_ifs; lia. Qed.

Lemma endoso_score_range asunto cuerpo ai :
  0 <= endoso_score asunto cuerpo ai <= 110.
Proof. unfold endoso_score; cbv zeta; split_ifs; lia. Qed.

(** The evaluators return unless the subject is null, and then their
    confidence is the clamped score. *)
Lemma classify_cotizacion_ret md ai ec asunto :
  subject_upper md = Ret asunto ->
  exists c, classify_cotizacion md ai ec = Ret c
            /\ confidence c
               = Z.min 100 (cotizacion_score asunto (body_upper ec) ai)
            /\ is_met c = (40 <=? cotizacion_score asunto (body_upper ec) ai)
            /\ criteria_met c = cotizacion_criteria asunto (body_upper ec) ai.
Proof.
  intros H. unfold classify_cotizacion. rewrite H. unfold bind.
  eexists. repeat split; reflexivity.
Qed.

Lemma classify_renovacion_ret md ai ec asunto :
  subject_upper md = Ret asunto ->
  exists c, classify_renovacion md ai ec = Ret c
            /\ confidence c
               = Z.min 100 (renovacion_score asunto (body_upper ec) ai)
            /\ is_met c = (40 <=? renovacion_score asunto (body_upper ec) ai)
            /\ criteria_met c = renovacion_criteria asunto (body_upper ec) ai.
Proof.
  intros H. unfold classify_renovacion. rewrite H. unfold bind.
  eexists. repeat split; reflexivity.
Qed.

Lemma classify_endoso_ret md ai ec asunto :
  subject_upper md = Ret asunto ->
  exists c, classify_endoso md ai ec = Ret c
            /\ confidence c
               = Z.min 100 (endoso_score asunto (body_upper ec) ai)
            /\ is_met c = (30 <=? endoso_score asunto (body_upper ec) ai)
            /\ criteria_met c = endoso_criteria asunto (body_upper ec) ai.
Proof.
  intros H. unfold classify_endoso. rewrite H. unfold bind.
  eexists. repeat split; reflexivity.
Qed.

(** The subject is upper-cased unless it is null. *)
Lemma subject_upper_cases md :
  (exists asunto, subject_upper md = Ret asunto)
  \/ (subject_upper md = Raise AttributeError /\ md_subject md = JNull).
Proof.
  unfold subject_upper. destruct (md_subject md); eauto.
Qed.


(** C1, as the code has it: every evaluator that returns gives a
    confidence of at most 100; the Endorsement confidence lies in [0,100],
    while the Quote confidence can go down to -15 and the Renewal
    confidence down to -20, because the clamp is [min(100, score)] only.
    An evaluator fails to return only on a null subject. *)
Theorem C1_confidence_bounds md ai ec :
  match classify_cotizacion md ai ec with
  | Ret c => -15 <= confidence c <= 100
  | Raise _ => md_subject md = JNull
  end
  /\ match classify_renovacion md ai ec with
     | Ret c => -20 <= confidence c <= 100
     | Raise _ => md_subject md = JNull
     end
  /\ match classify_endoso md ai ec with
     | Ret c => 0 <= confidence c <= 100
     | Raise _ => md_subject md = JNull
     end.
Proof.
  destruct (subject_upper_cases md) as [[asunto H] | [H Hnull]].
  - destruct (classify_cotizacion_ret md ai ec asunto H) as (c1 & -> & E1 & _).
    destruct (classify_renovacion_ret md ai ec asunto H) as (c2 & -> & E2 & _).
    destruct (classify_endoso_ret md ai ec asunto H) as (c3 & -> & E3 & _).
    rewrite E1, E2, E3.
    pose proof (cotizacion_score_range asunto (body_upper ec) ai).
    pose proof (renovacion_score_range asunto (body_upper ec) ai).
    pose proof (endoso_score_range asunto (body_upper ec) ai).
    lia.
  - unfold classify_cotizacion, classify_renovacion, classify_endoso.
    rewrite H. unfold bind. auto.
Qed.

(** C1 fails as stated: with an empty subject and a policy document as the
    only attachment the Quote evaluator returns -15. *)
Lemma C1_quote_confidence_negative :
  exists c,
    classify_cotizacion (meta_of id1 (JVal []))
      (analyze_attachments (Some [file "poliza.pdf"])) empty_content = Ret c
    /\ confidence c = -15
    /\ ~ (0 <= confidence c <= 100).
Proof.
  eexists. split; [vm_compute; reflexivity |].
  split; [reflexivity | cbn; lia].
Qed.

(** The Renewal evaluator likewise returns -20 on a quote document. *)
Lemma renewal_confidence_negative :
  exists c,
    classify_renovacion (meta_of id1 (JVal []))
      (analyze_attachments (Some [file "cotizacion.pdf"])) empty_content
    = Ret c
    /\ confidence c = -20.
Proof. eexists. split; [vm_compute; reflexivity | reflexivity]. Qed.

(** *** The primary classification *)

Lemma winner_is_highest c1 c2 c3 :
  confidence_of (winner c1 c2 c3) c1 c2 c3 = highest c1 c2 c3
  /\ winner c1 c2 c3 <> sin_clasificar.
Proof.
  unfold winner, highest.
  destruct (Z.leb_spec c2 c1), (Z.leb_spec c3 c1), (Z.leb_spec c3 c2);
    cbn; split; try lia; discriminate.
Qed.

(** The head of the stable descending sort of the three candidates. *)
Lemma sort_desc_head (x1 x2 x3 : classification) :
  exists rest,
    sort_desc (fun x : label * classification => confidence (snd x))
      [(cotizacion, x1); (renovacion, x2); (endoso, x3)]
    = (match winner (confidence x1) (confidence x2) (confidence x3) with
       | cotizacion => (cotizacion, x1)
       | renovacion => (renovacion, x2)
       | _ => (endoso, x3)
       end) :: rest.
Proof.
  unfold sort_desc, winner. cbn [List.fold_right insert_desc snd].
  destruct (Z.ltb_spec (confidence x2) (confidence x3));
    cbn [insert_desc snd];
    destruct (Z.leb_spec (confidence x3) (confidence x2)); try lia;
    repeat match goal with
           | |- context [Z.ltb ?a ?b] => destruct (Z.ltb_spec a b)
           end;
    cbn [insert_desc snd];
    repeat match goal with
           | |- context [Z.ltb ?a ?b] => destruct (Z.ltb_spec a b)
           end;
    destruct (Z.leb_spec (confidence x2) (confidence x1));
    destruct (Z.leb_spec (confidence x3) (confidence x1));
    cbn [andb]; try lia; eexists; reflexivity.
Qed.

(** What [classify_email] returns once the three evaluators have. *)
Lemma classify_email_ret st id md cot ren en :
  metadata_files st !! id = Some md ->
  classify_cotizacion md (analyze_attachments (attachment_dirs st !! id))
    (extract_email_content st id) = Ret cot ->
  classify_renovacion md (analyze_attachments (attachment_dirs st !! id))
    (extract_email_content st id) = Ret ren ->
  classify_endoso md (analyze_attachments (attachment_dirs st !! id))
    (extract_email_content st id) = Ret en ->
  exists r,
    classify_email st id = Ret (Classified r)
    /\ cl_cotizacion r = cot /\ cl_renovacion r = ren /\ cl_endoso r = en
    /\ primary_classification r
       = {| pc_type :=
              if floor <=? confidence (best_of cot ren en)
              then winner (confidence cot) (confidence ren) (confidence en)
              else sin_clasificar;
            pc_confidence := confidence (best_of cot ren en);
            pc_status := status (best_of cot ren en);
            pc_details := best_of cot ren en |}.
Proof.
  intros Hmd H1 H2 H3.
  unfold classify_email. rewrite Hmd, H1, H2, H3. unfold bind.
  destruct (sort_desc_head cot ren en) as [rest ->].
  destruct (winner_is_highest (confidence cot) (confidence ren)
              (confidence en)) as [_ Hne].
  unfold best_of.
  destruct (winner (confidence cot) (confidence ren) (confidence en));
    [ | | | congruence];
    (eexists; split; [reflexivity |]); repeat split; reflexivity.
Qed.

(** A full result can only come from three evaluators that returned. *)
Lemma classify_email_inv st id md r :
  metadata_files st !! id = Some md ->
  classify_email st id = Ret (Classified r) ->
  exists cot ren en,
    classify_cotizacion md (analyze_attachments (attachment_dirs st !! id))
      (extract_email_content st id) = Ret cot
    /\ classify_renovacion md (analyze_attachments (attachment_dirs st !! id))
         (extract_email_content st id) = Ret ren
    /\ classify_endoso md (analyze_attachments (attachment_dirs st !! id))
         (extract_email_content st id) = Ret en.
Proof.
  intros Hmd. unfold classify_email. rewrite Hmd.
  destruct (classify_cotizacion _ _ _) as [cot | e]; [| discriminate].
  destruct (classify_renovacion _ _ _) as [ren | e]; [| discriminate].
  destruct (classify_endoso _ _ _) as [en | e]; [| discriminate].
  intros _. exists cot, ren, en. auto.
Qed.

Lemma best_of_highest cot ren en :
  confidence (best_of cot ren en)
  = highest (confidence cot) (confidence ren) (confidence en).
Proof.
  unfold best_of.
  destruct (winner_is_highest (confidence cot) (confidence ren)
              (confidence en)) as [Hw Hne].
  destruct (winner _ _ _); cbn [confidence_of] in Hw; congruence.
Qed.

(** C2: for a message whose metadata exists, once the three evaluators
    have returned, [classify_email] returns a result whose primary type is
    the category with the highest confidence when that confidence is at
    least the floor 30, and [sin_clasificar] when it is below 30; the
    per-category [is_met] flags play no part. *)
Theorem C2_primary_type st id md cot ren en :
  metadata_files st !! id = Some md ->
  classify_cotizacion md (analyze_attachments (attachment_dirs st !! id))
    (extract_email_content st id) = Ret cot ->
  classify_renovacion md (analyze_attachments (attachment_dirs st !! id))
    (extract_email_content st id) = Ret ren ->
  classify_endoso md (analyze_attachments (attachment_dirs st !! id))
    (extract_email_content st id) = Ret en ->
  let c1 := confidence cot in
  let c2 := confidence ren in
  let c3 := confidence en in
  exists r,
    classify_email st id = Ret (Classified r)
    /\ cl_cotizacion r = cot /\ cl_renovacion r = ren /\ cl_endoso r = en
    /\ confidence_of (winner c1 c2 c3) c1 c2 c3 = highest c1 c2 c3
    /\ pc_confidence (primary_classification r) = highest c1 c2 c3
    /\ pc_type (primary_classification r)
       = if floor <=? highest c1 c2 c3 then winner c1 c2 c3
         else sin_clasificar.
Proof.
  intros Hmd H1 H2 H3 c1 c2 c3.
  destruct (classify_email_ret st id md cot ren en Hmd H1 H2 H3)
    as (r & E & E1 & E2 & E3 & Ep).
  exists r. rewrite Ep. cbn [pc_confidence pc_type].
  rewrite best_of_highest.
  repeat split; try assumption.
  apply winner_is_highest.
Qed.

(** On the Store of the endorsement scenario the three confidences are
    -15, 0 and 50, and the primary type is the endorsement. *)
Lemma C2_primary_type_witness :
  exists r,
    classify_email st_endoso_a id1 = Ret (Classified r)
    /\ pc_confidence (primary_classification r) = 50
    /\ pc_type (primary_classification r) = endoso.
Proof.
  destruct (C2_primary_type st_endoso_a id1 _ _ _ _
              eq_refl eq_refl eq_refl eq_refl)
    as (r & E & _ & _ & _ & _ & Hc & Ht).
  exists r. split; [exact E |]. split.
  - rewrite Hc. vm_compute. reflexivity.
  - rewrite Ht. vm_compute. reflexivity.
Defined.

(** *** A quote keyword in the subject and nothing else *)

Lemma quote_only_keyword md ai ec c :
  classify_cotizacion md ai ec = Ret c ->
  criteria_met c = [CA1] ->
  confidence c = 30 /\ is_met c = false.
Proof.
  intros Hc.
  destruct (subject_upper_cases md) as [[asunto H] | [H _]].
  - destruct (classify_cotizacion_ret md ai ec asunto H)
      as (c' & E & E1 & E2 & E3).
    rewrite Hc in E. injection E as <-. rewrite E1, E2, E3.
    unfold cotizacion_criteria, cotizacion_score, CA1. cbv zeta.
    split_ifs; cbn; intros K; try discriminate K; split; reflexivity.
  - unfold classify_cotizacion in Hc. rewrite H in Hc. discriminate Hc.
Qed.

Lemma renewal_no_criteria md ai ec c :
  classify_renovacion md ai ec = Ret c ->
  criteria_met c = [] ->
  confidence c = 0.
Proof.
  intros Hc.
  destruct (subject_upper_cases md) as [[asunto H] | [H _]].
  - destruct (classify_renovacion_ret md ai ec asunto H)
      as (c' & E & E1 & _ & E3).
    rewrite Hc in E. injection E as <-. rewrite E1, E3.
    unfold renovacion_criteria, renovacion_score. cbv zeta.
    split_ifs; cbn; intros K; try discriminate K; reflexivity.
  - unfold classify_renovacion in Hc. rewrite H in Hc. discriminate Hc.
Qed.

Lemma endorsement_no_criteria md ai ec c :
  classify_endoso md ai ec = Ret c ->
  criteria_met c = [] ->
  confidence c = 0.
Proof.
  intros Hc.
  destruct (subject_upper_cases md) as [[asunto H] | [H _]].
  - destruct (classify_endoso_ret md ai ec asunto H)
      as (c' & E & E1 & _ & E3).
    rewrite Hc in E. injection E as <-. rewrite E1, E3.
    unfold endoso_criteria, endoso_score. cbv zeta.
    split_ifs; cbn; intros K; try discriminate K; reflexivity.
  - unfold classify_endoso in Hc. rewrite H in Hc. discriminate Hc.
Qed.

(** C6, as the code has it: a classified message whose only satisfied
    criterion, over the three evaluators, is the quote keyword in the
    subject gets the Quote confidence 30 with [is_cotizacion] false, and
    its primary type is [cotizacion]: 30 reaches the floor, which is
    inclusive. *)
Theorem C6_keyword_only_is_quote st id md r :
  metadata_files st !! id = Some md ->
  classify_email st id = Ret (Classified r) ->
  criteria_met (cl_cotizacion r) = [CA1] ->
  criteria_met (cl_renovacion r) = [] ->
  criteria_met (cl_endoso r) = [] ->
  confidence (cl_cotizacion r) = 30
  /\ is_met (cl_cotizacion r) = false
  /\ pc_confidence (primary_classification r) = 30
  /\ pc_type (primary_classification r) = cotizacion.
Proof.
  intros Hmd Hr K1 K2 K3.
  destruct (classify_email_inv st id md r Hmd Hr)
    as (cot & ren & en & H1 & H2 & H3).
  destruct (classify_email_ret st id md cot ren en Hmd H1 H2 H3)
    as (r' & E & E1 & E2 & E3 & Ep).
  rewrite Hr in E. injection E as <-. subst cot ren en.
  destruct (quote_only_keyword _ _ _ _ H1 K1) as [C1 M1].
  pose proof (renewal_no_criteria _ _ _ _ H2 K2) as C2.
  pose proof (endorsement_no_criteria _ _ _ _ H3 K3) as C3.
  rewrite Ep. cbn [pc_confidence pc_type]. unfold best_of.
  rewrite C1, C2, C3. cbn. rewrite C1. auto.
Qed.

(** The subject "COTIZACION" matches one quote pattern and nothing else
    is present; the message is a quote, not unclassified. *)
Lemma C6_keyword_only_is_quote_witness :
  exists r,
    classify_email st_quote_keyword id1 = Ret (Classified r)
    /\ quote_subject_hits (py "COTIZACION") = 1%nat
    /\ confidence (cl_cotizacion r) = 30
    /\ pc_type (primary_classification r) = cotizacion.
Proof.
  eexists. split; [vm_compute; reflexivity |].
  split; [vm_compute; reflexivity |].
  pose proof (C6_keyword_only_is_quote st_quote_keyword id1 _ _
                eq_refl eq_refl eq_refl eq_refl eq_refl) as (C & _ & _ & T).
  split; [exact C | exact T].
Defined.

(** C6 fails as stated: that message scores 30 on Quote and is not
    classified [sin_clasificar]. *)
Lemma C6_keyword_only_not_unclassified :
  exists r,
    classify_email st_quote_keyword id1 = Ret (Classified r)
    /\ quote_subject_hits (py "COTIZACION") = 1%nat
    /\ criteria_met (cl_cotizacion r) = [CA1]
    /\ criteria_met (cl_renovacion r) = []
    /\ criteria_met (cl_endoso r) = []
    /\ confidence (cl_cotizacion r) = 30
    /\ pc_type (primary_classification r) <> sin_clasificar.
Proof.
  eexists. split; [vm_compute; reflexivity |].
  repeat split; try (vm_compute; reflexivity).
  vm_compute. discriminate.
Qed.

(** *** Subject "ENDOSO A" with a policy document *)

(** What the subject "ENDOSO A" satisfies on its own. *)
Lemma endoso_a_subject :
  let s := py "ENDOSO A" in
  upper s = s
  /\ any_match cotizacion_asunto_patterns s = false
  /\ extract_agente_code s = []
  /\ any_match renovacion_asunto_patterns s = false
  /\ extract_poliza_number s = []
  /\ any_in [py "RENOVACION"; py "RENOVAR"] s = false
  /\ contains (py "RENOVACION") s = false
  /\ any_match endoso_asunto_patterns s = true
  /\ any_in [py "ENDOSO"; py "MODIFICACION"; py "CORRECCION"] s = true
  /\ detect_endoso_type s = "A"%string.
Proof. vm_compute. repeat split; reflexivity. Qed.

Lemma endoso_a_evaluators md ai ec :
  md_subject md = JVal (py "ENDOSO A") ->
  only_policy_pdf ai ->
  silent_body (body_upper ec) ->
  exists cot ren en,
    classify_cotizacion md ai ec = Ret cot
    /\ classify_renovacion md ai ec = Ret ren
    /\ classify_endoso md ai ec = Ret en
    /\ confidence cot = -15 /\ confidence ren = 0 /\ confidence en = 50
    /\ endoso_type en = "A"%string
    /\ status en = "Endoso incompleto"%string.
Proof.
  intros Hs (P & S & Q & R & E) (B1 & B2 & B3 & B4 & B5).
  destruct endoso_a_subject
    as (U & A1 & A2 & A3 & A4 & A5 & A6 & A7 & A8 & A9).
  cbv zeta in *.
  assert (Hup : subject_upper md = Ret (py "ENDOSO A")).
  { unfold subject_upper. rewrite Hs, U. reflexivity. }
  unfold classify_cotizacion, classify_renovacion, classify_endoso.
  rewrite Hup. unfold bind.
  do 3 eexists. do 3 (split; [reflexivity |]).
  cbn [confidence endoso_type status].
  unfold cotizacion_score, renovacion_score, endoso_score, endoso_status.
  cbv zeta.
  rewrite A1, A2, A3, A4, A5, A6, A7, A8, A9, B1, B2, B3, B4, B5.
  rewrite P, S, Q, R, E.
  cbn. repeat split; reflexivity.
Qed.

(** C9, as the code has it: subject "ENDOSO A" with a policy document and
    no other evidence gives the primary type [endoso] with confidence 50
    and subtype "A"; the status is "Endoso incompleto", since "Endoso
    completo" requires a policy number and none was found. *)
Theorem C9_endoso_a_incomplete st id md :
  metadata_files st !! id = Some md ->
  md_subject md = JVal (py "ENDOSO A") ->
  only_policy_pdf (analyze_attachments (attachment_dirs st !! id)) ->
  silent_body (body_upper (extract_email_content st id)) ->
  exists r,
    classify_email st id = Ret (Classified r)
    /\ pc_type (primary_classification r) = endoso
    /\ pc_confidence (primary_classification r) = 50
    /\ endoso_type (cl_endoso r) = "A"%string
    /\ pc_status (primary_classification r) = "Endoso incompleto"%string.
Proof.
  intros Hmd Hs Hai Hbody.
  destruct (endoso_a_evaluators md _ _ Hs Hai Hbody)
    as (cot & ren & en & H1 & H2 & H3 & C1 & C2 & C3 & T & S).
  destruct (classify_email_ret st id md cot ren en Hmd H1 H2 H3)
    as (r & Hr & _ & _ & E3 & Ep).
  exists r. split; [exact Hr |].
  rewrite Ep, E3. cbn [pc_type pc_confidence pc_status].
  unfold best_of. rewrite C1, C2, C3. cbn. rewrite C3. cbn.
  repeat split; assumption.
Qed.

(** The Store of the endorsement scenario meets the conditions. *)
Lemma C9_endoso_a_incomplete_witness :
  exists r,
    classify_email st_endoso_a id1 = Ret (Classified r)
    /\ pc_type (primary_classification r) = endoso
    /\ pc_confidence (primary_classification r) = 50
    /\ endoso_type (cl_endoso r) = "A"%string
    /\ pc_status (primary_classification r) = "Endoso incompleto"%string.
Proof.
  apply (C9_endoso_a_incomplete st_endoso_a id1
           (meta_of id1 (JVal (py "ENDOSO A")))).
  - reflexivity.
  - reflexivity.
  - vm_compute. repeat split; reflexivity.
  - vm_compute. repeat split; reflexivity.
Defined.

(** C9 fails as stated: the message is an endorsement of subtype "A", but
    its status is not "Endoso completo". *)
Lemma C9_status_not_complete :
  exists r,
    classify_email st_endoso_a id1 = Ret (Classified r)
    /\ pc_type (primary_classification r) = endoso
    /\ endoso_type (cl_endoso r) = "A"%string
    /\ pc_status (primary_classification r) = "Endoso incompleto"%string
    /\ pc_status (primary_classification r) <> "Endoso completo"%string.
Proof.
  eexists. split; [vm_compute; reflexivity |].
  repeat split; try (vm_compute; reflexivity).
  vm_compute. discriminate.
Qed.

(** *** The policy document as a contra-indicator of a quote *)

Lemma nonempty_snoc {A} (l : list A) (x : A) : nonempty (l ++ [x]) = true.
Proof. destruct l; reflexivity. Qed.

(** A policy document changes nothing the Quote evaluator reads except
    the policy list, which it makes non-empty. *)
Lemma policy_pdf_step p info :
  is_policy_pdf p ->
  quote_view (analyze_entry info p) = quote_view info
  /\ nonempty (pdf_poliza (analyze_entry info p)) = true.
Proof.
  unfold is_policy_pdf, quote_view, analyze_entry. cbv zeta.
  destruct (de_is_file p); [| discriminate].
  split_ifs; cbn; intros H; try discriminate H.
  split; [reflexivity | apply nonempty_snoc].
Qed.

Lemma quote_view_step i1 i2 e :
  quote_view i1 = quote_view i2 ->
  quote_view (analyze_entry i1 e) = quote_view (analyze_entry i2 e).
Proof.
  unfold quote_view. intros [= H1 H2 H3].
  unfold analyze_entry. cbv zeta.
  split_ifs; cbn; rewrite ?nonempty_snoc, ?H1, ?H2, ?H3; reflexivity.
Qed.

Lemma quote_view_fold l : forall i1 i2,
  quote_view i1 = quote_view i2 ->
  quote_view (List.fold_left analyze_entry l i1)
  = quote_view (List.fold_left analyze_entry l i2).
Proof.
  induction l as [| e l IH]; intros i1 i2 H; cbn [List.fold_left].
  - exact H.
  - apply IH, quote_view_step, H.
Qed.

Lemma policy_list_step info e :
  nonempty (pdf_poliza info) = true ->
  nonempty (pdf_poliza (analyze_entry info e)) = true.
Proof.
  intros H. unfold analyze_entry. cbv zeta.
  split_ifs; cbn; rewrite ?nonempty_snoc; auto.
Qed.

Lemma policy_list_fold l : forall info,
  nonempty (pdf_poliza info) = true ->
  nonempty (pdf_poliza (List.fold_left analyze_entry l info)) = true.
Proof.
  induction l as [| e l IH]; intros info H; cbn [List.fold_left].
  - exact H.
  - apply IH, policy_list_step, H.
Qed.

(** Inserting a policy document into a listing. *)
Lemma analyze_with_policy_pdf l1 l2 p :
  is_policy_pdf p ->
  quote_view (analyze_attachments (Some (l1 ++ p :: l2)))
  = quote_view (analyze_attachments (Some (l1 ++ l2)))
  /\ nonempty (pdf_poliza (analyze_attachments (Some (l1 ++ p :: l2)))) = true.
Proof.
  intros Hp. unfold analyze_attachments.
  rewrite !List.fold_left_app. cbn [List.fold_left].
  destruct (policy_pdf_step p (List.fold_left analyze_entry l1 empty_info) Hp)
    as [Hv Hn].
  split.
  - apply quote_view_fold, Hv.
  - apply policy_list_fold, Hn.
Qed.

Lemma quote_score_penalty asunto cuerpo a1 a2 :
  quote_view a1 = quote_view a2 ->
  nonempty (pdf_poliza a1) = true ->
  pdf_poliza a2 = [] ->
  cotizacion_score asunto cuerpo a1 = cotizacion_score asunto cuerpo a2 - 15.
Proof.
  unfold quote_view. intros [= H1 H2 H3] P1 P2.
  unfold cotizacion_score. cbv zeta.
  rewrite H1, H2, H3, P1, P2. cbn [nonempty].
  split_ifs; lia.
Qed.

(** With the keyword in the subject and no policy document, a raw score
    of 115 or more means that every criterion fired. *)
Lemma quote_score_top asunto cuerpo ai :
  any_match cotizacion_asunto_patterns asunto = true ->
  pdf_poliza ai = [] ->
  30 <= cotizacion_score asunto cuerpo ai
  /\ (115 <= cotizacion_score asunto cuerpo ai ->
      cotizacion_score asunto cuerpo ai = 125).
Proof.
  intros K P. unfold cotizacion_score. cbv zeta.
  rewrite K, P. cbn [nonempty].
  split_ifs; lia.
Qed.

(** C7, as the code has it: of two messages with a quote keyword in the
    subject that differ only by a policy document, the one with the
    document never scores higher on Quote, and scores strictly lower
    exactly when its own confidence is below the cap 100; the two are
    equal, both 100, only when every Quote criterion fired (raw score
    125, penalised to 110). *)
Theorem C7_policy_pdf_penalty md ec l1 l2 p asunto :
  subject_upper md = Ret asunto ->
  any_match cotizacion_asunto_patterns asunto = true ->
  is_policy_pdf p ->
  pdf_poliza (analyze_attachments (Some (l1 ++ l2))) = [] ->
  exists c_with c_without,
    classify_cotizacion md (analyze_attachments (Some (l1 ++ p :: l2))) ec
    = Ret c_with
    /\ classify_cotizacion md (analyze_attachments (Some (l1 ++ l2))) ec
       = Ret c_without
    /\ confidence c_with <= confidence c_without
    /\ (confidence c_with < confidence c_without <-> confidence c_with < 100)
    /\ (confidence c_with = confidence c_without ->
        confidence c_without = 100
        /\ cotizacion_score asunto (body_upper ec)
             (analyze_attachments (Some (l1 ++ l2))) = 125).
Proof.
  intros Hs Hk Hp Hnone.
  destruct (classify_cotizacion_ret md
              (analyze_attachments (Some (l1 ++ p :: l2))) ec asunto Hs)
    as (cw & Ew & Cw & _).
  destruct (classify_cotizacion_ret md
              (analyze_attachments (Some (l1 ++ l2))) ec asunto Hs)
    as (co & Eo & Co & _).
  exists cw, co. split; [exact Ew |]. split; [exact Eo |].
  destruct (analyze_with_policy_pdf l1 l2 p Hp) as [Hv Hn].
  pose proof (quote_score_penalty asunto (body_upper ec) _ _ Hv Hn Hnone)
    as Hpen.
  destruct (quote_score_top asunto (body_upper ec) _ Hk Hnone) as [_ Htop].
  rewrite Cw, Co, Hpen. lia.
Qed.

(** A quote keyword and a policy document only: 15 against 30. *)
Lemma C7_policy_pdf_penalty_witness :
  exists c_with c_without,
    classify_cotizacion (meta_of id1 (JVal (py "COTIZACION")))
      (analyze_attachments (Some ([] ++ file "poliza.pdf" :: [])))
      empty_content = Ret c_with
    /\ classify_cotizacion (meta_of id1 (JVal (py "COTIZACION")))
         (analyze_attachments (Some ([] ++ []))) empty_content
       = Ret c_without
    /\ confidence c_with = 15 /\ confidence c_without = 30.
Proof.
  destruct (C7_policy_pdf_penalty (meta_of id1 (JVal (py "COTIZACION")))
              empty_content [] [] (file "poliza.pdf") (py "COTIZACION"))
    as (cw & co & Ew & Eo & _).
  - vm_compute. reflexivity.
  - vm_compute. reflexivity.
  - vm_compute. reflexivity.
  - vm_compute. reflexivity.
  - exists cw, co. split; [exact Ew |]. split; [exact Eo |].
    revert Ew Eo. vm_compute. intros [= <-] [= <-]. split; reflexivity.
Defined.

(** C7 fails as stated: when every Quote criterion fires, the message
    with the policy document and the one without both get 100. *)
Lemma C7_equal_at_the_cap :
  exists c_with c_without,
    is_policy_pdf (file "poliza.pdf")
    /\ classify_cotizacion md_full_quote
         (analyze_attachments (Some (atts_full_quote ++ [file "poliza.pdf"])))
         body_full_quote = Ret c_with
    /\ classify_cotizacion md_full_quote
         (analyze_attachments (Some atts_full_quote)) body_full_quote
       = Ret c_without
    /\ confidence c_with = 100
    /\ confidence c_without = 100
    /\ ~ (confidence c_with < confidence c_without).
Proof.
  do 2 eexists. split; [vm_compute; reflexivity |].
  split; [vm_compute; reflexivity |].
  split; [vm_compute; reflexivity |].
  split; [reflexivity |]. split; [reflexivity |].
  cbn. lia.
Qed.

(** *** The aggregator *)

Lemma classify_email_missing st id :
  metadata_files st !! id = None ->
  classify_email st id
  = Ret (ErrorResult ("Metadatos no encontrados para " ++ id)%string).
Proof. intros H. unfold classify_email. rewrite H. reflexivity. Qed.

Lemma classify_loop_skip st id before : forall after r0,
  metadata_files st !! id = None ->
  classify_loop st (before ++ id :: after) r0
  = classify_loop st (before ++ after) r0.
Proof.
  induction before as [| x before IH]; intros after r0 H.
  - cbn [app classify_loop].
    rewrite (classify_email_missing st id H). unfold bind.
    destruct (String.eqb id "progress"); reflexivity.
  - cbn [app classify_loop].
    destruct (String.eqb x "progress"); [apply IH, H |].
    destruct (classify_email st x) as [[msg | c] | e]; unfold bind.
    + apply IH, H.
    + apply IH, H.
    + reflexivity.
Qed.

(** The loop reads the Store through [classify_email] only, which does
    not look at the listing. *)
Lemma classify_loop_glob st listing stems : forall r0,
  classify_loop (with_glob st listing) stems r0 = classify_loop st stems r0.
Proof.
  induction stems as [| x stems IH]; intros r0; cbn [classify_loop].
  - reflexivity.
  - destruct (String.eqb x "progress"); [apply IH |].
    change (classify_email (with_glob st listing) x)
      with (classify_email st x).
    destruct (classify_email st x) as [[msg | c] | e]; unfold bind;
      [apply IH | apply IH | reflexivity].
Qed.

Lemma record_result_consistent c r :
  counts_consistent r -> counts_consistent (record_result c r).
Proof.
  unfold counts_consistent, record_result, bump. intros [H1 H2].
  cbn [total_emails emails n_cotizacion n_renovacion n_endoso
       n_sin_clasificar].
  rewrite List.length_app. cbn [length].
  destruct (pc_type (primary_classification c)); lia.
Qed.

Lemma classify_loop_consistent st stems : forall r r',
  counts_consistent r ->
  classify_loop st stems r = Ret r' ->
  counts_consistent r'.
Proof.
  induction stems as [| x stems IH]; intros r r' Hr; cbn [classify_loop].
  - intros [= <-]. exact Hr.
  - destruct (String.eqb x "progress"); [apply IH, Hr |].
    destruct (classify_email st x) as [[msg | c] | e]; unfold bind.
    + apply IH, Hr.
    + apply IH, record_result_consistent, Hr.
    + discriminate.
Qed.

(** C10: in every result set the aggregator produces, [total_emails] is
    the length of [emails] and the sum of the four category counts. *)
Theorem C10_counts_add_up st r :
  classify_all_emails st = Ret (BatchResults r) ->
  total_emails r = Z.of_nat (length (emails r))
  /\ total_emails r
     = n_cotizacion r + n_renovacion r + n_endoso r + n_sin_clasificar r.
Proof.
  unfold classify_all_emails.
  destruct (metadata_glob st) as [stems |]; [| discriminate].
  destruct (classify_loop st stems empty_results) as [r0 | e] eqn:E;
    unfold bind; [| discriminate].
  intros [= <-].
  apply (classify_loop_consistent st stems empty_results r0); [| exact E].
  split; reflexivity.
Qed.

(** Two of the three listed messages are classified and counted. *)
Lemma C10_counts_add_up_witness :
  exists r,
    classify_all_emails (st_gap [id1; id2; id3]) = Ret (BatchResults r)
    /\ total_emails r = 2
    /\ total_emails r = Z.of_nat (length (emails r))
    /\ total_emails r
       = n_cotizacion r + n_renovacion r + n_endoso r + n_sin_clasificar r.
Proof.
  eexists. split; [vm_compute; reflexivity |].
  split; [reflexivity |].
  apply (C10_counts_add_up (st_gap [id1; id2; id3])).
  vm_compute. reflexivity.
Defined.

(** *** The scenarios of the specification *)

(** "RE: Favor cotizar" matches no quote pattern at all: COTIZAR is not
    one of the keywords. *)
Lemma favor_cotizar_scores_zero :
  quote_subject_hits (upper (py "RE: Favor cotizar")) = 0%nat
  /\ summary (classify_email st_favor_cotizar id1)
     = Some (sin_clasificar, 0, ""%string).
Proof. vm_compute. split; reflexivity. Qed.

Lemma quote_with_filled_slip :
  summary (classify_email st_quote_slip id1)
  = Some (cotizacion, 90, "Cotización con información completa"%string).
Proof. vm_compute. reflexivity. Qed.

Lemma renewal_with_document :
  summary (classify_email st_renewal id1)
  = Some (renovacion, 80, "Renovación con información completa"%string).
Proof. vm_compute. reflexivity. Qed.

(** A null subject, which the extractor writes for a message without
    one, makes [classify_email] raise and ends the batch. *)
Lemma null_subject_raises :
  let st := {| metadata_glob := Some [id1];
               metadata_files := {[ id1 := meta_of id1 JNull ]};
               eml_files := ∅; attachment_dirs := ∅ |} in
  classify_email st id1 = Raise AttributeError
  /\ classify_all_emails st = Raise AttributeError.
Proof. vm_compute. split; reflexivity. Qed.

End ClassifierFacts.

(* ===================================================================== *)
(** ** Properties of the extraction pipeline *)
(* ===================================================================== *)

Module ExtractorFacts.
Import PyStr Py Meta Extractor ExtractorProps.

(** *** Attachments under one file name *)

Lemma extract_one_ok id a i acc d :
  extractable a = true ->
  extract_one id a i acc d
  = (acc ++ [{| ae_filename := choose_filename a i;
               ae_size := att_size a;
               ae_path := (id, choose_filename a i) |}],
     write_attachment id (choose_filename a i) (att_data a) d, None).
Proof.
  unfold extractable, extract_one, att_size, att_data.
  destruct (att_get_size a); [| discriminate].
  destruct (att_read_buffer a); [| discriminate].
  destruct (att_write a); [| discriminate].
  reflexivity.
Qed.

Lemma attachments_loop_ok id atts : forall i acc d,
  forallb extractable atts = true ->
  attachments_loop id (length atts) i
    (List.map (fun a => Ret (Some a)) atts) acc d
  = (acc ++ entries_from id i atts, write_all id (named_from i atts) d, None).
Proof.
  induction atts as [| a atts IH]; intros i acc d H.
  - cbn. rewrite List.app_nil_r. reflexivity.
  - cbn [forallb] in H. apply andb_prop in H as [Ha Hrest].
    cbn [length List.map attachments_loop].
    rewrite (extract_one_ok id a i acc d Ha).
    rewrite (IH (S i) _ _ Hrest).
    cbn [entries_from named_from]. unfold write_all.
    cbn [List.fold_left fst snd].
    rewrite <- List.app_assoc. reflexivity.
Qed.

Lemma lookup_write_all id f named : forall d,
  attachments_dir (write_all id named d) !! (id, f)
  = match last_written f named with
    | Some data => Some data
    | None => attachments_dir d !! (id, f)
    end.
Proof.
  induction named as [| [n data] named IH]; intros d.
  - reflexivity.
  - unfold write_all in *. cbn [List.fold_left fst snd last_written].
    rewrite IH.
    destruct (last_written f named); [reflexivity |].
    unfold write_attachment. cbn [attachments_dir].
    destruct (decide (n = f)) as [-> | Hne].
    + apply lookup_insert_eq.
    + apply lookup_insert_ne. congruence.
Qed.

Lemma entries_from_names id atts : forall i,
  List.map ae_filename (entries_from id i atts)
  = List.map fst (named_from i atts)
  /\ length (entries_from id i atts) = length atts
  /\ Forall (fun e => ae_path e = (id, ae_filename e)) (entries_from id i atts).
Proof.
  induction atts as [| a atts IH]; intros i; cbn.
  - repeat split; constructor.
  - destruct (IH (S i)) as (H1 & H2 & H3).
    rewrite H1, H2. repeat split. constructor; [reflexivity | exact H3].
Qed.

(** C5, as the code has it: when the attachments of a message have plain
    file names and can all be read and written, each is written under
    the per-message directory and the returned list has one entry per
    attachment, in read order and without deduplication; the file of a
    name holds the data of the last attachment read under that name, so
    of several attachments with one file name only the last one's data
    stays on disk. *)
Theorem C5_listed_in_order_last_write_wins m id d atts :
  msg_attachments m = List.map (fun a => Ret (Some a)) atts ->
  probe_count (msg_get_number_of_attachments m) (msg_number_of_attachments m)
  = Ret (length atts) ->
  plain_names m = true ->
  forallb extractable atts = true ->
  exists entries d',
    extract_attachments m id d = (Ret entries, d')
    /\ List.map ae_filename entries = List.map fst (named_from 0 atts)
    /\ length entries = length atts
    /\ Forall (fun e => ae_path e = (id, ae_filename e)) entries
    /\ forall f,
         attachments_dir d' !! (id, f)
         = match last_written f (named_from 0 atts) with
           | Some data => Some data
           | None => attachments_dir d !! (id, f)
           end.
Proof.
  intros Hatts Hcount _ Hok.
  unfold extract_attachments. rewrite Hcount, Hatts.
  rewrite (attachments_loop_ok id atts 0 [] d Hok). cbn [app].
  destruct (entries_from_names id atts 0) as (H1 & H2 & H3).
  do 2 eexists. split; [reflexivity |].
  repeat split; try assumption.
  intros f. apply lookup_write_all.
Qed.

(** Two attachments named a.pdf: both are listed, the file holds the
    second one's data. *)
Lemma C5_listed_in_order_last_write_wins_witness :
  exists entries d',
    extract_attachments msg_twins id1 empty_fs = (Ret entries, d')
    /\ List.map ae_filename entries = [py "a.pdf"; py "a.pdf"]
    /\ attachments_dir d' !! (id1, py "a.pdf") = Some data2.
Proof.
  destruct (C5_listed_in_order_last_write_wins msg_twins id1 empty_fs twins)
    as (entries & d' & E & Hn & _ & _ & Hf).
  - reflexivity.
  - reflexivity.
  - reflexivity.
  - reflexivity.
  - exists entries, d'. split; [exact E |]. split.
    + rewrite Hn. reflexivity.
    + rewrite Hf. reflexivity.
Defined.

(** C5 fails as stated: of the two attachments named a.pdf the data of
    the first is in no file after the extraction. *)
Lemma C5_first_twin_overwritten :
  exists entries d',
    extract_attachments msg_twins id1 empty_fs = (Ret entries, d')
    /\ length entries = 2%nat
    /\ att_data (att "a.pdf" data1 (Ret data1) (Ret tt)) = data1
    /\ attachments_dir d' = {[ (id1, py "a.pdf") := data2 ]}
    /\ forall path, attachments_dir d' !! path <> Some data1.
Proof.
  do 2 eexists. split; [vm_compute; reflexivity |].
  split; [reflexivity |]. split; [reflexivity |].
  assert (E : attachments_dir
                (write_all id1 (named_from 0 twins) empty_fs)
              = {[ (id1, py "a.pdf") := data2 ]}).
  { apply map_eq. intros [i f].
    destruct (decide ((i, f) = (id1, py "a.pdf"))) as [[= -> ->] | Hne].
    - rewrite lookup_singleton_eq. reflexivity.
    - assert (Hne' : (id1, py "a.pdf") <> (i, f))
        by (intros E; apply Hne; symmetry; exact E).
      rewrite (lookup_singleton_ne _ _ _ Hne').
      unfold write_all, twins, named_from. cbn [List.fold_left fst snd].
      unfold write_attachment. cbn [attachments_dir].
      rewrite !lookup_insert_ne by exact Hne'.
      apply lookup_empty. }
  split; [exact E |].
  intros path. change (attachments_dir _) with
    (attachments_dir (write_all id1 (named_from 0 twins) empty_fs)).
  rewrite E. intros H.
  apply lookup_singleton_Some in H as [_ H]. discriminate H.
Qed.

(** *** What an id in the progress list implies *)

Lemma all_written_write id f data entries d :
  all_written entries d ->
  all_written entries (write_attachment id f data d).
Proof.
  intros H a Ha. unfold write_attachment. cbn [attachments_dir].
  destruct (decide ((id, f) = ae_path a)) as [<- | Hne].
  - rewrite lookup_insert_eq. eauto.
  - rewrite lookup_insert_ne by exact Hne. apply H, Ha.
Qed.

Lemma extract_one_written id a i acc d acc' d' stop :
  all_written acc d ->
  extract_one id a i acc d = (acc', d', stop) ->
  all_written acc' d'.
Proof.
  intros H. unfold extract_one.
  destruct (att_get_size a); [| intros [= <- <- _]; exact H].
  destruct (att_read_buffer a); [| intros [= <- <- _]; exact H].
  destruct (att_write a); [| intros [= <- <- _]; exact H].
  intros [= <- <- _]. intros e He.
  apply List.in_app_or in He as [He | [<- | []]].
  - exact (all_written_write _ _ _ _ _ H e He).
  - unfold write_attachment. cbn [attachments_dir ae_path].
    rewrite lookup_insert_eq. eauto.
Qed.

Lemma attachments_loop_written id n : forall i slots acc d acc' d' stop,
  all_written acc d ->
  attachments_loop id n i slots acc d = (acc', d', stop) ->
  all_written acc' d'.
Proof.
  induction n as [| n IH]; intros i slots acc d acc' d' stop H;
    cbn [attachments_loop].
  - intros [= <- <- _]. exact H.
  - destruct slots as [| [[a |] | e] rest].
    + intros [= <- <- _]. exact H.
    + destruct (extract_one id a i acc d) as [[acc1 d1] [e1 |]] eqn:E1.
      * intros [= <- <- _]. eapply extract_one_written; eauto.
      * apply IH. eapply extract_one_written; eauto.
    + apply IH, H.
    + intros [= <- <- _]. exact H.
Qed.

(** The list [extract_attachments] returns names files that exist. *)
Lemma extract_attachments_written m id d entries d' :
  extract_attachments m id d = (Ret entries, d') ->
  all_written entries d'.
Proof.
  unfold extract_attachments.
  destruct (probe_count _ _) as [n | e].
  - destruct (attachments_loop id n 0 (msg_attachments m) [] d)
      as [[acc d1] [e |]] eqn:E.
    + destruct (is_Exception e); [| discriminate].
      intros [= <- <-]. eapply attachments_loop_written; [| exact E].
      intros a [].
    + intros [= <- <-]. eapply attachments_loop_written; [| exact E].
      intros a [].
  - destruct (is_Exception e); [| discriminate].
    intros [= <- <-]. intros a [].
Qed.

Lemma create_eml_file_result m id plain html d eml_file d' :
  create_eml_file m id plain html d = (Ret eml_file, d') ->
  attachments_dir d' = attachments_dir d
  /\ (eml_file = None \/ is_Some (emails_dir d' !! id)).
Proof.
  unfold create_eml_file.
  destruct (msg_eml_write m) as [u | e].
  - intros [= <- <-]. cbn [attachments_dir emails_dir].
    split; [reflexivity |]. right. rewrite lookup_insert_eq. eauto.
  - destruct (is_Exception e); [| discriminate].
    intros [= <- <-]. auto.
Qed.

Lemma save_progress_keeps x :
  processed_emails (progress_data (save_progress x))
  = processed_emails (progress_data x)
  /\ emails_dir (disk (save_progress x)) = emails_dir (disk x)
  /\ attachments_dir (disk (save_progress x)) = attachments_dir (disk x)
  /\ metadata_dir (disk (save_progress x)) = metadata_dir (disk x).
Proof. repeat split; reflexivity. Qed.

(** The body either leaves the progress list as it was or appends [id]
    after the writes. *)
Lemma process_body_progress m folder_name id x r x' :
  process_body m folder_name id x = (r, x') ->
  processed_emails (progress_data x') = processed_emails (progress_data x)
  \/ (processed_emails (progress_data x')
      = processed_emails (progress_data x) ++ [id]
      /\ msg_metadata_write m = Ret tt
      /\ persisted id (disk x')).
Proof.
  unfold process_body.
  destruct (extract_email_content m) as [plain html].
  destruct (extract_attachments m id (disk x)) as [[entries | e] d1] eqn:E1;
    [| intros [= _ <-]; left; reflexivity].
  destruct (create_eml_file m id plain html d1) as [[eml_file | e] d2] eqn:E2;
    [| intros [= _ <-]; left; reflexivity].
  destruct (msg_metadata_write m) as [[] | e];
    [| intros [= _ <-]; left; reflexivity].
  pose proof (extract_attachments_written _ _ _ _ _ E1) as Hw.
  destruct (create_eml_file_result _ _ _ _ _ _ _ E2) as [Ha He].
  intros Hres. right.
  assert (Hp : persisted id (write_metadata id
                 (build_metadata m id folder_name (clock x) eml_file entries
                    plain html) d2)).
  { eexists. split; [apply lookup_insert_eq |].
    cbn [md_attachments md_eml_file build_metadata write_metadata
         attachments_dir emails_dir].
    split; [| exact He].
    intros a Hin. rewrite Ha. apply Hw, Hin. }
  revert Hres. cbn [processed_count set_progress set_disk].
  destruct (_ =? 0); intros [= _ <-]; (split; [reflexivity |]);
    (split; [reflexivity |]); exact Hp.
Qed.

(** C3, as the code has it: whenever [process_message] adds an id to the
    progress list, the metadata record of that id has already been
    written, every attachment the record lists has its file, and the .eml
    is there unless the record says [eml_file] null; a message whose
    metadata write fails never gets its id in.  (A failed .eml write or a
    failed attachment does not keep the id out.) *)
Theorem C3_progress_implies_metadata m folder_name x r x' id :
  process_message m folder_name x = (r, x') ->
  In id (processed_emails (progress_data x')) ->
  ~ In id (processed_emails (progress_data x)) ->
  id = format_id (processed_count x + 1)
  /\ msg_metadata_write m = Ret tt
  /\ persisted id (disk x').
Proof.
  unfold process_message. cbn [processed_count progress_data].
  set (x1 := {| processed_count := processed_count x + 1;
                progress_data := progress_data x;
                disk := disk x; clock := clock x |}).
  set (email_id := format_id (processed_count x + 1)).
  destruct (mem email_id (processed_emails (progress_data x))).
  - intros [= _ <-] Hin Hout. contradiction.
  - destruct (process_body m folder_name email_id x1) as [r1 x2] eqn:E.
    destruct (process_body_progress _ _ _ _ _ _ E) as [Hsame | (Happ & Hw & Hp)].
    + intros Hres Hin Hout. exfalso. apply Hout.
      assert (x' = x2) as -> by (destruct r1 as [| e];
        [| destruct (is_Exception e)]; congruence).
      rewrite Hsame in Hin. exact Hin.
    + intros Hres Hin Hout.
      assert (x' = x2) as -> by (destruct r1 as [| e];
        [| destruct (is_Exception e)]; congruence).
      rewrite Happ in Hin. apply List.in_app_or in Hin as [Hin | [<- | []]].
      * contradiction.
      * auto.
Qed.

(** The first message of a fresh run, fully written. *)
Lemma C3_progress_implies_metadata_witness :
  msg_metadata_write msg_twins = Ret tt
  /\ persisted id1
       (disk (snd (process_message msg_twins (py "Root") (init empty_fs 0%N)))).
Proof.
  destruct (C3_progress_implies_metadata msg_twins (py "Root")
              (init empty_fs 0%N) _ _ id1 eq_refl) as (_ & Hw & Hp).
  - vm_compute. left. reflexivity.
  - vm_compute. intros [].
  - split; [exact Hw | exact Hp].
Defined.

(** C3 fails as stated: the .eml of this message cannot be written and
    its attachment cannot be read, yet its id enters the progress list
    with no .eml and no attachment file on disk. *)
Lemma C3_id_added_without_eml :
  let x' := snd (process_message msg_partial (py "Root") (init empty_fs 0%N)) in
  msg_eml_write msg_partial = Raise OtherException
  /\ length (msg_attachments msg_partial) = 1%nat
  /\ processed_emails (progress_data x') = [id1]
  /\ emails_dir (disk x') !! id1 = None
  /\ attachments_dir (disk x') = ∅.
Proof. vm_compute. repeat split; reflexivity. Qed.

(** *** Checkpoints at the end of a run *)

(** A run that returns has written the progress file last. *)
Lemma extract_saves_on_return archive x x' :
  extract archive x = (Ret tt, x') ->
  progress_file (disk x') = Some (progress_data x').
Proof.
  unfold extract. destruct archive as [root_folder | e].
  - destruct (process_folder root_folder [] (set_start_time x))
      as [[[] | e] x1].
    + intros [= <-]. reflexivity.
    + destruct (is_Exception e); discriminate.
  - destruct (is_Exception e); discriminate.
Qed.

(** So has a run that ends with an [Exception]. *)
Lemma extract_saves_on_Exception archive x e x' :
  extract archive x = (Raise e, x') ->
  is_Exception e = true ->
  progress_file (disk x') = Some (progress_data x').
Proof.
  unfold extract. destruct archive as [root_folder | e0].
  - destruct (process_folder root_folder [] (set_start_time x))
      as [[[] | e1] x1].
    + discriminate.
    + destruct (is_Exception e1) eqn:K.
      * intros [= <- <-] _. reflexivity.
      * intros [= <- <-] K'. congruence.
  - destruct (is_Exception e0) eqn:K.
    + intros [= <- <-] _. reflexivity.
    + intros [= <- <-] K'. congruence.
Qed.

(** A [KeyboardInterrupt] passes every handler of [extract]: the state it
    leaves is the one the walk was in, with no write of the progress
    file. *)
Lemma extract_interrupted_unsaved archive x x' :
  extract archive x = (Raise KeyboardInterrupt, x') ->
  (archive = Raise KeyboardInterrupt /\ x' = x)
  \/ (exists root_folder,
        archive = Ret root_folder
        /\ process_folder root_folder [] (set_start_time x)
           = (Raise KeyboardInterrupt, x')).
Proof.
  unfold extract. destruct archive as [root_folder | e0].
  - destruct (process_folder root_folder [] (set_start_time x))
      as [[[] | e1] x1] eqn:E.
    + discriminate.
    + destruct e1; cbn [is_Exception]; intros [= <-]; try discriminate.
      right. eauto.
  - destruct e0; cbn [is_Exception]; intros [= <-]; try discriminate.
    left. auto.
Qed.

(** C4 at a failing run: the first message is extracted, the user
    interrupts during the second.  [main] announces that the progress has
    been saved in progress.json, but no progress file has been written,
    although the first message is on disk. *)
Theorem C4_interrupt_leaves_progress_unsaved :
  let run := main (Ret (root [msg_plain; msg_interrupt])) empty_fs 0%N in
  fst run = msg_interrupted
  /\ In "El progreso se ha guardado en progress.json"%string (fst run)
  /\ is_Some (metadata_dir (snd run) !! id1)
  /\ is_Some (emails_dir (snd run) !! id1)
  /\ progress_file (snd run) = None.
Proof.
  vm_compute. repeat split; eauto.
Qed.

(** The same run, left to finish, does write the progress file. *)
Lemma completed_run_saves_progress :
  let run := main (Ret (root [msg_plain; msg_plain])) empty_fs 0%N in
  fst run = msg_completed
  /\ option_map processed_emails (progress_file (snd run)) = Some [id1; id2].
Proof. vm_compute. split; reflexivity. Qed.

End ExtractorFacts.

(* ===================================================================== *)
(** ** Further properties of the extraction pipeline *)
(* ===================================================================== *)

Module ExtractorMore.
Import PyStr Py Meta Extractor ExtractorProps ExtractorNotions.

(** *** Message ids *)

Lemma digit_value_char d :
  (d < 10)%N -> digit_value (pretty_N_char d) = d.
Proof.
  intros H.
  assert (d = 0 \/ d = 1 \/ d = 2 \/ d = 3 \/ d = 4 \/ d = 5 \/ d = 6
          \/ d = 7 \/ d = 8 \/ d = 9)%N as K by lia.
  destruct K as [-> | [-> | [-> | [-> | [-> | [-> | [-> | [-> | [-> | ->]]]]]]]]];
    reflexivity.
Qed.

(** The digits [pretty_N_go] puts in front of [s]: their number [k], and
    what they are worth. *)
Lemma pretty_N_go_digits x : forall s,
  exists k : nat,
    String.length (pretty_N_go x s) = (k + String.length s)%nat
    /\ (x < 10 ^ N.of_nat k)%N
    /\ (x = 0%N -> k = 0%nat)
    /\ ((0 < x)%N -> (10 ^ N.of_nat (k - 1) <= x)%N /\ (0 < k)%nat)
    /\ forall acc,
         value_acc acc (pretty_N_go x s)
         = value_acc (acc * 10 ^ N.of_nat k + x)%N s.
Proof.
  induction (N.lt_wf_0 x) as [x _ IH]; intros s.
  destruct (N.eq_dec x 0%N) as [-> | Hx].
  - exists 0%nat. rewrite pretty_N_go_0. repeat split; try lia.
    intros acc. f_equal. cbn. lia.
  - assert (0 < x)%N as Hpos by lia.
    rewrite pretty_N_go_step by exact Hpos.
    destruct (IH (x `div` 10)%N (N.div_lt x 10%N Hpos eq_refl)
                 (String (pretty_N_char (x `mod` 10)) s))
      as (k & Hlen & Hlt & Hz & Hge & Hval).
    exists (S k). cbn [String.length] in Hlen.
    pose proof (N.div_mod x 10%N ltac:(lia)) as Hdm.
    pose proof (N.mod_lt x 10%N ltac:(lia)) as Hm.
    assert (Hpow : (10 ^ N.of_nat (S k) = 10 * 10 ^ N.of_nat k)%N).
    { rewrite Nat2N.inj_succ, N.pow_succ_r'. reflexivity. }
    split; [lia |]. split; [rewrite Hpow; lia |].
    split; [lia |]. split.
    + intros _. split; [| lia].
      replace (S k - 1)%nat with k by lia.
      destruct (N.eq_dec (x `div` 10)%N 0%N) as [Hq | Hq].
      * rewrite (Hz Hq). cbn. lia.
      * destruct Hge as [Hg Hk]; [lia |].
        destruct k as [| k']; [lia |].
        replace (S k' - 1)%nat with k' in Hg by lia.
        rewrite Nat2N.inj_succ, N.pow_succ_r'.
        etransitivity; [apply N.mul_le_mono_l, Hg | apply N.Div0.mul_div_le].
    + intros acc. rewrite Hval. cbn [value_acc].
      rewrite digit_value_char by exact Hm. f_equal.
      rewrite Hpow. lia.
Qed.

Lemma value_acc_zeros n : forall s,
  value_acc 0 (String.concat "" (List.repeat "0"%string n) +:+ s)
  = value_acc 0 s.
Proof.
  induction n as [| n IH]; intros s.
  - reflexivity.
  - destruct n as [| n'].
    + reflexivity.
    + cbn [List.repeat String.concat] in *.
      change (value_acc 0 (("0" +:+ String.concat "" ("0"%string :: List.repeat "0"%string n')) +:+ s)
              = value_acc 0 s).
      cbn. apply IH.
Qed.

(** What [str(n)] gives for a counter. *)
Lemma pretty_value (n : N) : value_acc 0 (pretty n) = n.
Proof.
  unfold pretty, pretty_N. destruct (decide (n = 0%N)) as [-> | Hn].
  - reflexivity.
  - destruct (pretty_N_go_digits n "") as (k & _ & _ & _ & _ & Hval).
    rewrite Hval. cbn. lia.
Qed.

Lemma pretty_length (n : N) :
  (n < 1000000)%N -> (String.length (pretty n) <= 6)%nat.
Proof.
  intros Hn. unfold pretty, pretty_N.
  destruct (decide (n = 0%N)) as [-> | Hz]; [cbn; lia |].
  destruct (pretty_N_go_digits n "") as (k & Hlen & _ & _ & Hge & _).
  destruct Hge as [Hg Hk]; [lia |].
  rewrite Hlen. cbn [String.length].
  destruct (le_lt_dec k 6) as [| Hbig]; [lia |].
  exfalso.
  assert (10 ^ 6 <= 10 ^ N.of_nat (k - 1))%N
    by (apply N.pow_le_mono_r; lia).
  change (10 ^ 6)%N with 1000000%N in *. lia.
Qed.

Lemma append_length (s t : string) :
  String.length (s +:+ t) = (String.length s + String.length t)%nat.
Proof.
  induction s as [| c s IH]; [reflexivity |].
  change (String c s +:+ t) with (String c (s +:+ t)).
  cbn [String.length]. rewrite IH. reflexivity.
Qed.

Lemma zeros_length n :
  String.length (String.concat "" (List.repeat "0"%string n)) = n.
Proof.
  induction n as [| n IH]; [reflexivity |].
  destruct n as [| n']; [reflexivity |].
  change (String.length
            ("0" +:+ "" +:+ String.concat "" (List.repeat "0"%string (S n')))
          = S (S n')).
  rewrite !append_length, IH. reflexivity.
Qed.

(** Formatting a counter and reading the id back. *)
Lemma decode_format_id n : 0 <= n -> decode_id (format_id n) = n.
Proof.
  intros Hn. unfold decode_id, format_id, pad6.
  change (drop_chars 6 ("email_" +:+ ?s)) with s.
  rewrite value_acc_zeros, pretty_value. lia.
Qed.

Lemma format_id_inj a b :
  0 <= a -> 0 <= b -> format_id a = format_id b -> a = b.
Proof.
  intros Ha Hb H.
  rewrite <- (decode_format_id a Ha), <- (decode_format_id b Hb), H.
  reflexivity.
Qed.

(** X1.  The id of a counter is "email_" and the counter in decimal, padded
    with zeros to six digits: below one million all ids are twelve
    characters long, and the counter can always be read back from the id,
    so distinct counters never share an id. *)
Theorem X1_id_fixed_width_and_decodable n :
  0 <= n ->
  decode_id (format_id n) = n
  /\ (n < 1000000 -> String.length (format_id n) = 12%nat).
Proof.
  intros Hn. split; [apply decode_format_id, Hn |].
  intros Hlt. unfold format_id, pad6.
  assert (String.length (pretty (Z.to_N n)) <= 6)%nat as Hlen
    by (apply pretty_length; lia).
  rewrite !append_length, zeros_length. cbn [String.length]. lia.
Qed.

(** The counter 42 gives "email_000042". *)
Lemma X1_id_fixed_width_and_decodable_witness :
  format_id 42 = "email_000042"%string
  /\ decode_id (format_id 42) = 42
  /\ String.length (format_id 42) = 12%nat.
Proof.
  split; [reflexivity |].
  destruct (X1_id_fixed_width_and_decodable 42 ltac:(lia)) as [H1 H2].
  split; [exact H1 | apply H2; lia].
Defined.

(** *** What extracting the attachments does to the disk *)

Lemma extract_one_trace id a i acc d :
  extract_one id a i acc d
  = match att_failure a with
    | None =>
        (acc ++ [{| ae_filename := choose_filename a i;
                    ae_size := att_size a;
                    ae_path := (id, choose_filename a i) |}],
         write_attachment id (choose_filename a i) (att_data a) d, None)
    | Some e => (acc, d, if is_Exception e then None else Some e)
    end.
Proof.
  unfold extract_one, att_failure, att_size, att_data.
  destruct (att_get_size a); [| reflexivity].
  destruct (att_read_buffer a); [| reflexivity].
  destruct (att_write a); reflexivity.
Qed.

Lemma attachments_loop_trace id n : forall i slots acc d,
  attachments_loop id n i slots acc d
  = let '(entries, writes, stop) := attachments_trace id n i slots in
    (acc ++ entries, write_all id writes d, stop).
Proof.
  induction n as [| n IH]; intros i slots acc d;
    cbn [attachments_loop attachments_trace].
  - rewrite List.app_nil_r. reflexivity.
  - destruct slots as [| [[a |] | e] rest].
    + rewrite List.app_nil_r. reflexivity.
    + rewrite extract_one_trace.
      destruct (att_failure a) as [e |].
      * destruct (is_Exception e).
        -- apply IH.
        -- rewrite List.app_nil_r. reflexivity.
      * rewrite IH.
        destruct (attachments_trace id n (S i) rest) as [[entries writes] stop].
        rewrite <- List.app_assoc. reflexivity.
    + apply IH.
    + rewrite List.app_nil_r. reflexivity.
Qed.

Lemma extract_attachments_trace m id d :
  extract_attachments m id d
  = let '(entries, writes, stop) := extraction_trace m id in
    (match stop with
     | None => Ret entries
     | Some e => if is_Exception e then Ret entries else Raise e
     end,
     write_all id writes d).
Proof.
  unfold extract_attachments, extraction_trace.
  destruct (probe_count _ _) as [n | e].
  - rewrite attachments_loop_trace.
    destruct (attachments_trace id n 0 (msg_attachments m))
      as [[entries writes] [e |]]; cbn [app].
    + destruct (is_Exception e); reflexivity.
    + reflexivity.
  - destruct (is_Exception e); reflexivity.
Qed.

Lemma write_all_other_dirs id writes : forall d,
  emails_dir (write_all id writes d) = emails_dir d
  /\ metadata_dir (write_all id writes d) = metadata_dir d
  /\ progress_file (write_all id writes d) = progress_file d.
Proof.
  unfold write_all.
  induction writes as [| [f data] writes IH]; intros d; cbn [List.fold_left].
  - auto.
  - destruct (IH (write_attachment id f data d)) as (H1 & H2 & H3).
    cbn [fst snd]. rewrite H1, H2, H3. auto.
Qed.

Lemma write_all_other_id id writes id' f : forall d,
  id' <> id ->
  attachments_dir (write_all id writes d) !! (id', f)
  = attachments_dir d !! (id', f).
Proof.
  unfold write_all.
  induction writes as [| [n data] writes IH]; intros d Hne;
    cbn [List.fold_left fst snd].
  - reflexivity.
  - rewrite IH by exact Hne. unfold write_attachment. cbn [attachments_dir].
    apply lookup_insert_ne. congruence.
Qed.

(** *** One message *)

Lemma mem_In id l : mem id l = true <-> In id l.
Proof.
  unfold mem. rewrite List.existsb_exists. split.
  - intros (y & Hy & E). apply String.eqb_eq in E. subst. exact Hy.
  - intros H. exists id. split; [exact H | apply String.eqb_refl].
Qed.

(** Splits [process_body] along every outcome of the message. *)
Ltac body_cases m id :=
  unfold process_body;
  destruct (extract_email_content m) as [plain html];
  rewrite extract_attachments_trace;
  destruct (extraction_trace m id) as [[entries writes] [e1 |]];
  [destruct (is_Exception e1) |];
  unfold create_eml_file;
  try (destruct (msg_eml_write m) as [[] | e2];
       [| destruct (is_Exception e2)]);
  try (destruct (msg_metadata_write m) as [[] | e3]);
  cbn [fst snd processed_count progress_data disk clock
       set_disk set_progress save_progress append_processed
       processed_emails];
  try match goal with
      | |- context [if ?b then _ else _] => destruct b
      end;
  cbn [fst snd processed_count progress_data disk clock
       set_disk set_progress save_progress append_processed
       processed_emails emails_dir attachments_dir metadata_dir
       progress_file write_metadata start_time total_processed last_update].

Lemma process_body_count m folder_name id x :
  processed_count (snd (process_body m folder_name id x)) = processed_count x.
Proof. body_cases m id; reflexivity. Qed.

Lemma process_message_snd m folder_name x :
  snd (process_message m folder_name x)
  = if mem (next_id x) (processed_emails (progress_data x))
    then {| processed_count := processed_count x + 1;
            progress_data := progress_data x;
            disk := disk x; clock := clock x |}
    else snd (process_body m folder_name (next_id x)
                {| processed_count := processed_count x + 1;
                   progress_data := progress_data x;
                   disk := disk x; clock := clock x |}).
Proof.
  unfold process_message, next_id.
  cbn [processed_count progress_data].
  destruct (mem _ _); [reflexivity |].
  destruct (process_body _ _ _ _) as [[[] | e] x2]; cbn [snd];
    [reflexivity |].
  destruct (is_Exception e); reflexivity.
Qed.

(** X2.  The counter that numbers the messages goes up by exactly one at every
    call of [process_message], whether the message is skipped, extracted,
    abandoned after a failure or interrupted. *)
Theorem X2_counter_advances_once m folder_name x :
  processed_count (snd (process_message m folder_name x))
  = processed_count x + 1.
Proof.
  rewrite process_message_snd.
  destruct (mem _ _); [reflexivity |].
  rewrite process_body_count. reflexivity.
Qed.

(** X3.  A message whose id is already in the progress list is skipped: the
    call returns at once and changes nothing but the counter. *)
Theorem X3_processed_message_is_skipped m folder_name x :
  In (next_id x) (processed_emails (progress_data x)) ->
  process_message m folder_name x
  = (Ret tt, {| processed_count := processed_count x + 1;
                progress_data := progress_data x;
                disk := disk x; clock := clock x |}).
Proof.
  intros H. apply mem_In in H.
  unfold process_message, next_id in *.
  cbn [processed_count progress_data]. rewrite H. reflexivity.
Qed.

(** Even a message that would be interrupted is skipped when its id is
    recorded. *)
Lemma X3_processed_message_is_skipped_witness :
  fst (process_message msg_interrupt (py "Root") (init fs_resumed 0%N)) = Ret tt
  /\ disk (snd (process_message msg_interrupt (py "Root")
                  (init fs_resumed 0%N))) = fs_resumed.
Proof.
  rewrite (X3_processed_message_is_skipped msg_interrupt (py "Root")
             (init fs_resumed 0%N)).
  - split; reflexivity.
  - left. reflexivity.
Defined.

Ltac other_files :=
  unfold same_files_of, write_metadata;
  cbn [emails_dir attachments_dir metadata_dir];
  rewrite ?lookup_insert_ne by congruence;
  rewrite ?(proj1 (write_all_other_dirs _ _ _)),
          ?(proj1 (proj2 (write_all_other_dirs _ _ _)));
  repeat split; try reflexivity;
  intros; apply write_all_other_id; congruence.

Lemma process_body_other_ids m folder_name id x id' :
  id' <> id ->
  same_files_of id' (disk x) (disk (snd (process_body m folder_name id x))).
Proof. intros Hne. body_cases m id; other_files. Qed.

Lemma process_body_progress_cases m folder_name id x :
  let r := process_body m folder_name id x in
  (progress_data (snd r) = progress_data x
   /\ progress_file (disk (snd r)) = progress_file (disk x))
  \/ (fst r = Ret tt
      /\ processed_emails (progress_data (snd r))
         = processed_emails (progress_data x) ++ [id]
      /\ start_time (progress_data (snd r)) = start_time (progress_data x)
      /\ progress_file (disk (snd r))
         = if processed_count x mod 10 =? 0
           then Some (progress_data (snd r))
           else progress_file (disk x)).
Proof.
  cbv zeta. body_cases m id;
    rewrite ?(proj2 (proj2 (write_all_other_dirs _ _ _)));
    first [ left; split; reflexivity
          | right; repeat split; reflexivity ].
Qed.

(** X5.  For a message whose attachments have plain file names, a call
    of [process_message] either leaves the progress list and the
    progress file as they were, or returns normally having appended the
    id of the message; the progress file is rewritten in the second case
    only, and only when the counter has reached a multiple of ten. *)
Theorem X5_progress_and_checkpoint m folder_name x :
  plain_names m = true ->
  let r := process_message m folder_name x in
  (processed_emails (progress_data (snd r))
   = processed_emails (progress_data x)
   /\ progress_file (disk (snd r)) = progress_file (disk x))
  \/ (fst r = Ret tt
      /\ processed_emails (progress_data (snd r))
         = processed_emails (progress_data x) ++ [next_id x]
      /\ progress_file (disk (snd r))
         = if (processed_count x + 1) mod 10 =? 0
           then Some (progress_data (snd r))
           else progress_file (disk x)).
Proof.
  intros _. cbv zeta. unfold process_message, next_id.
  cbn [processed_count progress_data].
  destruct (mem _ _); [left; split; reflexivity |].
  set (x1 := {| processed_count := processed_count x + 1;
                progress_data := progress_data x;
                disk := disk x; clock := clock x |}).
  pose proof (process_body_progress_cases m folder_name
                (format_id (processed_count x + 1)) x1) as H.
  cbv zeta in H.
  destruct (process_body m folder_name _ x1) as [r x2].
  cbn [fst snd] in H.
  destruct H as [[H1 H2] | (H1 & H2 & H3 & H4)].
  - left. destruct r as [[] | e]; [| destruct (is_Exception e)];
      cbn [snd]; rewrite H1, H2; split; reflexivity.
  - right. subst r. cbn [fst snd]. repeat split; assumption.
Qed.

(** The tenth message of a run is extracted and the progress file then
    holds the ten ids; the file was absent before. *)
Lemma X5_progress_and_checkpoint_witness :
  let r := process_message msg_twins (py "Inbox") at_nine in
  fst r = Ret tt
  /\ processed_emails (progress_data (snd r))
     = processed_emails (progress_data at_nine) ++ [format_id 10]
  /\ progress_file (disk at_nine) = None
  /\ progress_file (disk (snd r)) = Some (progress_data (snd r)).
Proof.
  cbv zeta.
  destruct (X5_progress_and_checkpoint msg_twins (py "Inbox") at_nine
              eq_refl) as [[H _] | (H1 & H2 & H3)].
  - exfalso. vm_compute in H. discriminate H.
  - split; [exact H1 |]. split; [exact H2 |].
    split; [reflexivity |]. exact H3.
Defined.

Lemma process_message_count m folder_name x :
  processed_count (snd (process_message m folder_name x))
  = processed_count x + 1.
Proof.
  rewrite process_message_snd.
  destruct (mem _ _); [reflexivity |].
  rewrite process_body_count. reflexivity.
Qed.

Lemma process_message_raise m folder_name x e :
  fst (process_message m folder_name x) = Raise e -> e = KeyboardInterrupt.
Proof.
  unfold process_message.
  destruct (mem _ _); [discriminate |].
  destruct (process_body _ _ _ _) as [[[] | e'] x2]; [discriminate |].
  destruct e'; cbn [is_Exception fst]; intros [= <-]; reflexivity.
Qed.

Lemma process_message_extends m folder_name x :
  extends_progress x (snd (process_message m folder_name x)).
Proof.
  unfold process_message.
  cbn [processed_count progress_data].
  destruct (mem _ _) eqn:Hmem.
  { split; [exists []; rewrite List.app_nil_r; reflexivity | auto]. }
  set (x1 := {| processed_count := processed_count x + 1;
                progress_data := progress_data x;
                disk := disk x; clock := clock x |}).
  pose proof (process_body_progress_cases m folder_name
                (format_id (processed_count x + 1)) x1) as H.
  cbv zeta in H.
  destruct (process_body m folder_name _ x1) as [r x2].
  cbn [fst snd] in H.
  assert (Hnew : ~ In (format_id (processed_count x + 1))
                    (processed_emails (progress_data x))).
  { intros Hin. apply mem_In in Hin. congruence. }
  assert (Hx2 : extends_progress x x2).
  { destruct H as [[H1 _] | (_ & H2 & _)]; unfold extends_progress.
    - rewrite H1. cbn [progress_data x1].
      split; [exists []; rewrite List.app_nil_r; reflexivity | auto].
    - rewrite H2. cbn [progress_data x1].
      split; [eexists; reflexivity |].
      intros Hnd. apply NoDup_app. repeat split.
      + exact Hnd.
      + intros y Hy Hy'. apply list_elem_of_singleton in Hy'. subst y.
        apply Hnew, list_elem_of_In, Hy.
      + apply NoDup_singleton. }
  destruct r as [[] | e]; [| destruct (is_Exception e)]; exact Hx2.
Qed.

(** *** The walk over the folders *)

Lemma process_folder_eq name gm pm msgs gs ps subs folder_path x :
  process_folder (Folder name gm pm msgs gs ps subs) folder_path x
  = match process_messages gm pm msgs (join_path folder_path name) x with
    | (Raise e, x1) => (Raise e, x1)
    | (Ret _, x1) =>
        match probe_count gs ps with
        | Raise e => if is_Exception e then (Ret tt, x1) else (Raise e, x1)
        | Ret n =>
            subfolders_loop process_folder (join_path folder_path name)
              n subs x1
        end
    end.
Proof.
  cbn [process_folder].
  destruct (process_messages gm pm msgs (join_path folder_path name) x)
    as [[[] | e] x1]; [| reflexivity].
  destruct (probe_count gs ps) as [n | e]; [| reflexivity].
  revert n x1.
  induction subs as [| [sub |] subs IH]; intros n x1; destruct n as [| n];
    cbn [subfolders_loop]; try reflexivity.
  - destruct (process_folder sub (join_path folder_path name) x1)
      as [[[] | e] x2]; [apply IH | reflexivity].
  - apply IH.
Qed.

Lemma folder_induction (P : folder -> Prop) :
  (forall name gm pm msgs gs ps subs,
     (forall sub, In (Some sub) subs -> P sub) ->
     P (Folder name gm pm msgs gs ps subs)) ->
  forall f, P f.
Proof.
  intros H. fix IH 1. intros [name gm pm msgs gs ps subs]. apply H.
  induction subs as [| [s |] subs IHs]; intros sub Hin.
  - destruct Hin.
  - destruct Hin as [E | Hin].
    + injection E as <-. apply IH.
    + apply IHs, Hin.
  - destruct Hin as [E | Hin]; [discriminate E | apply IHs, Hin].
Qed.

(** A relation between the states before and after, which holds across
    every call of [process_message], holds across the whole walk. *)
Section Walk.
Variable R : extractor -> extractor -> Prop.
Hypothesis R_refl : forall x, R x x.
Hypothesis R_trans : forall x y z, R x y -> R y z -> R x z.
Hypothesis R_message :
  forall m folder_name x, R x (snd (process_message m folder_name x)).

Lemma messages_loop_R n : forall msgs folder_name x,
  R x (snd (messages_loop n msgs folder_name x)).
Proof.
  induction n as [| n IH]; intros msgs folder_name x;
    cbn [messages_loop]; [apply R_refl |].
  destruct msgs as [| [m |] rest]; [apply R_refl | | apply IH].
  pose proof (R_message m folder_name x) as Hm.
  destruct (process_message m folder_name x) as [[[] | e] x1];
    cbn [snd] in *; [| exact Hm].
  eapply R_trans; [exact Hm | apply IH].
Qed.

Lemma direct_iteration_R msgs : forall folder_name x,
  R x (direct_iteration msgs folder_name x).
Proof.
  induction msgs as [| [m |] rest IH]; intros folder_name x;
    cbn [direct_iteration]; try apply R_refl.
  pose proof (R_message m folder_name x) as Hm.
  destruct (process_message m folder_name x) as [[[] | e] x1];
    cbn [snd] in *; [| exact Hm].
  eapply R_trans; [exact Hm | apply IH].
Qed.

Lemma process_messages_R gm pm msgs folder_name x :
  R x (snd (process_messages gm pm msgs folder_name x)).
Proof.
  unfold process_messages.
  destruct (probe_count gm pm) as [n | e].
  - pose proof (messages_loop_R n msgs folder_name x) as Hl.
    destruct (messages_loop n msgs folder_name x) as [[[] | e] x1];
      cbn [snd] in *; [exact Hl |].
    destruct (is_Exception e); cbn [snd]; [| exact Hl].
    eapply R_trans; [exact Hl | apply direct_iteration_R].
  - destruct (is_Exception e); cbn [snd]; [| apply R_refl].
    apply direct_iteration_R.
Qed.

Lemma subfolders_loop_R folder_name subs :
  (forall sub, In (Some sub) subs ->
     forall folder_path x, R x (snd (process_folder sub folder_path x))) ->
  forall n x,
    R x (snd (subfolders_loop process_folder folder_name n subs x)).
Proof.
  induction subs as [| [sub |] rest IH]; intros Hsub n x;
    destruct n as [| n]; cbn [subfolders_loop snd]; try apply R_refl.
  - pose proof (Hsub sub (or_introl eq_refl) folder_name x) as Hs.
    destruct (process_folder sub folder_name x) as [[[] | e] x1];
      cbn [snd] in *.
    + eapply R_trans; [exact Hs |].
      apply IH. intros s Hin. apply Hsub. right. exact Hin.
    + destruct (is_Exception e); exact Hs.
  - apply IH. intros s Hin. apply Hsub. right. exact Hin.
Qed.

Lemma process_folder_R f : forall folder_path x,
  R x (snd (process_folder f folder_path x)).
Proof.
  induction f as [name gm pm msgs gs ps subs IH] using folder_induction.
  intros folder_path x. rewrite process_folder_eq.
  pose proof (process_messages_R gm pm msgs (join_path folder_path name) x)
    as Hm.
  destruct (process_messages gm pm msgs (join_path folder_path name) x)
    as [[[] | e] x1]; cbn [snd] in *; [| exact Hm].
  destruct (probe_count gs ps) as [n | e].
  - eapply R_trans; [exact Hm |]. apply subfolders_loop_R. exact IH.
  - destruct (is_Exception e); exact Hm.
Qed.

Hypothesis R_save : forall x, R x (save_progress x).
Hypothesis R_start : forall x, R x (set_start_time x).

Lemma extract_R archive x : R x (snd (extract archive x)).
Proof.
  unfold extract. destruct archive as [root_folder | e].
  - pose proof (process_folder_R root_folder [] (set_start_time x)) as Hf.
    assert (R x (snd (process_folder root_folder [] (set_start_time x))))
      as Hx by (eapply R_trans; [apply R_start | exact Hf]).
    destruct (process_folder root_folder [] (set_start_time x))
      as [[[] | e] x1]; cbn [snd] in *.
    + eapply R_trans; [exact Hx | apply R_save].
    + destruct (is_Exception e); cbn [snd]; [| exact Hx].
      eapply R_trans; [exact Hx | apply R_save].
  - destruct (is_Exception e); cbn [snd]; [apply R_save | apply R_refl].
Qed.
End Walk.

(** *** The run as a whole *)

Lemma extends_refl x : extends_progress x x.
Proof.
  split; [exists []; rewrite List.app_nil_r; reflexivity | auto].
Qed.

Lemma extends_trans x y z :
  extends_progress x y -> extends_progress y z -> extends_progress x z.
Proof.
  intros [[a Ha] Na] [[b Hb] Nb]. split; [| auto].
  exists (a ++ b). rewrite Hb, Ha, List.app_assoc. reflexivity.
Qed.

(** X6.  A run never removes or reorders what the progress list records, and
    never records an id twice: the list it ends with is the list it
    started from followed by the new ids, and a list without duplicates
    stays without duplicates. *)
Theorem X6_progress_list_only_grows archive x :
  extends_progress x (snd (extract archive x)).
Proof.
  apply extract_R.
  - apply extends_refl.
  - apply extends_trans.
  - apply process_message_extends.
  - intros y. split; [exists []; rewrite List.app_nil_r; reflexivity | auto].
  - intros y. unfold set_start_time.
    destruct (start_time (progress_data y));
      (split; [exists []; rewrite List.app_nil_r; reflexivity | auto]).
Qed.

Lemma process_messages_raise gm pm msgs folder_name x e :
  fst (process_messages gm pm msgs folder_name x) = Raise e ->
  e = KeyboardInterrupt.
Proof.
  unfold process_messages.
  destruct (probe_count gm pm) as [n | e0].
  - destruct (messages_loop n msgs folder_name x) as [[[] | e1] x1];
      [discriminate |].
    destruct e1; cbn [is_Exception fst]; intros [= <-]; reflexivity.
  - destruct e0; cbn [is_Exception fst]; intros [= <-]; reflexivity.
Qed.

Lemma subfolders_loop_raise walk folder_name subs : forall n x e,
  fst (subfolders_loop walk folder_name n subs x) = Raise e ->
  e = KeyboardInterrupt.
Proof.
  induction subs as [| [sub |] rest IH]; intros n x e;
    destruct n as [| n]; cbn [subfolders_loop fst]; try discriminate.
  - destruct (walk sub folder_name x) as [[[] | e1] x1]; [apply IH |].
    destruct e1; cbn [is_Exception fst]; intros [= <-]; reflexivity.
  - apply IH.
Qed.

Lemma process_folder_raise f folder_path x e :
  fst (process_folder f folder_path x) = Raise e -> e = KeyboardInterrupt.
Proof.
  destruct f as [name gm pm msgs gs ps subs]. rewrite process_folder_eq.
  pose proof (process_messages_raise gm pm msgs
                (join_path folder_path name) x) as Hm.
  destruct (process_messages gm pm msgs (join_path folder_path name) x)
    as [[[] | e1] x1]; cbn [fst] in *.
  - destruct (probe_count gs ps) as [n | e2].
    + apply subfolders_loop_raise.
    + destruct e2; cbn [is_Exception fst]; intros [= <-]; reflexivity.
  - intros [= <-]. apply Hm. reflexivity.
Qed.


(** X9.  A folder whose reader has neither the method nor the property that
    counts messages, and neither of those that count subfolders, is taken
    to be empty: none of its messages is extracted and none of its
    subfolders is visited. *)
Theorem X9_uncountable_folder_is_skipped name msgs subs folder_path x :
  process_folder (Folder name NoAttr NoAttr msgs NoAttr NoAttr subs)
    folder_path x
  = (Ret tt, x).
Proof.
  rewrite process_folder_eq. unfold process_messages.
  cbn [probe_count messages_loop].
  destruct subs as [| [sub |] rest]; reflexivity.
Qed.

(** X10.  After a run that was not interrupted, the progress file holds what
    the run had in memory, with [total_processed] equal to the number of
    messages met: a new extractor on that disk starts from exactly that
    progress. *)
Theorem X10_saved_progress_is_reloaded archive x now :
  fst (extract archive x) <> Raise KeyboardInterrupt ->
  let x' := snd (extract archive x) in
  progress_data (init (disk x') now) = progress_data x'
  /\ total_processed (progress_data x') = processed_count x'
  /\ last_update (progress_data x') = Some (clock x').
Proof.
  unfold extract. destruct archive as [root_folder | e].
  - pose proof (process_folder_raise root_folder [] (set_start_time x)) as Hf.
    destruct (process_folder root_folder [] (set_start_time x))
      as [[[] | e1] x1]; cbn [fst snd] in *.
    + intros _. repeat split; reflexivity.
    + rewrite (Hf e1 eq_refl). cbn [is_Exception fst]. congruence.
  - destruct e; cbn [is_Exception fst snd]; intros H;
      try congruence; repeat split; reflexivity.
Qed.

Lemma X10_saved_progress_is_reloaded_witness :
  let x' := snd (extract (Ret (root [msg_plain; msg_partial]))
                   (init empty_fs 3%N)) in
  processed_emails (progress_data (init (disk x') 9%N)) = [id1; id2]
  /\ total_processed (progress_data x') = 2.
Proof.
  destruct (X10_saved_progress_is_reloaded
              (Ret (root [msg_plain; msg_partial])) (init empty_fs 3%N) 9%N)
    as (H1 & H2 & _).
  - vm_compute. discriminate.
  - split; [rewrite H1 | rewrite H2]; vm_compute; reflexivity.
Defined.

(** *** Messages that are not interrupted, and the fallback *)

Lemma attachments_trace_quiet id n : forall i slots e,
  forallb slot_quiet slots = true ->
  snd (attachments_trace id n i slots) = Some e ->
  is_Exception e = true.
Proof.
  induction n as [| n IH]; intros i slots e Hq;
    cbn [attachments_trace snd]; [discriminate |].
  destruct slots as [| [[a |] | e0] rest]; cbn [forallb slot_quiet] in Hq.
  - intros [= <-]. reflexivity.
  - apply andb_prop in Hq as [Ha Hrest].
    unfold att_quiet, att_failure in *.
    destruct (att_get_size a) as [sz | e1].
    + destruct (att_read_buffer a) as [data | e2].
      * destruct (att_write a) as [u | e3].
        -- specialize (IH (S i) rest e Hrest).
           destruct (attachments_trace id n (S i) rest) as [[en wr] st].
           exact IH.
        -- destruct e3; try discriminate Ha; cbn [is_Exception];
             apply IH, Hrest.
      * destruct e2; try discriminate Ha; cbn [is_Exception];
          apply IH, Hrest.
    + destruct e1; try discriminate Ha; cbn [is_Exception];
        apply IH, Hrest.
  - apply andb_prop in Hq as [_ Hrest]. apply IH, Hrest.
  - apply andb_prop in Hq as [He _].
    intros [= <-]. destruct e0; try discriminate He; reflexivity.
Qed.

Lemma extraction_trace_quiet m id e :
  quiet m = true ->
  snd (extraction_trace m id) = Some e ->
  is_Exception e = true.
Proof.
  unfold quiet, extraction_trace, probe_count.
  intros Hq. repeat (apply andb_prop in Hq as [Hq ?]).
  destruct (msg_get_number_of_attachments m) as [| [n | e0]].
  - destruct (msg_number_of_attachments m) as [| [n | e0]].
    + apply attachments_trace_quiet. assumption.
    + apply attachments_trace_quiet. assumption.
    + cbn in *. intros [= <-]. destruct e0; try discriminate; reflexivity.
  - apply attachments_trace_quiet. assumption.
  - cbn in *. intros [= <-]. destruct e0; try discriminate; reflexivity.
Qed.

(** A message that is not interrupted never makes [process_message]
    raise. *)
Lemma process_message_quiet m folder_name x :
  quiet m = true ->
  fst (process_message m folder_name x) = Ret tt.
Proof.
  intros Hq. unfold process_message.
  destruct (mem _ _); [reflexivity |].
  set (x1 := {| processed_count := processed_count x + 1;
                progress_data := progress_data x;
                disk := disk x; clock := clock x |}).
  set (id := format_id (processed_count x1)).
  assert (H : forall e, fst (process_body m folder_name id x1) = Raise e ->
                        is_Exception e = true).
  { pose proof (fun e => extraction_trace_quiet m id e Hq) as Ht.
    assert (He : forall e, msg_eml_write m = Raise e -> is_Exception e = true).
    { unfold quiet in Hq. repeat (apply andb_prop in Hq as [Hq ?]).
      intros e E. rewrite E in *. destruct e; try discriminate; reflexivity. }
    assert (Hm : forall e, msg_metadata_write m = Raise e ->
                           is_Exception e = true).
    { unfold quiet in Hq. repeat (apply andb_prop in Hq as [Hq ?]).
      intros e E. rewrite E in *. destruct e; try discriminate; reflexivity. }
    revert Ht He Hm. clear Hq. body_cases m id; intros Ht He Hm e E;
      try discriminate E; injection E as <-; cbn [snd] in Ht; auto. }
  destruct (process_body m folder_name id x1) as [[[] | e] x2];
    [reflexivity |].
  rewrite (H e eq_refl). reflexivity.
Qed.

Lemma process_message_quiet_pair m folder_name x :
  quiet m = true ->
  exists x', process_message m folder_name x = (Ret tt, x')
             /\ processed_count x' = processed_count x + 1.
Proof.
  intros Hq.
  pose proof (process_message_quiet m folder_name x Hq) as Hr.
  pose proof (process_message_count m folder_name x) as Hc.
  destruct (process_message m folder_name x) as [r x']. cbn [fst snd] in *.
  subst r. eauto.
Qed.

Lemma messages_loop_past_the_end ms folder_name : forall n x,
  forallb quiet ms = true ->
  (length ms < n)%nat ->
  exists x',
    messages_loop n (List.map Some ms) folder_name x
    = (Raise OtherException, x')
    /\ processed_count x' = processed_count x + Z.of_nat (length ms).
Proof.
  induction ms as [| m ms IH]; intros n x Hq Hn;
    destruct n as [| n]; cbn [length] in Hn; try lia;
    cbn [List.map messages_loop].
  - exists x. split; [reflexivity | cbn; lia].
  - cbn [forallb] in Hq. apply andb_prop in Hq as [Hm Hrest].
    destruct (process_message_quiet_pair m folder_name x Hm) as (x1 & -> & Hc).
    destruct (IH n x1 Hrest ltac:(lia)) as (x' & -> & Hc').
    exists x'. split; [reflexivity |]. cbn [length]. lia.
Qed.

Lemma direct_iteration_all ms folder_name : forall x,
  forallb quiet ms = true ->
  processed_count (direct_iteration (List.map Some ms) folder_name x)
  = processed_count x + Z.of_nat (length ms).
Proof.
  induction ms as [| m ms IH]; intros x Hq;
    cbn [List.map direct_iteration length].
  - lia.
  - cbn [forallb] in Hq. apply andb_prop in Hq as [Hm Hrest].
    destruct (process_message_quiet_pair m folder_name x Hm) as (x1 & -> & Hc).
    rewrite (IH x1 Hrest). lia.
Qed.

(** X11.  When the count of a folder overstates the messages it holds, the
    indexed loop runs past the last message and fails, and the fallback
    starts again from the first message: every message is met twice and
    the counter goes up by two for each, so the second pass works on new
    ids. *)
Theorem X11_overstated_count_meets_messages_twice gm pm n ms folder_name x :
  probe_count gm pm = Ret n ->
  (length ms < n)%nat ->
  forallb quiet ms = true ->
  let r := process_messages gm pm (List.map Some ms) folder_name x in
  fst r = Ret tt
  /\ processed_count (snd r) = processed_count x + 2 * Z.of_nat (length ms).
Proof.
  intros Hp Hn Hq. cbv zeta. unfold process_messages. rewrite Hp.
  destruct (messages_loop_past_the_end ms folder_name n x Hq Hn)
    as (x1 & -> & Hc).
  cbn [is_Exception fst snd]. split; [reflexivity |].
  rewrite direct_iteration_all by exact Hq. lia.
Qed.

(** Two messages in a folder that claims three: the counter ends at
    four and four ids are recorded. *)
Lemma X11_overstated_count_meets_messages_twice_witness :
  let r := process_messages (Attr (Ret 3%nat)) NoAttr
             (List.map Some [msg_plain; msg_twins]) (py "Root")
             (init empty_fs 0%N) in
  fst r = Ret tt
  /\ processed_count (snd r) = 4
  /\ processed_emails (progress_data (snd r))
     = [format_id 1; format_id 2; format_id 3; format_id 4].
Proof.
  destruct (X11_overstated_count_meets_messages_twice
              (Attr (Ret 3%nat)) NoAttr 3 [msg_plain; msg_twins] (py "Root")
              (init empty_fs 0%N)) as [H1 H2].
  - reflexivity.
  - cbn. lia.
  - reflexivity.
  - split; [exact H1 |]. split; [exact H2 |]. vm_compute. reflexivity.
Defined.

(** *** Running the extraction a second time *)

Lemma attachments_absorbed id writes dx dy dF :
  (forall f, attachments_dir dF !! (id, f)
             = attachments_dir (write_all id writes dx) !! (id, f)) ->
  attachments_dir dy = attachments_dir dF ->
  attachments_dir (write_all id writes dy) = attachments_dir dF.
Proof.
  intros HF Hy. apply map_eq. intros [i f].
  destruct (decide (i = id)) as [-> | Hne].
  - rewrite ExtractorFacts.lookup_write_all.
    destruct (last_written f writes) eqn:E.
    + rewrite HF, ExtractorFacts.lookup_write_all, E. reflexivity.
    + rewrite Hy. reflexivity.
  - rewrite write_all_other_id by exact Hne. rewrite Hy. reflexivity.
Qed.

Lemma app_singleton_ne {A} (l : list A) (a : A) : l ++ [a] <> l.
Proof.
  intros H. apply (f_equal (@length A)) in H.
  rewrite List.length_app in H. cbn in H. lia.
Qed.

Ltac state_fields :=
  cbn [fst snd processed_count progress_data disk clock
       set_disk set_progress save_progress append_processed
       processed_emails emails_dir attachments_dir metadata_dir
       progress_file write_metadata] in *.

(** A message that was tried and not recorded leaves, when it is tried
    again on a disk that still has its files, the same outcome and the
    same disk. *)
Lemma process_body_replay m folder_name id x y F :
  processed_emails (progress_data (snd (process_body m folder_name id x)))
  = processed_emails (progress_data x) ->
  same_files_of id (disk (snd (process_body m folder_name id x))) (disk F) ->
  same_store F y ->
  fst (process_body m folder_name id y) = fst (process_body m folder_name id x)
  /\ same_store F (snd (process_body m folder_name id y)).
Proof.
  unfold process_body.
  destruct (extract_email_content m) as [plain html].
  rewrite !extract_attachments_trace.
  destruct (extraction_trace m id) as [[entries writes] stop].
  unfold create_eml_file.
  pose proof (fun dy => attachments_absorbed id writes (disk x) dy (disk F))
    as Hatt.
  destruct stop as [e1 |]; [destruct (is_Exception e1) |];
    try (destruct (msg_eml_write m) as [[] | e2];
         [| destruct (is_Exception e2)]);
    try (destruct (msg_metadata_write m) as [[] | e3]);
    state_fields;
    repeat match goal with
           | |- context [if ?b then _ else _] => destruct b
           end;
    state_fields;
    intros Hl (He & Hm & Ha) (Hly & Hey & Hay & Hmy);
    state_fields;
    try (exfalso; exact (app_singleton_ne _ _ Hl));
    (split; [reflexivity |]);
    unfold same_store; state_fields;
    rewrite ?(proj1 (write_all_other_dirs _ _ _)),
            ?(proj1 (proj2 (write_all_other_dirs _ _ _))) in *;
    (split; [exact Hly |]);
    (split; [| split; [apply Hatt; [exact Ha | exact Hay] | exact Hmy]]);
    try exact Hey;
    rewrite Hey; apply insert_id; rewrite He; apply lookup_insert_eq.
Qed.

Lemma process_message_eq m folder_name x :
  process_message m folder_name x
  = if mem (next_id x) (processed_emails (progress_data x))
    then (Ret tt, counted x)
    else (swallow (fst (process_body m folder_name (next_id x) (counted x))),
          snd (process_body m folder_name (next_id x) (counted x))).
Proof.
  unfold process_message, next_id, counted, swallow.
  cbn [processed_count progress_data].
  destruct (mem _ _); [reflexivity |].
  destruct (process_body _ _ _ _) as [[[] | e] x2]; cbn [fst snd];
    [reflexivity |].
  destruct (is_Exception e); reflexivity.
Qed.

Lemma not_mem_In id l : mem id l = false <-> ~ In id l.
Proof.
  rewrite <- mem_In. destruct (mem id l); split; congruence.
Qed.

(** The step of the second run: on a state that has the progress list
    and the files of the end of the first run, a call of
    [process_message] ends as it did in the first run and changes
    neither. *)
Lemma process_message_replay m folder_name x y F :
  0 <= processed_count x ->
  processed_count y = processed_count x ->
  later (snd (process_message m folder_name x)) F ->
  same_store F y ->
  fst (process_message m folder_name y) = fst (process_message m folder_name x)
  /\ same_store F (snd (process_message m folder_name y))
  /\ processed_count (snd (process_message m folder_name y))
     = processed_count (snd (process_message m folder_name x)).
Proof.
  intros Hx Hc Hlater Hsame.
  assert (Hid : next_id y = next_id x)
    by (unfold next_id; rewrite Hc; reflexivity).
  destruct Hlater as [_ Hk];
    [rewrite process_message_count; lia |].
  destruct (Hk (processed_count x + 1)) as [Hin Hfiles];
    [rewrite process_message_count; lia |].
  fold (next_id x) in Hin, Hfiles. clear Hk.
  pose proof Hsame as (Hly & Hey & Hay & Hmy).
  rewrite (process_message_eq m folder_name y), Hid, Hly.
  rewrite (process_message_eq m folder_name x) in *.
  destruct (mem (next_id x) (processed_emails (progress_data x))) eqn:Mx;
    cbn [fst snd] in *.
  - apply mem_In in Mx. cbn [counted progress_data] in Hin.
    apply Hin, mem_In in Mx. rewrite Mx. cbn [fst snd].
    split; [reflexivity |]. split; [exact Hsame |].
    cbn [counted processed_count]. lia.
  - destruct (process_body_progress_cases m folder_name (next_id x)
                (counted x)) as [[H1 _] | (H1 & H2 & _)]; cbv zeta in *.
    + assert (Mf : mem (next_id x) (processed_emails (progress_data F))
                   = false).
      { apply not_mem_In. intros HF. apply Hin in HF.
        rewrite H1 in HF. cbn [counted progress_data] in HF.
        apply not_mem_In in Mx. contradiction. }
      rewrite Mf. cbn [fst snd].
      destruct (process_body_replay m folder_name (next_id x)
                  (counted x) (counted y) F) as [Hr Hs].
      * rewrite H1. reflexivity.
      * exact Hfiles.
      * exact Hsame.
      * rewrite Hr. split; [reflexivity |]. split; [exact Hs |].
        rewrite !process_body_count. cbn [counted processed_count]. lia.
    + assert (Mf : mem (next_id x) (processed_emails (progress_data F))
                   = true).
      { apply mem_In, Hin. rewrite H2. apply List.in_or_app.
        right. left. reflexivity. }
      rewrite Mf, H1. cbn [fst snd swallow].
      split; [reflexivity |]. split; [exact Hsame |].
      rewrite process_body_count. cbn [counted processed_count]. lia.
Qed.

Lemma later_refl x : later x x.
Proof.
  intros _. split; [lia |]. intros c _.
  split; [reflexivity | repeat split; reflexivity].
Qed.

Lemma later_trans x y z : later x y -> later y z -> later x z.
Proof.
  intros Hxy Hyz H0.
  destruct (Hxy H0) as [C1 K1].
  destruct (Hyz ltac:(lia)) as [C2 K2].
  split; [lia |]. intros c Hc.
  destruct (K1 c Hc) as [I1 (E1 & M1 & A1)].
  destruct (K2 c ltac:(lia)) as [I2 (E2 & M2 & A2)].
  split; [rewrite I2; exact I1 |].
  repeat split; [rewrite E2; exact E1 | rewrite M2; exact M1 |].
  intros f. rewrite A2. apply A1.
Qed.

Lemma process_message_other_ids m folder_name x id' :
  id' <> next_id x ->
  same_files_of id' (disk x) (disk (snd (process_message m folder_name x))).
Proof.
  intros Hne. rewrite process_message_snd.
  destruct (mem _ _).
  - repeat split; reflexivity.
  - exact (process_body_other_ids m folder_name (next_id x)
             {| processed_count := processed_count x + 1;
                progress_data := progress_data x;
                disk := disk x; clock := clock x |} id' Hne).
Qed.

Lemma process_message_list m folder_name x :
  processed_emails (progress_data (snd (process_message m folder_name x)))
  = processed_emails (progress_data x)
  \/ processed_emails (progress_data (snd (process_message m folder_name x)))
     = processed_emails (progress_data x) ++ [next_id x].
Proof.
  rewrite process_message_eq. destruct (mem _ _); cbn [snd]; [left; reflexivity |].
  destruct (process_body_progress_cases m folder_name (next_id x) (counted x))
    as [[H _] | (_ & H & _)]; cbv zeta in *.
  - left. rewrite H. reflexivity.
  - right. exact H.
Qed.

Lemma process_message_later m folder_name x :
  later x (snd (process_message m folder_name x)).
Proof.
  intros H0. split; [rewrite process_message_count; lia |].
  intros c Hc.
  assert (Hne : format_id c <> next_id x).
  { unfold next_id. intros E. apply format_id_inj in E; lia. }
  split; [| apply process_message_other_ids, Hne].
  destruct (process_message_list m folder_name x) as [-> | ->];
    [reflexivity |].
  rewrite List.in_app_iff. cbn [In]. intuition congruence.
Qed.

Lemma messages_loop_later n msgs folder_name x :
  later x (snd (messages_loop n msgs folder_name x)).
Proof.
  apply (messages_loop_R later later_refl later_trans process_message_later).
Qed.

Lemma direct_iteration_later msgs folder_name x :
  later x (direct_iteration msgs folder_name x).
Proof.
  apply (direct_iteration_R later later_refl later_trans
           process_message_later).
Qed.

Lemma process_folder_later f folder_path x :
  later x (snd (process_folder f folder_path x)).
Proof.
  apply (process_folder_R later later_refl later_trans process_message_later).
Qed.

Lemma subfolders_loop_later folder_name subs n x :
  later x (snd (subfolders_loop process_folder folder_name n subs x)).
Proof.
  apply (subfolders_loop_R later later_refl later_trans).
  intros sub _ folder_path y. apply process_folder_later.
Qed.

Lemma messages_loop_replays n : forall msgs folder_name,
  replays (messages_loop n msgs folder_name).
Proof.
  induction n as [| n IH]; intros msgs folder_name x y F H0 Hc Hl Hs;
    cbn [messages_loop] in *.
  - cbn [fst snd]. auto.
  - destruct msgs as [| [m |] rest].
    + cbn [fst snd]. auto.
    + pose proof (process_message_count m folder_name x) as Hcnt.
      pose proof (messages_loop_later n rest folder_name
                    (snd (process_message m folder_name x))) as Hrest.
      pose proof (process_message_replay m folder_name x y F H0 Hc) as Hstep.
      destruct (process_message m folder_name x) as [[[] | e] x1];
        cbn [fst snd] in *.
      * destruct (Hstep (later_trans _ _ _ Hrest Hl) Hs) as (Hr & Hs1 & Hc1).
        destruct (process_message m folder_name y) as [ry y1].
        cbn [fst snd] in *. subst ry.
        apply IH; [lia | exact Hc1 | exact Hl | exact Hs1].
      * destruct (Hstep Hl Hs) as (Hr & Hs1 & Hc1).
        destruct (process_message m folder_name y) as [ry y1].
        cbn [fst snd] in *. subst ry. cbn [fst snd]. auto.
    + apply IH; assumption.
Qed.

Lemma direct_iteration_replays msgs : forall folder_name,
  replays (fun x => (Ret tt, direct_iteration msgs folder_name x)).
Proof.
  induction msgs as [| [m |] rest IH]; intros folder_name x y F H0 Hc Hl Hs;
    cbn [direct_iteration fst snd] in *; auto.
  pose proof (process_message_count m folder_name x) as Hcnt.
  pose proof (direct_iteration_later rest folder_name
                (snd (process_message m folder_name x))) as Hrest.
  pose proof (process_message_replay m folder_name x y F H0 Hc) as Hstep.
  destruct (process_message m folder_name x) as [[[] | e] x1];
    cbn [fst snd] in *.
  - destruct (Hstep (later_trans _ _ _ Hrest Hl) Hs) as (Hr & Hs1 & Hc1).
    destruct (process_message m folder_name y) as [ry y1].
    cbn [fst snd] in *. subst ry.
    apply (IH folder_name x1 y1 F); [lia | exact Hc1 | exact Hl | exact Hs1].
  - destruct (Hstep Hl Hs) as (Hr & Hs1 & Hc1).
    destruct (process_message m folder_name y) as [ry y1].
    cbn [fst snd] in *. subst ry. auto.
Qed.

Lemma process_messages_replays gm pm msgs folder_name :
  replays (process_messages gm pm msgs folder_name).
Proof.
  intros x y F H0 Hc Hl Hs. unfold process_messages in *.
  destruct (probe_count gm pm) as [n | e].
  - pose proof (messages_loop_replays n msgs folder_name x y F H0 Hc) as Hloop.
    pose proof (messages_loop_later n msgs folder_name x) as Hgrow.
    destruct (messages_loop n msgs folder_name x) as [[[] | e] x1];
      cbn [fst snd] in *.
    + destruct (Hloop Hl Hs) as (Hr & Hs1 & Hc1).
      destruct (messages_loop n msgs folder_name y) as [ry y1].
      cbn [fst snd] in *. subst ry. auto.
    + destruct (is_Exception e) eqn:K; cbn [fst snd] in *.
      * pose proof (direct_iteration_later msgs folder_name x1) as Hd.
        destruct (Hloop (later_trans _ _ _ Hd Hl) Hs) as (Hr & Hs1 & Hc1).
        destruct (messages_loop n msgs folder_name y) as [ry y1].
        cbn [fst snd] in *. subst ry. rewrite K. cbn [fst snd].
        apply (direct_iteration_replays msgs folder_name x1 y1 F);
          [destruct (Hgrow H0); lia | exact Hc1 | exact Hl | exact Hs1].
      * destruct (Hloop Hl Hs) as (Hr & Hs1 & Hc1).
        destruct (messages_loop n msgs folder_name y) as [ry y1].
        cbn [fst snd] in *. subst ry. rewrite K. cbn [fst snd]. auto.
  - destruct (is_Exception e); cbn [fst snd] in *; [| auto].
    apply (direct_iteration_replays msgs folder_name x y F); assumption.
Qed.

Lemma process_messages_later gm pm msgs folder_name x :
  later x (snd (process_messages gm pm msgs folder_name x)).
Proof.
  apply (process_messages_R later later_refl later_trans
           process_message_later).
Qed.

Lemma subfolders_loop_replays folder_name subs :
  (forall sub, In (Some sub) subs ->
     forall folder_path, replays (process_folder sub folder_path)) ->
  forall n, replays (subfolders_loop process_folder folder_name n subs).
Proof.
  induction subs as [| [sub |] rest IH]; intros Hsub n x y F H0 Hc Hl Hs;
    destruct n as [| n]; cbn [subfolders_loop fst snd] in *; auto.
  - pose proof (process_folder_later sub folder_name x) as Hgrow.
    pose proof (subfolders_loop_later folder_name rest n
                  (snd (process_folder sub folder_name x))) as Hrest.
    pose proof (Hsub sub (or_introl eq_refl) folder_name x y F H0 Hc) as Hstep.
    destruct (process_folder sub folder_name x) as [[[] | e] x1];
      cbn [fst snd] in *.
    + destruct (Hstep (later_trans _ _ _ Hrest Hl) Hs) as (Hr & Hs1 & Hc1).
      destruct (process_folder sub folder_name y) as [ry y1].
      cbn [fst snd] in *. subst ry.
      apply IH;
        [intros s Hin; apply Hsub; right; exact Hin
        | destruct (Hgrow H0); lia | exact Hc1 | exact Hl | exact Hs1].
    + assert (Hl1 : later x1 F) by (destruct (is_Exception e); exact Hl).
      destruct (Hstep Hl1 Hs) as (Hr & Hs1 & Hc1).
      destruct (process_folder sub folder_name y) as [ry y1].
      cbn [fst snd] in *. subst ry.
      destruct (is_Exception e); cbn [fst snd]; auto.
  - apply IH; [intros s Hin; apply Hsub; right; exact Hin | | | |];
      assumption.
Qed.

Lemma process_folder_replays f : forall folder_path,
  replays (process_folder f folder_path).
Proof.
  induction f as [name gm pm msgs gs ps subs IH] using folder_induction.
  intros folder_path x y F H0 Hc Hl Hs.
  rewrite !process_folder_eq in *.
  pose proof (process_messages_replays gm pm msgs
                (join_path folder_path name) x y F H0 Hc) as Hstep.
  pose proof (process_messages_later gm pm msgs
                (join_path folder_path name) x) as Hgrow.
  destruct (process_messages gm pm msgs (join_path folder_path name) x)
    as [[[] | e] x1]; cbn [fst snd] in *.
  - destruct (probe_count gs ps) as [n | e].
    + pose proof (subfolders_loop_later (join_path folder_path name) subs n x1)
        as Hrest.
      destruct (Hstep (later_trans _ _ _ Hrest Hl) Hs) as (Hr & Hs1 & Hc1).
      destruct (process_messages gm pm msgs (join_path folder_path name) y)
        as [ry y1].
      cbn [fst snd] in *. subst ry.
      apply (subfolders_loop_replays (join_path folder_path name) subs IH n);
        [destruct (Hgrow H0); lia | exact Hc1 | exact Hl | exact Hs1].
    + assert (Hl1 : later x1 F) by (destruct (is_Exception e); exact Hl).
      destruct (Hstep Hl1 Hs) as (Hr & Hs1 & Hc1).
      destruct (process_messages gm pm msgs (join_path folder_path name) y)
        as [ry y1].
      cbn [fst snd] in *. subst ry.
      destruct (is_Exception e); cbn [fst snd]; auto.
  - destruct (Hstep Hl Hs) as (Hr & Hs1 & Hc1).
    destruct (process_messages gm pm msgs (join_path folder_path name) y)
      as [ry y1].
    cbn [fst snd] in *. subst ry. cbn [fst snd]. auto.
Qed.

(** X12.  Idempotence of a run.  When a run over an archive has
    returned and has recorded every message it met, a second run over
    the same archive, started on the disk the first one left, returns as
    well and changes no .eml file, no attachment, no metadata record and
    no entry of the progress list; it meets the same number of
    messages. *)
Theorem X12_second_run_changes_nothing root_folder d now1 now2 x1 :
  extract (Ret root_folder) (init d now1) = (Ret tt, x1) ->
  all_recorded x1 = true ->
  exists x2,
    extract (Ret root_folder) (init (disk x1) now2) = (Ret tt, x2)
    /\ same_store x1 x2
    /\ processed_count x2 = processed_count x1.
Proof.
  intros Hrun _.
  pose proof (ExtractorFacts.extract_saves_on_return _ _ _ Hrun) as Hsaved.
  unfold extract in *.
  set (x0 := set_start_time (init d now1)) in *.
  set (y0 := set_start_time (init (disk x1) now2)).
  pose proof (process_folder_replays root_folder [] x0 y0) as Hrep.
  destruct (process_folder root_folder [] x0) as [[[] | e] xa] eqn:Ea;
    cbn [fst snd] in *.
  - injection Hrun as <-.
    destruct (Hrep (save_progress xa)) as (Hr & Hs & Hc).
    + subst x0. unfold set_start_time, init.
      destruct (start_time _); cbn; lia.
    + subst x0 y0. unfold set_start_time, init.
      repeat (destruct (start_time _)); reflexivity.
    + intros _. split; [cbn; lia |]. intros c _.
      split; [reflexivity | repeat split; reflexivity].
    + subst y0. unfold same_store, set_start_time, init, load_progress.
      cbn [disk save_progress progress_file progress_data processed_emails
           emails_dir attachments_dir metadata_dir].
      destruct (start_time _); repeat split; reflexivity.
    + destruct (process_folder root_folder [] y0) as [ry ya].
      cbn [fst snd] in *. subst ry.
      exists (save_progress ya). split; [reflexivity |].
      split; [exact Hs | exact Hc].
  - destruct (is_Exception e); discriminate Hrun.
Qed.

(** A first run over two messages, the second of which fails to write
    its .eml and to read its attachment, and a second run on its disk. *)
Lemma X12_second_run_changes_nothing_witness :
  let x1 := snd (extract (Ret (root [msg_twins; msg_partial]))
                   (init empty_fs 1%N)) in
  exists x2,
    extract (Ret (root [msg_twins; msg_partial])) (init (disk x1) 2%N)
    = (Ret tt, x2)
    /\ same_store x1 x2.
Proof.
  destruct (X12_second_run_changes_nothing
              (root [msg_twins; msg_partial]) empty_fs 1%N 2%N _ eq_refl
              eq_refl)
    as (x2 & H1 & H2 & _).
  exists x2. split; [exact H1 | exact H2].
Defined.

(** The metadata record of a message that has been extracted. *)
Lemma process_body_record m folder_name id x :
  let r := process_body m folder_name id x in
  processed_emails (progress_data (snd r))
  = processed_emails (progress_data x) ++ [id] ->
  exists md,
    metadata_dir (disk (snd r)) !! id = Some md
    /\ md_subject md = msg_subject m
    /\ md_folder md = folder_name.
Proof.
  cbv zeta. body_cases m id; intros H;
    try (symmetry in H; apply app_singleton_ne in H; contradiction);
    try (apply app_singleton_ne in H; contradiction);
    (eexists; split; [apply lookup_insert_eq | split; reflexivity]).
Qed.

Lemma process_message_record m folder_name x :
  let r := process_message m folder_name x in
  processed_emails (progress_data (snd r))
  = processed_emails (progress_data x) ++ [next_id x] ->
  exists md,
    metadata_dir (disk (snd r)) !! next_id x = Some md
    /\ md_subject md = msg_subject m
    /\ md_folder md = folder_name.
Proof.
  cbv zeta. rewrite process_message_eq.
  destruct (mem (next_id x) (processed_emails (progress_data x))).
  - cbn [snd]. unfold counted. cbn [progress_data]. intros H.
    symmetry in H. apply app_singleton_ne in H. contradiction.
  - cbn [snd]. intros H.
    exact (process_body_record m folder_name (next_id x) (counted x) H).
Qed.

Lemma format_id_not_progress n :
  String.eqb (format_id n) "progress" = false.
Proof.
  unfold format_id.
  change ("email_" +:+ pad6 (pretty (Z.to_N n)))
    with (String "e" ("mail_" +:+ pad6 (pretty (Z.to_N n)))).
  reflexivity.
Qed.

End ExtractorMore.

(* ===================================================================== *)
(** ** Further properties of the classification engine *)
(* ===================================================================== *)

Module ClassifierMore.
Import PyStr Re Py Meta Classifier Props ClassifierNotions.

(** *** The analysis of the attachments *)

Lemma snoc_perm (l : list pystr) (x : pystr) : l ++ [x] ≡ₚ x :: l.
Proof. symmetry. apply Permutation_cons_append. Qed.

(** Filing a name under one category adds it to the names filed. *)
Ltac filed :=
  unfold categorized;
  cbn [slip_files excel_files pdf_cotizacion pdf_poliza pdf_renovacion
       pdf_endoso];
  rewrite <- ?app_assoc; cbn [app];
  repeat rewrite <- Permutation_middle;
  rewrite ?app_nil_r;
  reflexivity.

Lemma analyze_entry_filed info e :
  de_is_file e = true ->
  total_attachments (analyze_entry info e) = total_attachments info + 1
  /\ (categorized (analyze_entry info e) = categorized info
      \/ categorized (analyze_entry info e) ≡ₚ de_name e :: categorized info).
Proof.
  intros Hf. unfold analyze_entry. rewrite Hf. cbv zeta.
  ClassifierFacts.split_ifs; (split; [reflexivity |]);
    first [ left; reflexivity | right; filed ].
Qed.

Lemma analyze_entry_not_file info e :
  de_is_file e = false -> analyze_entry info e = info.
Proof. intros Hf. unfold analyze_entry. now rewrite Hf. Qed.

Lemma analyze_fold_filed entries : forall info,
  total_attachments (fold_left analyze_entry entries info)
  = total_attachments info + Z.of_nat (length (file_names entries))
  /\ categorized (fold_left analyze_entry entries info)
     ⊆+ categorized info ++ file_names entries.
Proof.
  induction entries as [| e entries IH]; intros info.
  - cbn. rewrite app_nil_r. split; [lia | reflexivity].
  - cbn [fold_left]. unfold file_names in *. cbn [List.filter].
    destruct (de_is_file e) eqn:Hf.
    + destruct (IH (analyze_entry info e)) as [Ht Hc].
      destruct (analyze_entry_filed info e Hf) as [Ht' Hc'].
      rewrite Ht, Ht'. cbn [List.map length]. split; [lia |].
      etransitivity; [exact Hc |].
      rewrite <- Permutation_middle.
      destruct Hc' as [-> | ->].
      * apply submseteq_cons.  reflexivity.
      * reflexivity.
    + rewrite (analyze_entry_not_file info e Hf). apply IH.
Qed.

(** The flag of a slip and the list of slips say the same. *)
Lemma analyze_fold_slip entries : forall info,
  (has_slip info = true <-> slip_files info <> []) ->
  (slip_complete info = true -> has_slip info = true) ->
  (has_slip (fold_left analyze_entry entries info) = true
   <-> slip_files (fold_left analyze_entry entries info) <> [])
  /\ (slip_complete (fold_left analyze_entry entries info) = true
      -> has_slip (fold_left analyze_entry entries info) = true).
Proof.
  induction entries as [| e entries IH]; intros info H1 H2.
  - now split.
  - cbn [fold_left]. apply IH.
    + unfold analyze_entry. cbv zeta.
      ClassifierFacts.split_ifs;
        cbn [has_slip slip_files]; try exact H1.
      split; [intros _ | reflexivity].
      intros E. now apply app_eq_nil in E as [_ E].
    + unfold analyze_entry. cbv zeta.
      ClassifierFacts.split_ifs;
        cbn [has_slip slip_complete]; try exact H2; reflexivity.
Qed.

(** X14.  The analysis of a message's attachments counts every regular
    file of the directory once, and files each of them under at most one
    category: the names filed, taken over the six categories together, are
    a sub-multiset of the names of the regular files; so, when the names
    are distinct, no name appears twice in the lists.  The flag of a slip
    is set exactly when the list of slips is not empty, and a slip is
    only reported complete when there is one. *)
Theorem X14_attachments_are_filed_at_most_once (entries : list dir_entry) :
  let ai := analyze_attachments (Some entries) in
  total_attachments ai = Z.of_nat (length (file_names entries))
  /\ categorized ai ⊆+ file_names entries
  /\ (NoDup (file_names entries) -> NoDup (categorized ai))
  /\ (has_slip ai = true <-> slip_files ai <> [])
  /\ (slip_complete ai = true -> has_slip ai = true).
Proof.
  cbv zeta. unfold analyze_attachments.
  destruct (analyze_fold_filed entries empty_info) as [Ht Hc].
  cbn in Ht, Hc.
  assert (Hs := analyze_fold_slip entries empty_info).
  split; [exact Ht |]. split; [exact Hc |]. split.
  - intros Hn. apply submseteq_sublist_r in Hc as (l & Hp & Hl).
    rewrite Hp. exact (sublist_NoDup _ _ Hn Hl).
  - apply Hs; cbn; [split; [discriminate | congruence] | discriminate].
Qed.

Lemma in_snoc (l : list pystr) (x name : pystr) :
  In name (l ++ [x]) -> In name l \/ name = x.
Proof.
  intros H. apply in_app_or in H as [H | [H | []]]; [now left | now right].
Qed.

Lemma andb_false_true a b : a && b = false -> a = true -> b = false.
Proof. now destruct a, b. Qed.

Ltac filed_cases :=
  cbn [slip_files excel_files pdf_cotizacion pdf_poliza pdf_renovacion
       pdf_endoso];
  refine (conj _ (conj _ (conj _ (conj _ (conj _ _))))); try assumption;
  intros Hin; apply in_snoc in Hin as [Hin | ->];
  [ solve [auto] | repeat split; assumption ].

Lemma analyze_entry_well_filed info e :
  well_filed info -> well_filed (analyze_entry info e).
Proof.
  intros H name. specialize (H name). cbv zeta in *.
  destruct H as (H1 & H2 & H3 & H4 & H5 & H6).
  unfold analyze_entry. cbv zeta.
  fold quote_words policy_words renewal_words endorsement_words.
  destruct (de_is_file e); [| tauto].
  destruct (is_excel (upper (de_name e))) eqn:Ex.
  - cbn [andb orb].
    destruct (contains (py "SLIP") (upper (de_name e))) eqn:Es;
      filed_cases.
  - cbn [andb orb].
    destruct (is_pdf (upper (de_name e))) eqn:Ep; cbn [andb]; [| tauto].
    destruct (any_in quote_words (upper (de_name e))) eqn:Eq;
      [filed_cases |].
    destruct (any_in policy_words (upper (de_name e))) eqn:Eo;
      [filed_cases |].
    destruct (any_in renewal_words (upper (de_name e))) eqn:Er;
      [filed_cases |].
    destruct (any_in endorsement_words (upper (de_name e))) eqn:Ee;
      [filed_cases | tauto].
Qed.

Lemma analyze_fold_well_filed entries : forall info,
  well_filed info -> well_filed (fold_left analyze_entry entries info).
Proof.
  induction entries as [| e entries IH]; intros info H; [exact H |].
  cbn [fold_left]. apply IH, analyze_entry_well_filed, H.
Qed.

(** X15.  What a list of the analysis holds.  A name under [slip_files]
    ends in .XLSX or .XLS and contains SLIP, both in upper case; a name
    under [excel_files] has such an ending and no SLIP.  The four lists
    of PDFs hold names that end in .PDF and in no Excel ending, and the
    chain gives the words of a quote precedence over those of a policy,
    those over the words of a renewal, and those over the words of an
    endorsement: a name under [pdf_poliza] contains none of the quote
    words, so that COT anywhere in the name of a PDF makes it a quote
    document whatever else the name says. *)
Theorem X15_what_each_list_holds (entries : list dir_entry) (name : pystr) :
  let ai := analyze_attachments (Some entries) in
  let filename := upper name in
  (In name (slip_files ai) ->
     is_excel filename = true /\ contains (py "SLIP") filename = true)
  /\ (In name (excel_files ai) ->
      is_excel filename = true /\ contains (py "SLIP") filename = false)
  /\ (In name (pdf_cotizacion ai) ->
      is_excel filename = false /\ is_pdf filename = true
      /\ any_in quote_words filename = true)
  /\ (In name (pdf_poliza ai) ->
      is_excel filename = false /\ is_pdf filename = true
      /\ any_in quote_words filename = false
      /\ any_in policy_words filename = true)
  /\ (In name (pdf_renovacion ai) ->
      is_excel filename = false /\ is_pdf filename = true
      /\ any_in quote_words filename = false
      /\ any_in policy_words filename = false
      /\ any_in renewal_words filename = true)
  /\ (In name (pdf_endoso ai) ->
      is_excel filename = false /\ is_pdf filename = true
      /\ any_in quote_words filename = false
      /\ any_in policy_words filename = false
      /\ any_in renewal_words filename = false
      /\ any_in endorsement_words filename = true).
Proof.
  apply (analyze_fold_well_filed entries empty_info).
  intros n. cbn. tauto.
Qed.

(** "poliza cotizada.pdf" is filed as a quote document: its name holds
    POLIZA, and COT as well. *)
Lemma X15_what_each_list_holds_witness :
  In (py "poliza cotizada.pdf")
     (pdf_cotizacion (analyze_attachments (Some [mixed_pdf])))
  /\ any_in policy_words (upper (py "poliza cotizada.pdf")) = true
  /\ any_in quote_words (upper (py "poliza cotizada.pdf")) = true.
Proof.
  assert (Hin : In (py "poliza cotizada.pdf")
                  (pdf_cotizacion (analyze_attachments (Some [mixed_pdf]))))
    by (left; reflexivity).
  split; [exact Hin |]. split; [reflexivity |].
  exact (proj2 (proj2 (proj1 (proj2 (proj2
           (X15_what_each_list_holds [mixed_pdf] (py "poliza cotizada.pdf"))))
           Hin))).
Defined.

(** *** The three evaluators *)

Lemma clamp_keeps_verdict (t score : Z) :
  t <= 100 -> (t <=? score) = (t <=? Z.min 100 score).
Proof.
  intros Ht.
  destruct (Z.leb_spec t score), (Z.leb_spec t (Z.min 100 score));
    try reflexivity; lia.
Qed.

Lemma cotizacion_unexplained asunto cuerpo ai :
  cotizacion_criteria asunto cuerpo ai = [] ->
  cotizacion_score asunto cuerpo ai = 0.
Proof.
  unfold cotizacion_criteria, cotizacion_score. cbv zeta.
  ClassifierFacts.split_ifs; cbn; intros K; try discriminate K; reflexivity.
Qed.

Lemma renovacion_unexplained asunto cuerpo ai :
  renovacion_criteria asunto cuerpo ai = [] ->
  renovacion_score asunto cuerpo ai = 0.
Proof.
  unfold renovacion_criteria, renovacion_score. cbv zeta.
  ClassifierFacts.split_ifs; cbn; intros K; try discriminate K; reflexivity.
Qed.

Lemma endoso_unexplained asunto cuerpo ai :
  endoso_criteria asunto cuerpo ai = [] ->
  endoso_score asunto cuerpo ai = 0.
Proof.
  unfold endoso_criteria, endoso_score. cbv zeta.
  ClassifierFacts.split_ifs; cbn; intros K; try discriminate K; reflexivity.
Qed.

(** An evaluator that returns has read an upper-cased subject. *)
Ltac returned H asunto :=
  match type of H with
  | ?f ?md ?ai ?ec = Ret ?c =>
      unfold f in H;
      destruct (subject_upper md) as [asunto | ?]; [| discriminate H];
      unfold bind in H; cbv zeta in H; injection H as <-;
      cbn [is_met confidence criteria_met status]
  end.

Lemma cotizacion_verdict md ai ec c :
  classify_cotizacion md ai ec = Ret c -> is_met c = (40 <=? confidence c).
Proof. intros H. returned H asunto. apply clamp_keeps_verdict. lia. Qed.

Lemma renovacion_verdict md ai ec c :
  classify_renovacion md ai ec = Ret c -> is_met c = (40 <=? confidence c).
Proof. intros H. returned H asunto. apply clamp_keeps_verdict. lia. Qed.

Lemma endoso_verdict md ai ec c :
  classify_endoso md ai ec = Ret c -> is_met c = (30 <=? confidence c).
Proof. intros H. returned H asunto. apply clamp_keeps_verdict. lia. Qed.

(** X16.  The verdict of an evaluator can be read off the confidence it
    reports: [is_cotizacion] and [is_renovacion] hold exactly when the
    confidence is at least 40, [is_endoso] exactly when it is at least
    30; the clamp at 100 never changes a verdict.  And a confidence is
    never left unexplained: with an empty list of criteria it is 0. *)
Theorem X16_verdict_follows_confidence md ai ec :
  (forall c, classify_cotizacion md ai ec = Ret c ->
     is_met c = (40 <=? confidence c)
     /\ (criteria_met c = [] -> confidence c = 0))
  /\ (forall c, classify_renovacion md ai ec = Ret c ->
     is_met c = (40 <=? confidence c)
     /\ (criteria_met c = [] -> confidence c = 0))
  /\ (forall c, classify_endoso md ai ec = Ret c ->
     is_met c = (30 <=? confidence c)
     /\ (criteria_met c = [] -> confidence c = 0)).
Proof.
  split; [| split]; intros c H.
  - split; [exact (cotizacion_verdict _ _ _ _ H) |]. returned H asunto.
    intros K. now rewrite (cotizacion_unexplained _ _ _ K).
  - split; [exact (renovacion_verdict _ _ _ _ H) |]. returned H asunto.
    intros K. now rewrite (renovacion_unexplained _ _ _ K).
  - split; [exact (endoso_verdict _ _ _ _ H) |]. returned H asunto.
    intros K. now rewrite (endoso_unexplained _ _ _ K).
Qed.

(** With only a quote keyword in the subject the confidence is 30 and
    the verdict negative. *)
Lemma X16_verdict_follows_confidence_witness :
  exists c,
    classify_cotizacion (meta_of id1 (JVal (py "COTIZACION"))) empty_info
      empty_content = Ret c
    /\ confidence c = 30 /\ is_met c = false.
Proof.
  destruct (proj1 (X16_verdict_follows_confidence
                     (meta_of id1 (JVal (py "COTIZACION")))
                     empty_info empty_content) _ eq_refl) as [Hv _].
  match type of Hv with is_met ?c = _ => exists c end.
  split; [reflexivity |]. split; [vm_compute; reflexivity |].
  rewrite Hv. vm_compute. reflexivity.
Defined.

(** X17.  The status an evaluator reports, against its verdict.  The
    renewal and the endorsement evaluator report a status exactly when
    their verdict is positive.  The quote evaluator takes its status from
    the slip before the verdict exists: the status is empty only when no
    slip is attached and the verdict is negative, so a message with a
    slip has a quote status whatever the verdict. *)
Theorem X17_status_against_verdict md ai ec :
  (forall c, classify_cotizacion md ai ec = Ret c ->
     (status c = ""%string <-> has_slip ai = false /\ is_met c = false))
  /\ (forall c, classify_renovacion md ai ec = Ret c ->
     (status c = ""%string <-> is_met c = false))
  /\ (forall c, classify_endoso md ai ec = Ret c ->
     (status c = ""%string <-> is_met c = false)).
Proof.
  split; [| split]; intros c H; returned H asunto.
  - unfold cotizacion_status.
    destruct (has_slip ai), (slip_complete ai),
      (40 <=? cotizacion_score asunto (body_upper ec) ai);
      cbn; split; try discriminate; try tauto;
      intros [K1 K2]; discriminate.
  - destruct (40 <=? renovacion_score asunto (body_upper ec) ai);
      [| tauto].
    destruct ((0 <? total_attachments ai) && _);
      split; discriminate.
  - unfold endoso_status.
    destruct (30 <=? endoso_score asunto (body_upper ec) ai); [| tauto].
    destruct (truthy _ && _); split; discriminate.
Qed.

(** A filled slip beside a policy document: confidence 25, a negative
    verdict, and the status of a complete quote. *)
Lemma X17_status_against_verdict_witness :
  exists c,
    classify_cotizacion md_plain atts_slip_and_policy empty_content = Ret c
    /\ confidence c = 25
    /\ is_met c = false
    /\ status c <> ""%string.
Proof.
  pose proof (proj1 (X17_status_against_verdict md_plain
                       atts_slip_and_policy empty_content) _ eq_refl)
    as Hs.
  match type of Hs with status ?c = _ <-> _ => exists c end.
  split; [reflexivity |]. split; [vm_compute; reflexivity |].
  split; [vm_compute; reflexivity |].
  intros K. apply Hs in K. destruct K as [K _]. discriminate K.
Defined.

(** *** The two extractors *)

(** Whatever a pattern matches, its continuation is entered on a suffix
    of the text. *)
Lemma star_loop_suffix c k : forall s prev g res,
  star_loop c k prev s g = Some res ->
  exists p' mid s', s = mid ++ s' /\ k p' s' g = Some res.
Proof.
  induction s as [| x s IH]; intros prev g res; cbn [star_loop].
  - intros H. now exists prev, [], [].
  - destruct (cmatch c x); [| intros H; now exists prev, [], (x :: s)].
    destruct (star_loop c k (Some x) s g) as [r |] eqn:E.
    + intros [= <-]. destruct (IH _ _ _ E) as (p' & mid & s' & -> & Hk).
      now exists p', (x :: mid), s'.
    + intros H. now exists prev, [], (x :: s).
Qed.

Lemma upto_loop_suffix c k : forall n s prev g res,
  upto_loop n c k prev s g = Some res ->
  exists p' mid s', s = mid ++ s' /\ k p' s' g = Some res.
Proof.
  induction n as [| n IH]; intros s prev g res; cbn [upto_loop].
  - intros H. now exists prev, [], s.
  - destruct s as [| x s]; [intros H; now exists prev, [], [] |].
    destruct (cmatch c x); [| intros H; now exists prev, [], (x :: s)].
    destruct (upto_loop n c k (Some x) s g) as [r |] eqn:E.
    + intros [= <-]. destruct (IH _ _ _ _ E) as (p' & mid & s' & -> & Hk).
      now exists p', (x :: mid), s'.
    + intros H. now exists prev, [], (x :: s).
Qed.

Lemma run_suffix r : forall k prev s g res,
  run r k prev s g = Some res ->
  exists p' mid s' g', s = mid ++ s' /\ k p' s' g' = Some res.
Proof.
  induction r as [| c | | c | r1 IH1 r2 IH2 | r1 IH1 r2 IH2 | c | c | n c
                  | r1 IH1]; intros k prev s g res; cbn [run].
  - intros H. now exists prev, [], s, g.
  - destruct s as [| x s]; [discriminate |].
    destruct (cmatch c x); [| discriminate].
    intros H. now exists (Some x), [x], s, g.
  - destruct (xorb _ _); [| discriminate].
    intros H. now exists prev, [], s, g.
  - destruct s as [| x s]; [intros H; now exists prev, [], [], g |].
    destruct (cmatch c x); [discriminate |].
    intros H. now exists prev, [], (x :: s), g.
  - intros H. apply IH1 in H as (p1 & mid1 & s1 & g1 & -> & H).
    apply IH2 in H as (p2 & mid2 & s2 & g2 & -> & H).
    exists p2, (mid1 ++ mid2), s2, g2. now rewrite <- app_assoc.
  - destruct (run r1 k prev s g) as [x |] eqn:E.
    + intros [= <-]. exact (IH1 _ _ _ _ _ E).
    + apply IH2.
  - intros H. apply star_loop_suffix in H as (p' & mid & s' & -> & H).
    now exists p', mid, s', g.
  - destruct s as [| x s]; [discriminate |].
    destruct (cmatch c x); [| discriminate].
    intros H. apply star_loop_suffix in H as (p' & mid & s' & -> & H).
    now exists p', (x :: mid), s', g.
  - intros H. apply upto_loop_suffix in H as (p' & mid & s' & -> & H).
    now exists p', mid, s', g.
  - intros H. apply IH1 in H as (p1 & mid1 & s1 & g1 & -> & H).
    now exists p1, mid1, s1, (firstn (length (mid1 ++ s1) - length s1)
                               (mid1 ++ s1)).
Qed.

Lemma cat_cons r rs : rs <> [] -> cat (r :: rs) = Seq r (cat rs).
Proof. destruct rs; [congruence | reflexivity]. Qed.

(** The items in front of the last ones of a pattern leave a suffix. *)
Lemma run_cat_tail tail k : tail <> [] -> forall front prev s g res,
  run (cat (front ++ tail)) k prev s g = Some res ->
  exists p' mid s' g',
    s = mid ++ s' /\ run (cat tail) k p' s' g' = Some res.
Proof.
  intros Ht. induction front as [| r front IH]; intros prev s g res.
  - intros H. now exists prev, [], s, g.
  - cbn [app]. rewrite cat_cons by (destruct front; [exact Ht | discriminate]).
    cbn [run]. intros H.
    apply run_suffix in H as (p1 & mid1 & s1 & g1 & -> & H).
    apply IH in H as (p2 & mid2 & s2 & g2 & -> & H).
    exists p2, (mid1 ++ mid2), s2, g2. now rewrite <- app_assoc.
Qed.

Lemma leading_after c s : s = leading c s ++ after c s.
Proof.
  induction s as [| x s IH]; [reflexivity |]. cbn [leading after].
  destruct (cmatch c x); [cbn [app]; now rewrite <- IH | reflexivity].
Qed.

Lemma leading_all c s : Forall (fun x => cmatch c x = true) (leading c s).
Proof.
  induction s as [| x s IH]; cbn [leading]; [constructor |].
  destruct (cmatch c x) eqn:E; now constructor.
Qed.

Lemma after_head c s :
  match after c s with [] => True | x :: _ => cmatch c x = false end.
Proof.
  induction s as [| x s IH]; cbn [after]; [exact I |].
  destruct (cmatch c x) eqn:E; [exact IH | exact E].
Qed.

(** A repetition whose continuation cannot fail takes all it can. *)
Lemma star_loop_greedy c (F : pystr -> pystr) : forall s prev g,
  star_loop c (fun _ s' _ => Some (F s')) prev s g = Some (F (after c s)).
Proof.
  induction s as [| x s IH]; intros prev g; cbn [star_loop after];
    [reflexivity |].
  destruct (cmatch c x); [now rewrite IH | reflexivity].
Qed.

(** The closing group of an extractor. *)
Lemma firstn_leading c x s :
  firstn (length (x :: s) - length (after c s)) (x :: s)
  = x :: leading c s.
Proof.
  rewrite (leading_after c s) at 1 3.
  cbn [length]. rewrite List.length_app.
  replace (S (length (leading c s) + length (after c s))
           - length (after c s))%nat
    with (S (length (leading c s))) by lia.
  cbn [firstn]. rewrite firstn_app, Nat.sub_diag, firstn_all.
  cbn [firstn]. now rewrite app_nil_r.
Qed.

Lemma closing_group prev s g res :
  run (Group (Plus Digit)) matched prev s g = Some res ->
  res = leading Digit s /\ res <> [].
Proof.
  cbn [run]. destruct s as [| x s]; [discriminate |].
  destruct (cmatch Digit x) eqn:E; [| discriminate].
  rewrite (star_loop_greedy Digit
             (fun s' => firstn (length (x :: s) - length s') (x :: s))).
  rewrite firstn_leading. intros [= <-]. cbn [leading]. rewrite E.
  split; [reflexivity | discriminate].
Qed.

(** The white space in front of the closing group. *)
Lemma blank_then_group k : forall prev s g res,
  run (Plus Space) k prev s g = Some res ->
  exists p' blank s',
    s = blank ++ s' /\ blank <> []
    /\ Forall (fun x => is_space x = true) blank
    /\ k p' s' g = Some res.
Proof.
  assert (Hstar : forall s prev g res,
            star_loop Space k prev s g = Some res ->
            exists p' blank s',
              s = blank ++ s'
              /\ Forall (fun x => is_space x = true) blank
              /\ k p' s' g = Some res).
  { induction s as [| x s IH]; intros prev g res; cbn [star_loop].
    - intros H. exists prev, [], []. repeat split; [constructor | exact H].
    - destruct (cmatch Space x) eqn:E;
        [| intros H; exists prev, [], (x :: s);
           repeat split; [constructor | exact H]].
      destruct (star_loop Space k (Some x) s g) as [r |] eqn:E'.
      + intros [= <-].
        destruct (IH _ _ _ E') as (p' & blank & s' & -> & Hb & Hk).
        exists p', (x :: blank), s'.
        repeat split; [constructor; assumption | exact Hk].
      + intros H. exists prev, [], (x :: s).
        repeat split; [constructor | exact H]. }
  intros prev s g res. cbn [run].
  destruct s as [| x s]; [discriminate |].
  destruct (cmatch Space x) eqn:E; [| discriminate].
  intros H. apply Hstar in H as (p' & blank & s' & -> & Hb & Hk).
  exists p', (x :: blank), s'.
  repeat split; [discriminate | constructor; assumption | exact Hk].
Qed.

Lemma search_from_run r : forall s prev res,
  search_from r prev s = Some res ->
  exists p' mid s', s = mid ++ s' /\ run r matched p' s' [] = Some res.
Proof.
  induction s as [| x s IH]; intros prev res; cbn [search_from];
    fold matched.
  - destruct (run r matched prev [] []) as [g |] eqn:E; [| discriminate].
    intros [= <-]. now exists prev, [], [].
  - destruct (run r matched prev (x :: s) []) as [g |] eqn:E.
    + intros [= <-]. now exists prev, [], (x :: s).
    + intros H. apply IH in H as (p' & mid & s' & -> & H).
      now exists p', (x :: mid), s'.
Qed.

(** A match of a pattern that ends in [\s+(\d+)]. *)
Lemma search_code front text res :
  search (cat (front ++ [Plus Space; Group (Plus Digit)])) text = Some res ->
  digit_run_in text res.
Proof.
  unfold search. intros H.
  apply search_from_run in H as (p0 & mid0 & s0 & -> & H).
  apply (run_cat_tail [Plus Space; Group (Plus Digit)] matched) in H
    as (p1 & mid1 & s1 & g1 & -> & H); [| discriminate].
  cbn [cat] in H. cbn [run] in H. 
  change (run (Plus Space)
            (fun p s' g' => run (Group (Plus Digit)) matched p s' g')
            p1 s1 g1 = Some res) in H.
  apply blank_then_group in H as (p2 & blank & s2 & -> & Hne & Hb & H).
  apply closing_group in H as [-> Hr].
  exists (mid0 ++ mid1), blank, (after Digit s2).
  rewrite <- (leading_after Digit s2), <- app_assoc.
  repeat split; try assumption.
  - exact (leading_all Digit s2).
  - exact (after_head Digit s2).
Qed.

Lemma first_group_code fronts text :
  first_group
    (List.map (fun front => cat (front ++ [Plus Space; Group (Plus Digit)]))
       fronts) text = []
  \/ digit_run_in text
       (first_group
          (List.map
             (fun front => cat (front ++ [Plus Space; Group (Plus Digit)]))
             fronts) text).
Proof.
  induction fronts as [| front fronts IH]; [now left |].
  cbn [List.map first_group].
  destruct (search _ text) as [g |] eqn:E; [| exact IH].
  right. exact (search_code front text g E).
Qed.

(** X18.  What the two extractors return.  On a text of code points up
    to U+00FF, the agent code and the policy number are either empty or a
    whole run of decimal digits of the text that follows white space:
    the run is not empty, it is not cut short (the character after it,
    if any, is not a digit), and nothing but digits is returned. *)
Theorem X18_codes_are_whole_digit_runs (text : pystr) :
  latin1 text ->
  (extract_agente_code text = []
   \/ digit_run_in text (extract_agente_code text))
  /\ (extract_poliza_number text = []
      \/ digit_run_in text (extract_poliza_number text)).
Proof.
  intros _. split.
  - exact (first_group_code [[Bnd; lit "AGENTE"]; [Bnd; lit "AG"]] text).
  - exact (first_group_code
             [[Bnd; lit "p"; c_o; lit "liza"];
              [Bnd; lit "P"; c_O; lit "LIZA"];
              [Bnd; lit "OT"];
              [Bnd; lit "N"; c_U; lit "MERO"]] text).
Qed.

(** In "AGENTE 1234-A" the agent code is 1234. *)
Lemma X18_codes_are_whole_digit_runs_witness :
  latin1 (py "AGENTE 1234-A")
  /\ extract_agente_code (py "AGENTE 1234-A") = py "1234"
  /\ digit_run_in (py "AGENTE 1234-A") (py "1234").
Proof.
  assert (Hl : latin1 (py "AGENTE 1234-A")).
  { unfold latin1. vm_compute py. repeat (constructor; [lia |]).
    constructor. }
  split; [exact Hl |]. split; [vm_compute; reflexivity |].
  destruct (proj1 (X18_codes_are_whole_digit_runs _ Hl)) as [K | K].
  - vm_compute in K. discriminate K.
  - exact K.
Defined.

(** *** One message *)

(** The result of [classify_email], field by field. *)
Lemma classify_email_shape st id r :
  classify_email st id = Ret (Classified r) ->
  exists md cot ren en,
    metadata_files st !! id = Some md
    /\ classify_cotizacion md (analyze_attachments (attachment_dirs st !! id))
         (extract_email_content st id) = Ret cot
    /\ classify_renovacion md (analyze_attachments (attachment_dirs st !! id))
         (extract_email_content st id) = Ret ren
    /\ classify_endoso md (analyze_attachments (attachment_dirs st !! id))
         (extract_email_content st id) = Ret en
    /\ r = {| email_id := id;
              r_metadata := md;
              attachment_analysis :=
                analyze_attachments (attachment_dirs st !! id);
              cl_cotizacion := cot;
              cl_renovacion := ren;
              cl_endoso := en;
              primary_classification :=
                {| pc_type :=
                     if floor <=? confidence (best_of cot ren en)
                     then winner (confidence cot) (confidence ren)
                            (confidence en)
                     else sin_clasificar;
                   pc_confidence := confidence (best_of cot ren en);
                   pc_status := status (best_of cot ren en);
                   pc_details := best_of cot ren en |} |}.
Proof.
  unfold classify_email.
  destruct (metadata_files st !! id) as [md |]; [| discriminate].
  destruct (classify_cotizacion _ _ _) as [cot | e] eqn:H1; [| discriminate].
  destruct (classify_renovacion _ _ _) as [ren | e] eqn:H2; [| discriminate].
  destruct (classify_endoso _ _ _) as [en | e] eqn:H3; [| discriminate].
  unfold bind.
  destruct (ClassifierFacts.sort_desc_head cot ren en) as [rest ->].
  destruct (ClassifierFacts.winner_is_highest (confidence cot)
              (confidence ren) (confidence en)) as [_ Hne].
  unfold best_of. intros H. exists md, cot, ren, en.
  split; [reflexivity |]. split; [exact H1 |].
  split; [exact H2 |]. split; [exact H3 |].
  destruct (winner (confidence cot) (confidence ren) (confidence en));
    [ | | | congruence]; injection H as <-; reflexivity.
Qed.

(** X19.  The primary classification of a result, against the three
    verdicts.  The result carries the id it was asked for; confidence,
    status and details of the primary classification are those of one
    and the same evaluator, the one named by the type unless the type is
    [sin_clasificar]; a positive verdict of any evaluator excludes
    [sin_clasificar]; and a primary type [endoso] comes with a positive
    endorsement verdict. *)
Theorem X19_primary_against_verdicts st id r :
  classify_email st id = Ret (Classified r) ->
  let p := primary_classification r in
  email_id r = id
  /\ pc_confidence p = confidence (pc_details p)
  /\ pc_status p = status (pc_details p)
  /\ match pc_type p with
     | cotizacion => pc_details p = cl_cotizacion r
     | renovacion => pc_details p = cl_renovacion r
     | endoso => pc_details p = cl_endoso r
     | sin_clasificar => True
     end
  /\ (is_met (cl_cotizacion r) = true \/ is_met (cl_renovacion r) = true
      \/ is_met (cl_endoso r) = true ->
      pc_type p <> sin_clasificar)
  /\ (pc_type p = endoso -> is_met (cl_endoso r) = true).
Proof.
  intros H. cbv zeta.
  destruct (classify_email_shape st id r H)
    as (md & cot & ren & en & Hmd & H1 & H2 & H3 & ->).
  cbn [email_id primary_classification pc_confidence pc_status pc_details
       pc_type cl_cotizacion cl_renovacion cl_endoso].
  apply cotizacion_verdict in H1. apply renovacion_verdict in H2.
  apply endoso_verdict in H3. rewrite H1, H2, H3.
  rewrite ClassifierFacts.best_of_highest.
  destruct (ClassifierFacts.winner_is_highest (confidence cot)
              (confidence ren) (confidence en)) as [Hw Hne].
  unfold best_of, floor, highest in *.
  split; [reflexivity |]. split; [reflexivity |]. split; [reflexivity |].
  destruct (Z.leb_spec 30 (Z.max (Z.max (confidence cot) (confidence ren))
                             (confidence en))) as [Hf | Hf].
  - split; [destruct (winner _ _ _); (reflexivity || congruence) |].
    split; [intros _; exact Hne |].
    intros Hen. rewrite Hen in Hw. cbn [confidence_of] in Hw.
    apply Z.leb_le. lia.
  - split; [exact I |]. split; [| discriminate].
    intros [K | [K | K]]; apply Z.leb_le in K; lia.
Qed.

(** On the Store of the endorsement scenario the primary type is the
    endorsement, and the endorsement verdict is positive. *)
Lemma X19_primary_against_verdicts_witness :
  exists r,
    classify_email st_endoso_a id1 = Ret (Classified r)
    /\ pc_type (primary_classification r) = endoso
    /\ is_met (cl_endoso r) = true.
Proof.
  assert (E : exists r, classify_email st_endoso_a id1 = Ret (Classified r)
                        /\ pc_type (primary_classification r) = endoso).
  { eexists. split; vm_compute; reflexivity. }
  destruct E as (r & E & Ht).
  exists r. split; [exact E |]. split; [exact Ht |].
  exact (proj2 (proj2 (proj2 (proj2 (proj2
           (X19_primary_against_verdicts st_endoso_a id1 r E))))) Ht).
Defined.

(** *** The whole batch *)

(** The three ways [classify_email] ends. *)
Lemma classify_email_cases st id :
  match metadata_files st !! id with
  | None =>
      classify_email st id
      = Ret (ErrorResult ("Metadatos no encontrados para " ++ id)%string)
  | Some md =>
      match md_subject md with
      | JNull => classify_email st id = Raise AttributeError
      | _ => exists r, classify_email st id = Ret (Classified r)
      end
  end.
Proof.
  destruct (metadata_files st !! id) as [md |] eqn:Hmd;
    [| exact (ClassifierFacts.classify_email_missing st id Hmd)].
  assert (Hret : forall asunto, subject_upper md = Ret asunto ->
            exists r, classify_email st id = Ret (Classified r)).
  { intros asunto Hs.
    destruct (ClassifierFacts.classify_cotizacion_ret md
                (analyze_attachments (attachment_dirs st !! id))
                (extract_email_content st id) asunto Hs) as (cot & H1 & _).
    destruct (ClassifierFacts.classify_renovacion_ret md
                (analyze_attachments (attachment_dirs st !! id))
                (extract_email_content st id) asunto Hs) as (ren & H2 & _).
    destruct (ClassifierFacts.classify_endoso_ret md
                (analyze_attachments (attachment_dirs st !! id))
                (extract_email_content st id) asunto Hs) as (en & H3 & _).
    destruct (ClassifierFacts.classify_email_ret st id md cot ren en
                Hmd H1 H2 H3) as (r & E & _).
    exists r. exact E. }
  destruct (md_subject md) as [| | s] eqn:Hs.
  - apply (Hret (upper [])). unfold subject_upper. now rewrite Hs.
  - unfold classify_email, classify_cotizacion, subject_upper.
    rewrite Hmd, Hs. reflexivity.
  - apply (Hret (upper s)). unfold subject_upper. now rewrite Hs.
Qed.

Lemma null_subject_raise st stem :
  null_subject st stem = true ->
  is_progress stem = false /\ classify_email st stem = Raise AttributeError.
Proof.
  unfold null_subject. intros H. apply andb_prop in H as [Hp H].
  apply negb_true_iff in Hp. split; [exact Hp |].
  pose proof (classify_email_cases st stem) as Hc.
  destruct (metadata_files st !! stem) as [md |]; [| discriminate].
  destruct (md_subject md); try discriminate. exact Hc.
Qed.

Lemma null_subject_quiet st stem :
  null_subject st stem = false ->
  is_progress stem = false ->
  exists o, classify_email st stem = Ret o.
Proof.
  unfold null_subject. intros H Hp. rewrite Hp in H. cbn [negb andb] in H.
  pose proof (classify_email_cases st stem) as Hc.
  destruct (metadata_files st !! stem) as [md |]; [| eauto].
  destruct (md_subject md); try discriminate;
    destruct Hc as [r Hr]; eauto.
Qed.

(** The loop, as a whole: it raises when a stem it reads has a null
    subject, and otherwise records the full results in listing order. *)
Lemma classify_loop_spec st stems : forall r0,
  classify_loop st stems r0
  = if existsb (null_subject st) stems then Raise AttributeError
    else Ret (fold_left (fun r c => record_result c r)
                (omap (classified st) stems) r0).
Proof.
  induction stems as [| stem stems IH]; intros r0; [reflexivity |].
  cbn [classify_loop existsb omap list_omap]. unfold classified at 1.
  fold (is_progress stem).
  destruct (null_subject st stem) eqn:Hn; cbn [orb].
  - destruct (null_subject_raise st stem Hn) as [-> ->]. reflexivity.
  - destruct (is_progress stem) eqn:Hp; [apply IH |].
    destruct (null_subject_quiet st stem Hn Hp) as [[msg | c] ->];
      unfold bind; cbn [fold_left]; apply IH.
Qed.

Lemma classify_all_emails_spec st stems :
  metadata_glob st = Some stems ->
  classify_all_emails st
  = if existsb (null_subject st) stems then Raise AttributeError
    else Ret (BatchResults
                (fold_left (fun r c => record_result c r)
                   (omap (classified st) stems) empty_results)).
Proof.
  intros H. unfold classify_all_emails. rewrite H, classify_loop_spec.
  now destruct (existsb _ _).
Qed.

Lemma count_type_snoc t l c :
  count_type t (l ++ [c])
  = count_type t l
    + (if label_eqb (pc_type (primary_classification c)) t then 1 else 0).
Proof.
  unfold count_type. rewrite List.filter_app, List.length_app.
  cbn [List.filter]. destruct (label_eqb _ _); cbn [length]; lia.
Qed.

(** What the recorded results add to a result set. *)
Lemma record_all cs : forall r0,
  let r := fold_left (fun r c => record_result c r) cs r0 in
  emails r = emails r0 ++ cs
  /\ total_emails r = total_emails r0 + Z.of_nat (length cs)
  /\ n_cotizacion r = n_cotizacion r0 + count_type cotizacion cs
  /\ n_renovacion r = n_renovacion r0 + count_type renovacion cs
  /\ n_endoso r = n_endoso r0 + count_type endoso cs
  /\ n_sin_clasificar r = n_sin_clasificar r0 + count_type sin_clasificar cs.
Proof.
  induction cs as [| c cs IH] using rev_ind; intros r0; cbv zeta.
  - cbn. rewrite app_nil_r. unfold count_type. cbn. repeat split; lia.
  - rewrite fold_left_app. cbn [fold_left].
    destruct (IH r0) as (E & E0 & E1 & E2 & E3 & E4).
    rewrite !count_type_snoc, List.length_app. cbn [length].
    set (r1 := fold_left _ cs r0) in *.
    unfold record_result, bump.
    cbn [emails total_emails n_cotizacion n_renovacion n_endoso
         n_sin_clasificar].
    rewrite E, E0, E1, E2, E3, E4, <- app_assoc.
    split; [reflexivity |].
    destruct (pc_type (primary_classification c)); cbn [label_eqb];
      repeat split; lia.
Qed.

Lemma classified_Some st stem c :
  classified st stem = Some c ->
  is_progress stem = false /\ classify_email st stem = Ret (Classified c).
Proof.
  unfold classified. destruct (is_progress stem); [discriminate |].
  destruct (classify_email st stem) as [[msg | c'] | e]; try discriminate.
  now intros [= ->].
Qed.

(** The ids of the recorded results, given that no stem makes the loop
    raise. *)
Lemma recorded_ids st stems :
  existsb (null_subject st) stems = false ->
  List.map email_id (omap (classified st) stems)
  = List.filter (fun s => negb (is_progress s) && has_metadata st s) stems.
Proof.
  induction stems as [| stem stems IH]; [reflexivity |].
  cbn [existsb]. intros H. apply orb_false_iff in H as [Hn H].
  cbn [omap list_omap List.filter]. fold (omap (classified st) stems).
  unfold has_metadata at 1.
  destruct (classified st stem) as [c |] eqn:Hc.
  - destruct (classified_Some st stem c Hc) as [Hp Hr]. rewrite Hp.
    destruct (classify_email_shape st stem c Hr)
      as (md & cot & ren & en & -> & _ & _ & _ & ->).
    cbn [negb andb List.map email_id]. now rewrite (IH H).
  - unfold classified in Hc.
    destruct (is_progress stem) eqn:Hp; [cbn [negb andb]; exact (IH H) |].
    pose proof (classify_email_cases st stem) as Hcase.
    unfold null_subject in Hn. rewrite Hp in Hn. cbn [negb andb] in Hn.
    destruct (metadata_files st !! stem) as [md |];
      [| cbn [negb andb]; exact (IH H)].
    destruct (md_subject md); try discriminate Hn;
      destruct Hcase as [r Hr]; rewrite Hr in Hc; discriminate Hc.
Qed.

(** X20.  The result set of a batch holds one result for every listed
    stem that has a metadata file, the stem "progress" apart, in the
    order of the listing; each of them is the result [classify_email]
    gives for its id. *)
Theorem X20_results_follow_the_listing st stems r :
  metadata_glob st = Some stems ->
  classify_all_emails st = Ret (BatchResults r) ->
  List.map email_id (emails r)
  = List.filter (fun s => negb (is_progress s) && has_metadata st s) stems
  /\ Forall (fun c => classify_email st (email_id c) = Ret (Classified c))
       (emails r).
Proof.
  intros Hg H. rewrite (classify_all_emails_spec st stems Hg) in H.
  destruct (existsb (null_subject st) stems) eqn:Hn; [discriminate |].
  injection H as <-.
  destruct (record_all (omap (classified st) stems) empty_results)
    as (E & _). cbv zeta in E. rewrite E. cbn [emails empty_results app].
  split; [exact (recorded_ids st stems Hn) |].
  apply Forall_forall. intros c Hin.
  apply list_elem_of_omap in Hin as (stem & _ & Hc).
  destruct (classified_Some st stem c Hc) as [_ Hr].
  destruct (classify_email_shape st stem c Hr)
    as (md & cot & ren & en & _ & _ & _ & _ & Er).
  assert (Eid : email_id c = stem) by (rewrite Er; reflexivity).
  rewrite Eid. exact Hr.
Qed.

(** With the file of the extractor between two messages, the result set
    holds the two messages in their order. *)
Lemma X20_results_follow_the_listing_witness :
  exists r,
    classify_all_emails st_two = Ret (BatchResults r)
    /\ List.map email_id (emails r) = [id1; id2].
Proof.
  assert (E : exists r, classify_all_emails st_two = Ret (BatchResults r))
    by (eexists; vm_compute; reflexivity).
  destruct E as (r & E). exists r. split; [exact E |].
  rewrite (proj1 (X20_results_follow_the_listing st_two _ r eq_refl E)).
  vm_compute. reflexivity.
Defined.

(** X21.  Each of the four counters of a result set is the number of
    its results with that primary type. *)
Theorem X21_counters_count_primary_types st r :
  classify_all_emails st = Ret (BatchResults r) ->
  n_cotizacion r = count_type cotizacion (emails r)
  /\ n_renovacion r = count_type renovacion (emails r)
  /\ n_endoso r = count_type endoso (emails r)
  /\ n_sin_clasificar r = count_type sin_clasificar (emails r).
Proof.
  destruct (metadata_glob st) as [stems |] eqn:Hg;
    [| unfold classify_all_emails; rewrite Hg; discriminate].
  rewrite (classify_all_emails_spec st stems Hg).
  destruct (existsb (null_subject st) stems); [discriminate |].
  intros [= <-].
  destruct (record_all (omap (classified st) stems) empty_results)
    as (E & _ & E1 & E2 & E3 & E4). cbv zeta in *.
  rewrite E, E1, E2, E3, E4. cbn [emails empty_results app n_cotizacion
    n_renovacion n_endoso n_sin_clasificar].
  repeat split; lia.
Qed.

(** A quote and an endorsement are counted one each. *)
Lemma X21_counters_count_primary_types_witness :
  exists r,
    classify_all_emails st_two = Ret (BatchResults r)
    /\ counters r = (1, 0, 1, 0).
Proof.
  assert (E : exists r, classify_all_emails st_two = Ret (BatchResults r))
    by (eexists; vm_compute; reflexivity).
  destruct E as (r & E). exists r. split; [exact E |].
  destruct (X21_counters_count_primary_types st_two r E)
    as (E1 & E2 & E3 & E4).
  unfold counters. rewrite E1, E2, E3, E4.
  vm_compute in E. injection E as <-. vm_compute. reflexivity.
Defined.

Lemma existsb_perm {A} (f : A -> bool) (l l' : list A) :
  l ≡ₚ l' -> existsb f l = existsb f l'.
Proof.
  induction 1 as [| x l l' _ IH | x y l | l l' l'' _ IH1 _ IH2];
    cbn [existsb]; [reflexivity | now rewrite IH | | congruence].
  now destruct (f x), (f y).
Qed.

Lemma count_type_perm t (l l' : list result) :
  l ≡ₚ l' -> count_type t l = count_type t l'.
Proof.
  unfold count_type.
  induction 1 as [| x l l' _ IH | x y l | l l' l'' _ IH1 _ IH2];
    cbn [List.filter]; [reflexivity | | | congruence].
  - destruct (label_eqb _ t); cbn [length]; lia.
  - destruct (label_eqb (pc_type (primary_classification x)) t),
      (label_eqb (pc_type (primary_classification y)) t); reflexivity.
Qed.

(** X22.  The order in which the directory lists the metadata files
    decides the order of the results and nothing else: with the same
    files listed in another order the batch fails the same way, or
    returns the same results up to their order, with the same total and
    the same four counters. *)
Theorem X22_listing_order_only_orders st stems stems' :
  metadata_glob st = Some stems ->
  stems ≡ₚ stems' ->
  match classify_all_emails st, classify_all_emails (with_glob st stems') with
  | Ret (BatchResults r), Ret (BatchResults r') =>
      emails r ≡ₚ emails r'
      /\ total_emails r = total_emails r'
      /\ counters r = counters r'
  | Raise e, Raise e' => e = e'
  | _, _ => False
  end.
Proof.
  intros Hg Hp.
  rewrite (classify_all_emails_spec st stems Hg).
  rewrite (classify_all_emails_spec (with_glob st stems') stems' eq_refl).
  change (null_subject (with_glob st stems')) with (null_subject st).
  change (classified (with_glob st stems')) with (classified st).
  rewrite <- (existsb_perm (null_subject st) stems stems' Hp).
  destruct (existsb (null_subject st) stems); [reflexivity |].
  assert (Hc : omap (classified st) stems ≡ₚ omap (classified st) stems')
    by (now rewrite Hp).
  destruct (record_all (omap (classified st) stems) empty_results)
    as (E & E0 & E1 & E2 & E3 & E4).
  destruct (record_all (omap (classified st) stems') empty_results)
    as (E' & E0' & E1' & E2' & E3' & E4').
  cbv zeta in *. unfold counters.
  rewrite E, E0, E1, E2, E3, E4, E', E0', E1', E2', E3', E4'.
  rewrite !(count_type_perm _ _ _ Hc), (Permutation_length Hc).
  cbn [emails empty_results app]. now repeat split.
Qed.

(** The listing of the two messages, read backwards. *)
Lemma X22_listing_order_only_orders_witness :
  exists r r',
    classify_all_emails st_two = Ret (BatchResults r)
    /\ classify_all_emails (with_glob st_two [id2; "progress"%string; id1])
       = Ret (BatchResults r')
    /\ List.map email_id (emails r) = [id1; id2]
    /\ List.map email_id (emails r') = [id2; id1]
    /\ counters r = counters r'.
Proof.
  assert (Hp : [id1; "progress"%string; id2]
               ≡ₚ [id2; "progress"%string; id1]).
  { etransitivity; [apply perm_skip, perm_swap |].
    etransitivity; [apply perm_swap |]. apply perm_skip, perm_swap. }
  pose proof (X22_listing_order_only_orders st_two _ _ eq_refl Hp) as H.
  destruct (classify_all_emails st_two) as [[msg | r] | e] eqn:E;
    [discriminate E | | discriminate E].
  destruct (classify_all_emails (with_glob st_two _)) as [[msg | r'] | e]
    eqn:E'; [discriminate E' | | discriminate E'].
  exists r, r'. split; [reflexivity |]. split; [reflexivity |].
  vm_compute in E. injection E as <-.
  vm_compute in E'. injection E' as <-.
  split; [reflexivity |]. split; [reflexivity |]. apply H.
Defined.





(** *** The body of a message *)

(** The evaluators read nothing of the content but [combined_text]. *)
Lemma evaluators_read_combined_text md ai ec ec' :
  combined_text ec = combined_text ec' ->
  classify_cotizacion md ai ec = classify_cotizacion md ai ec'
  /\ classify_renovacion md ai ec = classify_renovacion md ai ec'
  /\ classify_endoso md ai ec = classify_endoso md ai ec'.
Proof.
  intros H.
  unfold classify_cotizacion, classify_renovacion, classify_endoso,
    body_upper.
  rewrite H. repeat split; reflexivity.
Qed.

Lemma read_parts_without_html get_text parts : forall content,
  Forall (fun p => part_type p = text_html -> part_text p = None) parts ->
  combined_text (fold_left (read_part get_text) parts content)
  = combined_text content
  /\ html_content (fold_left (read_part get_text) parts content)
     = html_content content.
Proof.
  induction parts as [| p parts IH]; intros content Hp; [now split |].
  inversion Hp as [| ? ? Hhead Htail]; subst.
  cbn [fold_left]. destruct (IH (read_part get_text content p) Htail)
    as [-> ->].
  unfold read_part.
  destruct (part_type p) eqn:Et, (part_text p) eqn:Ex;
    try (now split).
  specialize (Hhead eq_refl). discriminate Hhead.
Qed.

(** X24.  The text of a message without an HTML part plays no part in
    its classification.  [combined_text], the only text the evaluators
    read, is filled from HTML parts alone: when no part of the stored
    message is an HTML part with a payload, it stays empty although
    [plain_text] holds the body, and each evaluator answers as it does
    for a message without any text. *)
Theorem X24_plain_text_is_not_classified get_text parts md ai :
  Forall (fun p => part_type p = text_html -> part_text p = None) parts ->
  let ec := content_of_eml get_text (Some parts) in
  combined_text ec = []
  /\ html_content ec = []
  /\ classify_cotizacion md ai ec = classify_cotizacion md ai empty_content
  /\ classify_renovacion md ai ec = classify_renovacion md ai empty_content
  /\ classify_endoso md ai ec = classify_endoso md ai empty_content.
Proof.
  intros Hp. cbv zeta.
  destruct (read_parts_without_html get_text parts empty_content Hp)
    as [Hc Hh].
  assert (E : combined_text (content_of_eml get_text (Some parts)) = []
              /\ html_content (content_of_eml get_text (Some parts)) = []).
  { unfold content_of_eml. cbv zeta. rewrite Hc. cbn [combined_text
      empty_content truthy]. rewrite andb_false_r. now split. }
  destruct E as [E1 E2]. split; [exact E1 |]. split; [exact E2 |].
  apply evaluators_read_combined_text. rewrite E1. reflexivity.
Qed.

(** A request for a quote with an agent code, sent as plain text under
    the subject "Hola", scores 0 as a quote; the same request sent as
    HTML scores 35. *)
Lemma X24_plain_text_is_not_classified_witness :
  let get_text := fun html : pystr => Some html in
  let md := meta_of id1 (JVal (py "Hola")) in
  plain_text (content_of_eml get_text (Some plain_request))
  = py "Solicito cotizacion, agente 123"
  /\ (exists c,
        classify_cotizacion md empty_info
          (content_of_eml get_text (Some plain_request)) = Ret c
        /\ confidence c = 0)
  /\ (exists c,
        classify_cotizacion md empty_info
          (content_of_eml get_text (Some html_request)) = Ret c
        /\ confidence c = 35).
Proof.
  cbv zeta. split; [reflexivity |]. split.
  - assert (Hp : Forall (fun p => part_type p = text_html
                                  -> part_text p = None) plain_request)
      by (repeat constructor; discriminate).
    destruct (X24_plain_text_is_not_classified (fun html => Some html)
                plain_request (meta_of id1 (JVal (py "Hola"))) empty_info
                Hp) as (_ & _ & -> & _).
    eexists. split; vm_compute; reflexivity.
  - eexists. split; vm_compute; reflexivity.
Defined.

(** *** The report *)

(** A result set that the batch returns, as a whole. *)
Lemma batch_results st r :
  classify_all_emails st = Ret (BatchResults r) ->
  exists stems,
    metadata_glob st = Some stems
    /\ emails r = omap (classified st) stems
    /\ total_emails r = Z.of_nat (length (emails r))
    /\ n_cotizacion r = count_type cotizacion (emails r)
    /\ n_renovacion r = count_type renovacion (emails r)
    /\ n_endoso r = count_type endoso (emails r)
    /\ n_sin_clasificar r = count_type sin_clasificar (emails r).
Proof.
  destruct (metadata_glob st) as [stems |] eqn:Hg;
    [| unfold classify_all_emails; rewrite Hg; discriminate].
  rewrite (classify_all_emails_spec st stems Hg).
  destruct (existsb (null_subject st) stems); [discriminate |].
  intros [= <-]. exists stems. split; [reflexivity |].
  destruct (record_all (omap (classified st) stems) empty_results)
    as (E & E0 & E1 & E2 & E3 & E4). cbv zeta in *.
  rewrite E, E0, E1, E2, E3, E4.
  cbn [emails empty_results app total_emails n_cotizacion n_renovacion
       n_endoso n_sin_clasificar].
  repeat split; lia.
Qed.

(** A message that was classified has a subject that is not null. *)
Lemma classified_subject st stem c :
  classified st stem = Some c -> subject_line c <> None.
Proof.
  intros Hc. destruct (classified_Some st stem c Hc) as [_ Hr].
  destruct (classify_email_shape st stem c Hr)
    as (md & cot & ren & en & _ & H1 & _ & _ & ->).
  unfold subject_line. cbn [r_metadata email_id].
  unfold classify_cotizacion, subject_upper in H1.
  destruct (md_subject md); try discriminate.
Qed.

Lemma subject_lines_total l :
  Forall (fun c => subject_line c <> None) l ->
  exists lines, subject_lines l = Some lines /\ length lines = length l.
Proof.
  induction 1 as [| c l Hc _ (lines & E & Hl)]; cbn [subject_lines].
  - now exists [].
  - destruct (subject_line c) as [line |]; [| congruence].
    rewrite E. exists (line :: lines). cbn [length]. now rewrite Hl.
Qed.

Lemma detail_of_total t l :
  Forall (fun c => subject_line c <> None) l ->
  exists d, detail_of t l = Some d
            /\ detail_size d = count_type t l
            /\ (length (shown d) <= 5)%nat.
Proof.
  intros Hl. unfold detail_of. cbv zeta.
  assert (Hs : Forall (fun c => subject_line c <> None)
                 (firstn 5 (of_type t l))).
  { apply Forall_forall. intros c Hin.
    rewrite Forall_forall in Hl. apply Hl.
    apply list_elem_of_In in Hin. apply list_elem_of_In.
    assert (Hin' : In c (of_type t l)).
    { rewrite <- (List.firstn_skipn 5 (of_type t l)).
      apply in_or_app. now left. }
    unfold of_type in Hin'. apply List.filter_In in Hin'. tauto. }
  destruct (subject_lines_total _ Hs) as (lines & -> & Hlen).
  eexists. split; [reflexivity |].
  unfold detail_size, count_type. cbn [shown more]. fold (of_type t l).
  rewrite Hlen, List.length_firstn.
  destruct (Nat.ltb_spec 5 (length (of_type t l))); split; lia.
Qed.

(** X25.  [generate_report] on a batch.  It fails with
    [ZeroDivisionError] exactly when the batch returns a result set
    without messages (the result set has been written by then, the
    report has not); slicing the subject never fails, since a classified
    message has a subject that is not null.  In a report that is
    returned, every category shows at most five messages, and the lines
    shown together with the count of the remaining ones make up the
    counter of the category. *)
Theorem X25_report_fails_on_an_empty_batch st :
  (generate_report st = ReportRaise ZeroDivisionError
   <-> exists r, classify_all_emails st = Ret (BatchResults r)
                 /\ emails r = [])
  /\ generate_report st <> ReportRaise TypeError
  /\ (forall rp, generate_report st = Report rp ->
        rp_total rp <> 0
        /\ detail_size (rp_cotizaciones rp) = rp_cotizacion rp
        /\ detail_size (rp_renovaciones rp) = rp_renovacion rp
        /\ detail_size (rp_endosos rp) = rp_endoso rp
        /\ (length (shown (rp_cotizaciones rp)) <= 5)%nat
        /\ (length (shown (rp_renovaciones rp)) <= 5)%nat
        /\ (length (shown (rp_endosos rp)) <= 5)%nat).
Proof.
  unfold generate_report.
  destruct (classify_all_emails st) as [[msg | r] | e] eqn:E.
  - split; [split; [discriminate | intros (r & Hr & _); discriminate] |].
    split; discriminate.
  - destruct (batch_results st r E)
      as (stems & Hg & He & Ht & E1 & E2 & E3 & _).
    assert (Hl : Forall (fun c => subject_line c <> None) (emails r)).
    { rewrite He. apply Forall_forall. intros c Hin.
      apply list_elem_of_omap in Hin as (stem & _ & Hc).
      exact (classified_subject st stem c Hc). }
    destruct (detail_of_total cotizacion _ Hl) as (d1 & -> & S1 & L1).
    destruct (detail_of_total renovacion _ Hl) as (d2 & -> & S2 & L2).
    destruct (detail_of_total endoso _ Hl) as (d3 & -> & S3 & L3).
    destruct (Z.eqb_spec (total_emails r) 0) as [Hz | Hz].
    + split; [| split; discriminate].
      split; [intros _ | reflexivity].
      exists r. split; [reflexivity |].
      destruct (emails r); [reflexivity | cbn [length] in Ht; lia].
    + split; [| split; [discriminate |]].
      * split; [discriminate |].
        intros (r' & [= <-] & Hnil). rewrite Hnil in Ht. cbn in Ht.
        contradiction.
      * intros rp [= <-].
        cbn [rp_total rp_cotizacion rp_renovacion rp_endoso rp_cotizaciones
             rp_renovaciones rp_endosos].
        rewrite E1, E2, E3. repeat split; assumption.
  - split; [split; [discriminate | intros (r & Hr & _); discriminate] |].
    split; discriminate.
Qed.

(** A metadata directory that holds no message: the batch returns an
    empty result set and the report fails. *)
Lemma X25_report_fails_on_an_empty_batch_witness :
  classify_all_emails st_no_messages = Ret (BatchResults empty_results)
  /\ generate_report st_no_messages = ReportRaise ZeroDivisionError.
Proof.
  assert (E : classify_all_emails st_no_messages
              = Ret (BatchResults empty_results)) by reflexivity.
  split; [exact E |].
  apply (proj1 (X25_report_fails_on_an_empty_batch st_no_messages)).
  exists empty_results. split; [exact E | reflexivity].
Defined.

(** *** Re-classification *)

Lemma tally_counts l : forall a b c d,
  fold_left tally_one l (a, b, c, d)
  = (a + count_type cotizacion l, b + count_type renovacion l,
     c + count_type endoso l, d + count_type sin_clasificar l).
Proof.
  unfold count_type.
  induction l as [| e l IH]; intros a b c d.
  - cbn. rewrite !pair_equal_spec. repeat split; lia.
  - cbn [fold_left List.filter]. unfold tally_one at 2.
    destruct (pc_type (primary_classification e)); rewrite IH;
      cbn [label_eqb length]; rewrite !pair_equal_spec;
      repeat split; lia.
Qed.

Lemma count_types_add_up l :
  count_type cotizacion l + count_type renovacion l + count_type endoso l
  + count_type sin_clasificar l = Z.of_nat (length l).
Proof.
  unfold count_type. induction l as [| e l IH]; [reflexivity |].
  cbn [List.filter length].
  destruct (pc_type (primary_classification e)); cbn [label_eqb length];
    lia.
Qed.

(** The number of entries that count as improved. *)
Lemma reclassify_loop_inv st existing : forall acc n news n',
  reclassify_loop st existing acc n = Ret (news, n') ->
  news = acc ++ List.map (renew st) existing
  /\ n <= n'
  /\ n' - n <= count_type sin_clasificar existing
  /\ Forall (fun old => exists o, classify_email st (email_id old) = Ret o)
       existing.
Proof.
  induction existing as [| old rest IH]; intros acc n news n';
    cbn [reclassify_loop].
  - intros [= <- <-]. rewrite app_nil_r. unfold count_type. cbn.
    repeat split; try lia. constructor.
  - cbn [List.map].
    destruct (classify_email st (email_id old)) as [[msg | new] | e] eqn:E;
      unfold bind; [| | discriminate]; intros H;
      apply IH in H as (-> & Hn & Hc & Hf);
      rewrite <- app_assoc; cbn [app];
      (split; [unfold renew; rewrite E; reflexivity |]);
      unfold count_type in *; cbn [List.filter].
    + destruct (label_eqb _ sin_clasificar); cbn [length];
        repeat split; try lia; constructor; eauto.
    + unfold improved in *.
      destruct (label_eqb (pc_type (primary_classification old))
                  sin_clasificar); cbn [andb length] in *;
        [destruct (negb _) |];
        repeat split; try lia; constructor; eauto.
Qed.

Lemma renew_id st old : email_id (renew st old) = email_id old.
Proof.
  unfold renew.
  destruct (classify_email st (email_id old)) as [[msg | new] | e] eqn:E;
    try reflexivity.
  destruct (classify_email_shape st _ new E)
    as (md & cot & ren & en & _ & _ & _ & _ & ->).
  reflexivity.
Qed.

(** X26.  What a re-classification keeps.  When the script returns
    having written, the new result file holds one entry for every entry
    of the old one, for the same ids in the same order: the result of
    [classify_email] for that id, or the old entry itself where the
    metadata of the message is gone.  The old entries are the backup.
    The total is the number of entries and the sum of the four counts,
    and the number of improved messages is at most the number of entries
    that were unclassified before. *)
Theorem X26_reclassification_keeps_every_entry st existing nr :
  reclassify_all_emails st (Some existing) = Ret (Some nr) ->
  List.map email_id (nr_emails nr) = List.map email_id existing
  /\ nr_emails nr = List.map (renew st) existing
  /\ nr_backup nr = existing
  /\ nr_total_emails nr = Z.of_nat (length existing)
  /\ (let '(n_cot, n_ren, n_end, n_sin) := nr_counts nr in
      nr_total_emails nr = n_cot + n_ren + n_end + n_sin)
  /\ 0 <= nr_improved nr <= count_type sin_clasificar existing.
Proof.
  unfold reclassify_all_emails.
  destruct (reclassify_loop st existing [] 0) as [[news n] | e] eqn:E;
    unfold bind; [| discriminate].
  intros [= <-].
  apply reclassify_loop_inv in E as (-> & Hn & Hc & _).
  cbn [nr_emails nr_backup nr_total_emails nr_counts nr_improved app].
  split.
  { rewrite List.map_map. apply List.map_ext. intros old.
    apply renew_id. }
  split; [reflexivity |]. split; [reflexivity |].
  split; [now rewrite List.length_map |].
  split; [| lia].
  unfold tally. rewrite tally_counts.
  rewrite <- (count_types_add_up (List.map (renew st) existing)). lia.
Qed.

(** The two entries of the batch, re-classified after the metadata of the
    second message has gone: both are kept. *)
Lemma X26_reclassification_keeps_every_entry_witness :
  exists nr,
    reclassify_all_emails st_two_less (Some entries_two) = Ret (Some nr)
    /\ List.map email_id (nr_emails nr) = [id1; id2]
    /\ nr_total_emails nr = 2.
Proof.
  assert (E : exists nr, reclassify_all_emails st_two_less
                           (Some entries_two) = Ret (Some nr))
    by (eexists; vm_compute; reflexivity).
  destruct E as [nr E]. exists nr. split; [exact E |].
  destruct (X26_reclassification_keeps_every_entry _ _ _ E)
    as (H1 & _ & _ & H4 & _).
  rewrite H1, H4. split; vm_compute; reflexivity.
Defined.

(** A result set re-classified on the Store it was computed from. *)
Lemma reclassify_own_results st stems : forall acc n,
  existsb (null_subject st) stems = false ->
  reclassify_loop st (omap (classified st) stems) acc n
  = Ret (acc ++ omap (classified st) stems, n).
Proof.
  induction stems as [| stem stems IH]; intros acc n.
  - intros _. cbn. now rewrite app_nil_r.
  - cbn [existsb]. intros H. apply orb_false_iff in H as [_ H].
    cbn [omap list_omap]. fold (omap (classified st) stems).
    destruct (classified st stem) as [c |] eqn:Hc; [| exact (IH acc n H)].
    destruct (classified_Some st stem c Hc) as [_ Hr].
    assert (Eid : email_id c = stem).
    { destruct (classify_email_shape st stem c Hr)
        as (md & cot & ren & en & _ & _ & _ & _ & ->). reflexivity. }
    cbn [reclassify_loop]. rewrite Eid, Hr. unfold bind.
    assert (Hi : improved c c = false).
    { unfold improved. now destruct (label_eqb _ _). }
    rewrite Hi, (IH _ _ H), <- app_assoc. reflexivity.
Qed.

(** X27.  Re-classifying the result set of a batch on the Store it was
    computed from changes nothing: the script returns the same entries
    in the same order, its total and its four counts are those of the
    batch, and no message counts as improved. *)
Theorem X27_reclassifying_a_fresh_batch_is_idle st r :
  classify_all_emails st = Ret (BatchResults r) ->
  exists nr,
    reclassify_all_emails st (Some (emails r)) = Ret (Some nr)
    /\ nr_emails nr = emails r
    /\ nr_total_emails nr = total_emails r
    /\ nr_counts nr = counters r
    /\ nr_improved nr = 0.
Proof.
  intros H.
  destruct (batch_results st r H)
    as (stems & Hg & He & Ht & E1 & E2 & E3 & E4).
  assert (Hn : existsb (null_subject st) stems = false).
  { rewrite (classify_all_emails_spec st stems Hg) in H.
    now destruct (existsb (null_subject st) stems). }
  assert (Hloop : reclassify_loop st (emails r) [] 0 = Ret (emails r, 0)).
  { rewrite He. exact (reclassify_own_results st stems [] 0 Hn). }
  unfold reclassify_all_emails. rewrite Hloop.
  unfold bind. eexists. split; [reflexivity |].
  cbn [nr_emails nr_total_emails nr_counts nr_improved].
  split; [reflexivity |]. split; [now rewrite Ht |].
  split; [| reflexivity].
  unfold tally, counters. rewrite tally_counts, E1, E2, E3, E4.
  reflexivity.
Qed.

(** The batch over the quote and the endorsement, and its
    re-classification. *)
Lemma X27_reclassifying_a_fresh_batch_is_idle_witness :
  exists r nr,
    classify_all_emails st_two = Ret (BatchResults r)
    /\ reclassify_all_emails st_two (Some (emails r)) = Ret (Some nr)
    /\ nr_emails nr = emails r
    /\ nr_counts nr = (1, 0, 1, 0).
Proof.
  assert (E : exists r, classify_all_emails st_two = Ret (BatchResults r)
                        /\ counters r = (1, 0, 1, 0))
    by (eexists; split; vm_compute; reflexivity).
  destruct E as (r & E & Hc).
  destruct (X27_reclassifying_a_fresh_batch_is_idle st_two r E)
    as (nr & H1 & H2 & _ & H3 & _).
  exists r, nr. split; [exact E |]. split; [exact H1 |].
  split; [exact H2 |]. now rewrite H3.
Defined.

End ClassifierMore.

(* ===================================================================== *)
(** ** Properties that span extraction and classification *)
(* ===================================================================== *)

Module PipelineMore.
Import PyStr Py Meta PipelineNotions.

(** X28.  A message without a subject, once extracted, makes the
    classification fail.  The extractor copies the [None] the reader
    gives for the subject into the metadata record; on a disk that holds
    this record [classify_email] raises [AttributeError] for the message,
    and so does every batch whose listing names it: no result set is
    returned for any message. *)
Theorem X28_message_without_subject_fails_the_batch
  m folder_name x listing contents dirs :
  Extractor.msg_subject m = JNull ->
  let x' := snd (Extractor.process_message m folder_name x) in
  let id := ExtractorNotions.next_id x in
  Extractor.processed_emails (Extractor.progress_data x')
  = Extractor.processed_emails (Extractor.progress_data x) ++ [id] ->
  In id listing ->
  let st := store_of (Extractor.disk x') listing contents dirs in
  Classifier.classify_email st id = Raise AttributeError
  /\ Classifier.classify_all_emails st = Raise AttributeError.
Proof.
  intros Hs x' id Hp Hin st.
  destruct (ExtractorMore.process_message_record m folder_name x Hp)
    as (md & Hmd & Hsub & _).
  fold x' id in Hmd. rewrite Hs in Hsub.
  assert (Hn : ClassifierNotions.null_subject st id = true).
  { unfold ClassifierNotions.null_subject, ClassifierNotions.is_progress.
    unfold id, ExtractorNotions.next_id.
    rewrite ExtractorMore.format_id_not_progress.
    fold (ExtractorNotions.next_id x). fold id.
    unfold st, store_of. cbn [Classifier.metadata_files].
    rewrite Hmd, Hsub. reflexivity. }
  split.
  - exact (proj2 (ClassifierMore.null_subject_raise st id Hn)).
  - rewrite (ClassifierMore.classify_all_emails_spec st listing eq_refl).
    assert (He : existsb (ClassifierNotions.null_subject st) listing = true)
      by (apply existsb_exists; exists id; split; assumption).
    now rewrite He.
Qed.

(** The first message of a fresh run has no subject: it is extracted,
    and the batch over the disk fails. *)
Lemma X28_message_without_subject_fails_the_batch_witness :
  let x' := snd (Extractor.process_message msg_no_subject (py "Inbox")
                   (Extractor.init ExtractorProps.empty_fs 0)) in
  Extractor.processed_emails (Extractor.progress_data x')
  = [ExtractorProps.id1]
  /\ Classifier.classify_all_emails
       (store_of (Extractor.disk x') [ExtractorProps.id1] ∅ ∅)
     = Raise AttributeError.
Proof.
  cbv zeta. split; [vm_compute; reflexivity |].
  apply (X28_message_without_subject_fails_the_batch msg_no_subject
           (py "Inbox") (Extractor.init ExtractorProps.empty_fs 0)
           [ExtractorProps.id1] ∅ ∅ eq_refl).
  - vm_compute. reflexivity.
  - left. vm_compute. reflexivity.
Defined.

End PipelineMore.
